(** * Crowd-control simulation engines: a shallow embedding

The Python engines of [backend/app/engine] ([simulation.py],
[evacuation.py], [facilities.py]) are translated function by function.
Python [int] is [Z]; Python [float] is an IEEE-754 binary64 value, taken
from the Standard Library's executable specification [spec_float] with
[prec = 53] and [emax = 1024]; a raised exception is the [Raise] branch
of [result]. *)

From Stdlib Require Import ZArith Lia Bool List.
From Stdlib Require Import Floats.SpecFloat.
From stdpp Require Import base strings gmap.

Local Open Scope Z_scope.

(** ** Exceptions and the error monad *)

Inductive exn : Set :=
| ZeroDivisionError
| OverflowError
| ValueError
| KeyError
| AttributeError.

Inductive result (A : Type) : Type :=
| Ok (a : A)
| Raise (e : exn).

Arguments Ok {A} a.
Arguments Raise {A} e.

Definition rbind {A B : Type} (r : result A) (k : A -> result B) : result B :=
  match r with
  | Ok a => k a
  | Raise e => Raise e
  end.

Notation "'let*' x ':=' r 'in' k" := (rbind r (fun x => k))
  (at level 10, x pattern, r at level 100, k at level 200).

Definition of_option {A : Type} (e : exn) (o : option A) : result A :=
  match o with
  | Some a => Ok a
  | None => Raise e
  end.

(** ** Python numbers *)

Module Py.

Definition float : Set := spec_float.

Definition prec : Z := 53.
Definition emax : Z := 1024.

Definition fmul : float -> float -> float := SFmul prec emax.
Definition fadd : float -> float -> float := SFadd prec emax.
Definition fsub : float -> float -> float := SFsub prec emax.
Definition flt : float -> float -> bool := SFltb.
Definition fle : float -> float -> bool := SFleb.
Definition fgt (x y : float) : bool := SFltb y x.
Definition fge (x y : float) : bool := SFleb y x.

Definition is_zero (x : float) : bool :=
  match x with
  | S754_zero _ => true
  | _ => false
  end.

(** [x / y] on floats raises on a zero divisor. *)
Definition fdiv (x y : float) : result float :=
  if is_zero y then Raise ZeroDivisionError else Ok (SFdiv prec emax x y).

(** [float(z)]: round to nearest, ties to even; too large an [int] raises. *)
Definition of_int (z : Z) : result float :=
  match binary_normalize prec emax z 0 false with
  | S754_infinity _ => Raise OverflowError
  | f => Ok f
  end.

(** [a / b] on two [int]s: the correctly rounded quotient.  The quotient is
    taken with 56 or more significant bits and a sticky bit, then rounded
    once. *)
Definition int_truediv (a b : Z) : result float :=
  if b =? 0 then Raise ZeroDivisionError
  else
    let s := xorb (a <? 0) (b <? 0) in
    let a' := Z.abs a in
    let b' := Z.abs b in
    if a' =? 0 then Ok (S754_zero s)
    else
      let k := Z.max 0 (Z.log2 b' + 56 - Z.log2 a') in
      let n := a' * 2 ^ k in
      let m := 2 * (n / b') + (if n mod b' =? 0 then 0 else 1) in
      match binary_round prec emax s (Z.to_pos m) (- k - 1) with
      | S754_infinity _ => Raise OverflowError
      | f => Ok f
      end.

(** [int(x)]: truncation toward zero. *)
Definition trunc_mag (m : positive) (e : Z) : Z :=
  match e with
  | Z0 => Zpos m
  | Zpos p => Zpos m * 2 ^ Zpos p
  | Zneg p => Zpos m / 2 ^ Zpos p
  end.

Definition to_int (x : float) : result Z :=
  match x with
  | S754_zero _ => Ok 0
  | S754_finite s m e => Ok (if s then - trunc_mag m e else trunc_mag m e)
  | S754_infinity _ => Raise OverflowError
  | S754_nan => Raise ValueError
  end.

(** A decimal literal [p / q] denotes the double nearest to it. *)
Definition lit (p q : Z) : float :=
  match int_truediv p q with
  | Ok f => f
  | Raise _ => S754_nan
  end.

(** Exact comparison of a float with an [int], as Python performs it. *)
Definition cmp_int (x : float) (z : Z) : option comparison :=
  match x with
  | S754_nan => None
  | S754_infinity s => Some (if s then Lt else Gt)
  | S754_zero _ => Some (0 ?= z)
  | S754_finite s m e =>
      let v := if s then Zneg m else Zpos m in
      Some (match e with
            | Zneg p => v ?= z * 2 ^ Zpos p
            | _ => v * 2 ^ e ?= z
            end)
  end.

(** A value that is an [int] or a [float] at run time. *)
Inductive num : Set :=
| I (z : Z)
| F (x : float).

Definition num_cmp (a b : num) : option comparison :=
  match a, b with
  | I x, I y => Some (x ?= y)
  | F x, F y => SFcompare x y
  | F x, I y => cmp_int x y
  | I x, F y => option_map CompOpp (cmp_int y x)
  end.

Definition num_lt (a b : num) : bool :=
  match num_cmp a b with
  | Some Lt => true
  | _ => false
  end.

(** [a >= b], that is [b <= a]. *)
Definition num_ge (a b : num) : bool :=
  match num_cmp b a with
  | Some Lt | Some Eq => true
  | _ => false
  end.

(** Two-argument [min] and [max]: the first argument is kept unless the
    second is strictly smaller (larger). *)
Definition min2 (a b : num) : num := if num_lt b a then b else a.
Definition max2 (a b : num) : num := if num_lt a b then b else a.

Definition fmax2 (a b : float) : float := if flt a b then b else a.

Definition to_float (a : num) : result float :=
  match a with
  | I z => of_int z
  | F x => Ok x
  end.

Definition num_to_int (a : num) : result Z :=
  match a with
  | I z => Ok z
  | F x => to_int x
  end.

(** [a * x] with [x] a float. *)
Definition num_mul_float (a : num) (x : float) : result float :=
  let* fa := to_float a in Ok (fmul fa x).

Definition int_mul_float (z : Z) (x : float) : result float :=
  let* fz := of_int z in Ok (fmul fz x).

Definition float_mul_int (x : float) (z : Z) : result float :=
  let* fz := of_int z in Ok (fmul x fz).

Definition int_div_float (z : Z) (x : float) : result float :=
  let* fz := of_int z in fdiv fz x.

Definition float_div_int (x : float) (z : Z) : result float :=
  if z =? 0 then Raise ZeroDivisionError
  else let* fz := of_int z in fdiv x fz.

(** Arithmetic on values whose run-time type is not fixed. *)
Definition num_mul (a b : num) : result num :=
  match a, b with
  | I x, I y => Ok (I (x * y))
  | _, _ =>
      let* fa := to_float a in
      let* fb := to_float b in
      Ok (F (fmul fa fb))
  end.

Definition num_truediv (a b : num) : result float :=
  match a, b with
  | I x, I y => int_truediv x y
  | _, I 0 => Raise ZeroDivisionError
  | _, _ =>
      let* fa := to_float a in
      let* fb := to_float b in
      fdiv fa fb
  end.

Arguments fmul : simpl never.
Arguments fadd : simpl never.
Arguments fsub : simpl never.
Arguments fdiv : simpl never.
Arguments of_int : simpl never.
Arguments int_truediv : simpl never.
Arguments to_int : simpl never.
Arguments lit : simpl never.
Arguments cmp_int : simpl never.
Arguments num_cmp : simpl never.
Arguments num_lt : simpl never.
Arguments num_ge : simpl never.
Arguments min2 : simpl never.
Arguments max2 : simpl never.
Arguments fmax2 : simpl never.
Arguments to_float : simpl never.
Arguments num_to_int : simpl never.
Arguments num_mul_float : simpl never.
Arguments int_mul_float : simpl never.
Arguments float_mul_int : simpl never.
Arguments int_div_float : simpl never.
Arguments float_div_int : simpl never.
Arguments num_mul : simpl never.
Arguments num_truediv : simpl never.

(** A float whose conversion by [int] is not negative: not a negative
    number (a zero of either sign and NaN included). *)
Definition nonneg (x : float) : Prop :=
  match x with
  | S754_finite true _ _ | S754_infinity true => False
  | _ => True
  end.

Definition is_nan (x : float) : bool :=
  match x with
  | S754_nan => true
  | _ => false
  end.

(** A positive real number. *)
Definition positive_finite (x : float) : Prop :=
  match x with
  | S754_finite false _ _ => True
  | _ => False
  end.

Definition f0 : float := S754_zero false.
Definition f1 : float := Eval vm_compute in lit 1 1.
Definition f0_1 : float := Eval vm_compute in lit 1 10.
Definition f0_3 : float := Eval vm_compute in lit 3 10.
Definition f0_5 : float := Eval vm_compute in lit 1 2.
Definition f1_5 : float := Eval vm_compute in lit 3 2.
Definition f2 : float := Eval vm_compute in lit 2 1.
Definition f4 : float := Eval vm_compute in lit 4 1.
Definition f6 : float := Eval vm_compute in lit 6 1.

End Py.

(** ** Data model ([models/venue.py], [models/crowd.py]) *)

(** [datetime] arithmetic belongs to the Python runtime; the engine only
    adds a number of seconds to a time stamp ([t + timedelta(seconds=d)]). *)
Class Clock : Type := {
  datetime : Type;
  add_seconds : datetime -> Py.float -> result datetime
}.

Record Gate : Set := {
  gate_id : string;
  gate_name : string;
  capacity_per_minute : Z;
  gate_location : Py.float * Py.float;
  is_emergency_exit : bool;
  gate_connected_zones : list string;
  is_open : bool;
  gate_current_queue : Z
}.

Record Zone : Set := {
  zone_id : string;
  zone_name : string;
  capacity : Z;
  area_sqm : Py.float;
  zone_type : string;
  connected_zones : list string;
  connected_gates : list string;
  zone_current_occupancy : Z
}.

Record Venue : Set := {
  venue_id : string;
  venue_name : string;
  total_capacity : Z;
  gates : list Gate;
  zones : list Zone
}.

(** [Venue.get_zone]: the first zone with the given id. *)
Definition get_zone (v : Venue) (z : string) : option Zone :=
  List.find (fun zn => String.eqb (zone_id zn) z) (zones v).

Record ZoneState : Set := {
  zs_zone_id : string;
  current_occupancy : Z;
  density : Py.float;
  inflow_rate : Py.float;
  outflow_rate : Py.float;
  risk_level : string
}.

Record GateState : Set := {
  gs_gate_id : string;
  queue_length : Z;
  throughput_rate : Py.float;
  wait_time_minutes : Py.num;
  is_congested : bool
}.

Inductive AgentState : Set :=
| APPROACHING | QUEUING | ENTERING | MOVING | SEATED | STANDING | EXITING
| EXITED.

Section CrowdModel.

Context `{Clock}.

Record Agent : Type := {
  agent_id : string;
  ticket_category : string;
  arrival_time : datetime;
  current_zone : option string;
  destination_zone : string;
  position : Py.float * Py.float;
  velocity : Py.float * Py.float;
  agent_state : AgentState;
  target_gate : option string
}.

Record CrowdState : Type := {
  event_id : string;
  timestamp : datetime;
  simulation_time_minutes : Py.float;
  total_inside : Z;
  total_queuing : Z;
  total_exited : Z;
  total_approaching : Z;
  zone_states : gmap string ZoneState;
  gate_states : gmap string GateState;
  overall_inflow_rate : Py.float;
  overall_outflow_rate : Py.float;
  agents : list Agent
}.

End CrowdModel.

(** ** The crowd simulation engine ([engine/simulation.py]) *)

Record SimulationParams : Set := {
  desired_speed : Py.float;
  max_speed : Py.float;
  density_comfortable : Py.float;
  density_crowded : Py.float;
  density_dangerous : Py.float;
  density_critical : Py.float;
  gate_scan_time : Py.float;
  vip_scan_time : Py.float;
  flow_reduction_crowded : Py.float;
  flow_reduction_dangerous : Py.float;
  flow_reduction_critical : Py.float
}.

Definition default_params : SimulationParams := Eval vm_compute in {|
  desired_speed := Py.lit 134 100;
  max_speed := Py.lit 25 10;
  density_comfortable := Py.lit 5 10;
  density_crowded := Py.lit 2 1;
  density_dangerous := Py.lit 4 1;
  density_critical := Py.lit 6 1;
  gate_scan_time := Py.lit 3 1;
  vip_scan_time := Py.lit 15 10;
  flow_reduction_crowded := Py.lit 7 10;
  flow_reduction_dangerous := Py.lit 4 10;
  flow_reduction_critical := Py.lit 1 10
|}.

(** The engine object: its parameters and its private random generator.
    [rng_draws] is the sequence that [numpy]'s generator yields for
    [random()]; [rng_pos] counts the draws made so far. *)
Record Engine : Set := {
  params : SimulationParams;
  rng_draws : nat -> Py.float;
  rng_pos : nat
}.

(** [CrowdSimulationEngine(params)], for the generator seeded in [__init__]. *)
Definition new_engine (draws : nat -> Py.float) (p : option SimulationParams) : Engine :=
  {| params := default default_params p; rng_draws := draws; rng_pos := 0%nat |}.

(** [self._rng.random()] *)
Definition rng_random (eng : Engine) : Py.float * Engine :=
  (rng_draws eng (rng_pos eng),
   {| params := params eng; rng_draws := rng_draws eng; rng_pos := S (rng_pos eng) |}).

Definition _get_density_reduction (p : SimulationParams) (d : Py.float) : Py.float :=
  if Py.flt d (density_comfortable p) then Py.f1
  else if Py.flt d (density_crowded p) then flow_reduction_crowded p
  else if Py.flt d (density_dangerous p) then flow_reduction_dangerous p
  else flow_reduction_critical p.

Definition _get_risk_level (p : SimulationParams) (d : Py.float) : string :=
  if Py.flt d (density_comfortable p) then "safe"
  else if Py.flt d (density_crowded p) then "moderate"
  else if Py.flt d (density_dangerous p) then "high"
  else "critical".

Definition zs_set_occupancy (z : ZoneState) (occ : Z) : ZoneState :=
  {| zs_zone_id := zs_zone_id z; current_occupancy := occ; density := density z;
     inflow_rate := inflow_rate z; outflow_rate := outflow_rate z;
     risk_level := risk_level z |}.

Definition zs_set_density (z : ZoneState) (d : Py.float) (r : string) : ZoneState :=
  {| zs_zone_id := zs_zone_id z; current_occupancy := current_occupancy z;
     density := d; inflow_rate := inflow_rate z; outflow_rate := outflow_rate z;
     risk_level := r |}.

Definition gs_set_queue (g : GateState) (q : Z) : GateState :=
  {| gs_gate_id := gs_gate_id g; queue_length := q;
     throughput_rate := throughput_rate g;
     wait_time_minutes := wait_time_minutes g; is_congested := is_congested g |}.

(** [max] over a generator of floats; an empty one raises. *)
Definition float_max (l : list Py.float) : result Py.float :=
  match l with
  | [] => Raise ValueError
  | d :: r => Ok (fold_left Py.fmax2 r d)
  end.

Fixpoint sum_Z (l : list Z) : Z :=
  match l with
  | [] => 0
  | x :: r => x + sum_Z r
  end.

Section CrowdSimulationEngine.

Context `{Clock}.

Definition set_zone_states (st : CrowdState) (zs : gmap string ZoneState) : CrowdState :=
  {| event_id := event_id st; timestamp := timestamp st;
     simulation_time_minutes := simulation_time_minutes st;
     total_inside := total_inside st; total_queuing := total_queuing st;
     total_exited := total_exited st; total_approaching := total_approaching st;
     zone_states := zs; gate_states := gate_states st;
     overall_inflow_rate := overall_inflow_rate st;
     overall_outflow_rate := overall_outflow_rate st; agents := agents st |}.

Definition set_gate_states (st : CrowdState) (gs : gmap string GateState) : CrowdState :=
  {| event_id := event_id st; timestamp := timestamp st;
     simulation_time_minutes := simulation_time_minutes st;
     total_inside := total_inside st; total_queuing := total_queuing st;
     total_exited := total_exited st; total_approaching := total_approaching st;
     zone_states := zone_states st; gate_states := gs;
     overall_inflow_rate := overall_inflow_rate st;
     overall_outflow_rate := overall_outflow_rate st; agents := agents st |}.

(** The three counters a step moves people between. *)
Definition set_totals (st : CrowdState) (approaching queuing inside : Z) : CrowdState :=
  {| event_id := event_id st; timestamp := timestamp st;
     simulation_time_minutes := simulation_time_minutes st;
     total_inside := inside; total_queuing := queuing;
     total_exited := total_exited st; total_approaching := approaching;
     zone_states := zone_states st; gate_states := gate_states st;
     overall_inflow_rate := overall_inflow_rate st;
     overall_outflow_rate := overall_outflow_rate st; agents := agents st |}.

Definition set_clock (st : CrowdState) (t : datetime) (m : Py.float) : CrowdState :=
  {| event_id := event_id st; timestamp := t;
     simulation_time_minutes := m;
     total_inside := total_inside st; total_queuing := total_queuing st;
     total_exited := total_exited st; total_approaching := total_approaching st;
     zone_states := zone_states st; gate_states := gate_states st;
     overall_inflow_rate := overall_inflow_rate st;
     overall_outflow_rate := overall_outflow_rate st; agents := agents st |}.

Definition set_inflow_rate (st : CrowdState) (r : Py.float) : CrowdState :=
  {| event_id := event_id st; timestamp := timestamp st;
     simulation_time_minutes := simulation_time_minutes st;
     total_inside := total_inside st; total_queuing := total_queuing st;
     total_exited := total_exited st; total_approaching := total_approaching st;
     zone_states := zone_states st; gate_states := gate_states st;
     overall_inflow_rate := r;
     overall_outflow_rate := overall_outflow_rate st; agents := agents st |}.

(** [initialize_state] *)
Definition initialize_state (venue : Venue) (ev : string)
    (expected_attendance : Z) (start_time : datetime) : CrowdState :=
  {| event_id := ev; timestamp := start_time;
     simulation_time_minutes := Py.f0;
     total_inside := 0; total_queuing := 0; total_exited := 0;
     total_approaching := expected_attendance;
     zone_states :=
       fold_left (fun m z =>
         <[zone_id z := {| zs_zone_id := zone_id z; current_occupancy := 0;
                           density := Py.f0; inflow_rate := Py.f0;
                           outflow_rate := Py.f0; risk_level := "safe" |}]> m)
         (zones venue) ∅;
     gate_states :=
       fold_left (fun m g =>
         <[gate_id g := {| gs_gate_id := gate_id g; queue_length := 0;
                           throughput_rate := Py.f0;
                           wait_time_minutes := Py.F Py.f0;
                           is_congested := false |}]> m)
         (gates venue) ∅;
     overall_inflow_rate := Py.f0; overall_outflow_rate := Py.f0;
     agents := [] |}.

(** The loop of [_process_arrivals] over the open gates. *)
Fixpoint distribute_arrivals (open_gates : list Gate)
    (arrivals_this_step total_capacity : Z) (st : CrowdState) : result CrowdState :=
  match open_gates with
  | [] => Ok st
  | gate :: rest =>
      let* gate_share := Py.int_truediv (capacity_per_minute gate) total_capacity in
      let* x := Py.int_mul_float arrivals_this_step gate_share in
      let* gate_arrivals := Py.to_int x in
      let* gst := of_option KeyError (gate_states st !! gate_id gate) in
      let st1 :=
        set_gate_states st
          (<[gate_id gate := gs_set_queue gst (queue_length gst + gate_arrivals)]>
             (gate_states st)) in
      distribute_arrivals rest arrivals_this_step total_capacity
        (set_totals st1 (total_approaching st1 - gate_arrivals)
           (total_queuing st1 + gate_arrivals) (total_inside st1))
  end.

Definition _process_arrivals (eng : Engine) (venue : Venue) (st : CrowdState)
    (arrival_rate dt_seconds : Py.float) : Engine * result CrowdState :=
  if total_approaching st <=? 0 then (eng, Ok st)
  else
    match Py.float_div_int (Py.fmul arrival_rate dt_seconds) 60 with
    | Raise e => (eng, Raise e)
    | Ok x =>
        let (u, eng1) := rng_random eng in
        (eng1,
         let* n := Py.to_int (Py.fadd x u) in
         let arrivals_this_step := Z.min n (total_approaching st) in
         if arrivals_this_step <=? 0 then Ok st
         else
           let open_gates :=
             List.filter (fun g => is_open g && negb (is_emergency_exit g))
               (gates venue) in
           match open_gates with
           | [] => Ok st
           | _ =>
               let total_capacity := sum_Z (map capacity_per_minute open_gates) in
               distribute_arrivals open_gates arrivals_this_step total_capacity st
           end)
    end.

(** The densities read by [_calculate_flow_reduction], in order. *)
Fixpoint zone_densities (st : CrowdState) (zs : list (option Zone))
    : result (list Py.float) :=
  match zs with
  | [] => Ok []
  | None :: rest => zone_densities st rest
  | Some z :: rest =>
      let* zst := of_option KeyError (zone_states st !! zone_id z) in
      let* ds := zone_densities st rest in
      Ok (density zst :: ds)
  end.

Definition _calculate_flow_reduction (p : SimulationParams) (st : CrowdState)
    (zs : list (option Zone)) : result Py.float :=
  match zs with
  | [] => Ok Py.f1
  | _ =>
      let* ds := zone_densities st zs in
      let* max_density := float_max ds in
      Ok (_get_density_reduction p max_density)
  end.

(** [for zone in connected_zones: if zone: ... += per_zone] *)
Fixpoint add_to_zones (zs : list (option Zone)) (per_zone : Z) (st : CrowdState)
    : result CrowdState :=
  match zs with
  | [] => Ok st
  | None :: rest => add_to_zones rest per_zone st
  | Some z :: rest =>
      let* zst := of_option KeyError (zone_states st !! zone_id z) in
      add_to_zones rest per_zone
        (set_zone_states st
           (<[zone_id z := zs_set_occupancy zst (current_occupancy zst + per_zone)]>
              (zone_states st)))
  end.

(** [min(gate.capacity_per_minute * dt_seconds / 60, queue_length)] *)
Definition gate_capacity_bound (gate : Gate) (queue : Z) (dt_seconds : Py.float)
    : result Py.num :=
  let* c := Py.int_mul_float (capacity_per_minute gate) dt_seconds in
  let* max_throughput := Py.float_div_int c 60 in
  Ok (Py.min2 (Py.F max_throughput) (Py.I queue)).

(** [int(actual_throughput * reduction)] *)
Definition apply_reduction (actual_throughput : Py.num) (reduction : Py.float)
    : result Z :=
  let* x := Py.num_mul_float actual_throughput reduction in
  Py.to_int x.


(** The loop of [_process_gates]; the result carries [total_entered]. *)
Fixpoint gates_loop (p : SimulationParams) (venue : Venue) (gs : list Gate)
    (dt_seconds : Py.float) (st : CrowdState) (total_entered : Z)
    : result (CrowdState * Z) :=
  match gs with
  | [] => Ok (st, total_entered)
  | gate :: rest =>
      if negb (is_open gate) then gates_loop p venue rest dt_seconds st total_entered
      else
        let* gst := of_option KeyError (gate_states st !! gate_id gate) in
        if queue_length gst <=? 0
        then gates_loop p venue rest dt_seconds st total_entered
        else
          let connected := map (get_zone venue) (gate_connected_zones gate) in
          let* actual0 := gate_capacity_bound gate (queue_length gst) dt_seconds in
          let* reduction := _calculate_flow_reduction p st connected in
          let* actual_throughput := apply_reduction actual0 reduction in
          let q := queue_length gst - actual_throughput in
          let* rate := Py.int_div_float (actual_throughput * 60) dt_seconds in
          let* wait :=
            if 0 <? capacity_per_minute gate
            then let* w := Py.int_truediv q (capacity_per_minute gate) in Ok (Py.F w)
            else Ok (Py.I 0) in
          let gst' :=
            {| gs_gate_id := gs_gate_id gst; queue_length := q;
               throughput_rate := rate; wait_time_minutes := wait;
               is_congested := Py.num_lt (Py.I 10) wait |} in
          let st1 := set_gate_states st (<[gate_id gate := gst']> (gate_states st)) in
          let* st2 :=
            match connected with
            | [] => Ok st1
            | _ =>
                if 0 <? actual_throughput
                then add_to_zones connected
                       (actual_throughput / Z.of_nat (length connected)) st1
                else Ok st1
            end in
          gates_loop p venue rest dt_seconds
            (set_totals st2 (total_approaching st2)
               (total_queuing st2 - actual_throughput) (total_inside st2))
            (total_entered + actual_throughput)
  end.

Definition _process_gates (p : SimulationParams) (venue : Venue) (st : CrowdState)
    (dt_seconds : Py.float) : result CrowdState :=
  let* (st1, total_entered) := gates_loop p venue (gates venue) dt_seconds st 0 in
  let st2 :=
    set_totals st1 (total_approaching st1) (total_queuing st1)
      (total_inside st1 + total_entered) in
  let* r := Py.int_div_float (total_entered * 60) dt_seconds in
  Ok (set_inflow_rate st2 r).

(** The inner loop of [_process_zone_flow]: the flows out of zone [src]
    toward each of its connected zones.  The source's occupancy is read
    from the state at every transfer, as the code reads it from the state
    object it holds. *)
Fixpoint flow_to_targets (p : SimulationParams) (src : string) (reduction : Py.float)
    (dt_seconds : Py.float) (n_connected : Z) (targets : list Zone)
    (st : CrowdState) : result CrowdState :=
  match targets with
  | [] => Ok st
  | target_zone :: rest =>
      let* target_state := of_option KeyError (zone_states st !! zone_id target_zone) in
      let available_capacity := capacity target_zone - current_occupancy target_state in
      if available_capacity <=? 0
      then flow_to_targets p src reduction dt_seconds n_connected rest st
      else
        let* zone_state := of_option KeyError (zone_states st !! src) in
        let* base_flow_rate := Py.float_mul_int (desired_speed p) 60 in
        let* a1 := Py.float_div_int
                     (Py.fmul (Py.fmul base_flow_rate reduction) dt_seconds) 60 in
        let* a := Py.float_div_int a1 n_connected in
        let* b := Py.int_mul_float (current_occupancy zone_state) Py.f0_1 in
        let* flow := Py.num_to_int
                       (Py.min2 (Py.min2 (Py.F a) (Py.F b)) (Py.I available_capacity)) in
        if 0 <? flow then
          let zs1 :=
            <[src := zs_set_occupancy zone_state (current_occupancy zone_state - flow)]>
              (zone_states st) in
          let* target_state' := of_option KeyError (zs1 !! zone_id target_zone) in
          let zs2 :=
            <[zone_id target_zone :=
                zs_set_occupancy target_state' (current_occupancy target_state' + flow)]>
              zs1 in
          flow_to_targets p src reduction dt_seconds n_connected rest
            (set_zone_states st zs2)
        else flow_to_targets p src reduction dt_seconds n_connected rest st
  end.

(** [[venue.get_zone(z) for z in zone.connected_zones if venue.get_zone(z)]] *)
Definition connected_of (venue : Venue) (zone : Zone) : list Zone :=
  omap (get_zone venue) (connected_zones zone).

Fixpoint zones_flow_loop (p : SimulationParams) (venue : Venue) (zs : list Zone)
    (dt_seconds : Py.float) (st : CrowdState) : result CrowdState :=
  match zs with
  | [] => Ok st
  | zone :: rest =>
      let* zone_state := of_option KeyError (zone_states st !! zone_id zone) in
      if current_occupancy zone_state <=? 0
      then zones_flow_loop p venue rest dt_seconds st
      else
        let reduction := _get_density_reduction p (density zone_state) in
        let connected := connected_of venue zone in
        let* st1 :=
          flow_to_targets p (zone_id zone) reduction dt_seconds
            (Z.of_nat (length connected)) connected st in
        zones_flow_loop p venue rest dt_seconds st1
  end.

Definition _process_zone_flow (p : SimulationParams) (venue : Venue) (st : CrowdState)
    (dt_seconds : Py.float) : result CrowdState :=
  zones_flow_loop p venue (zones venue) dt_seconds st.

Fixpoint densities_loop (p : SimulationParams) (zs : list Zone) (st : CrowdState)
    : result CrowdState :=
  match zs with
  | [] => Ok st
  | zone :: rest =>
      let* zone_state := of_option KeyError (zone_states st !! zone_id zone) in
      let* d := Py.int_div_float (current_occupancy zone_state) (area_sqm zone) in
      densities_loop p rest
        (set_zone_states st
           (<[zone_id zone := zs_set_density zone_state d (_get_risk_level p d)]>
              (zone_states st)))
  end.

Definition _update_densities (p : SimulationParams) (venue : Venue) (st : CrowdState)
    : result CrowdState :=
  densities_loop p (zones venue) st.

(** [simulate_timestep]: the engine after the call (its generator may have
    advanced) and the new state, or the exception raised. *)
Definition simulate_timestep (eng : Engine) (venue : Venue) (st : CrowdState)
    (dt_seconds arrival_rate : Py.float) : Engine * result CrowdState :=
  let r0 :=
    let* t := add_seconds (timestamp st) dt_seconds in
    let* m := Py.float_div_int dt_seconds 60 in
    Ok (set_clock st t (Py.fadd (simulation_time_minutes st) m)) in
  match r0 with
  | Raise e => (eng, Raise e)
  | Ok st0 =>
      let (eng1, r1) := _process_arrivals eng venue st0 arrival_rate dt_seconds in
      (eng1,
       let* st1 := r1 in
       let* st2 := _process_gates (params eng) venue st1 dt_seconds in
       let* st3 := _process_zone_flow (params eng) venue st2 dt_seconds in
       _update_densities (params eng) venue st3)
  end.

End CrowdSimulationEngine.

(** ** Insertion-ordered dictionaries

The evacuation and facility simulators iterate over their dictionaries,
so these keep Python's insertion order: assigning to a present key keeps
its position, a new key goes last. *)

Definition dict (V : Type) : Type := list (string * V).

Fixpoint dict_get {V : Type} (k : string) (d : dict V) : option V :=
  match d with
  | [] => None
  | (k', v) :: r => if String.eqb k' k then Some v else dict_get k r
  end.

Fixpoint dict_set {V : Type} (k : string) (v : V) (d : dict V) : dict V :=
  match d with
  | [] => [(k, v)]
  | (k', v') :: r => if String.eqb k' k then (k', v) :: r else (k', v') :: dict_set k v r
  end.

Definition dict_values {V : Type} (d : dict V) : list V := map snd d.

(** ** The evacuation simulator ([engine/evacuation.py]) *)

Module Evacuation.

Inductive EvacuationPhase : Set := NORMAL | ALERT | PANIC | CRITICAL.

Definition phase_eqb (a b : EvacuationPhase) : bool :=
  match a, b with
  | NORMAL, NORMAL | ALERT, ALERT | PANIC, PANIC | CRITICAL, CRITICAL => true
  | _, _ => false
  end.

Record EmergencyExit : Set := {
  exit_id : string;
  name : string;
  location : Py.float * Py.float;
  width : Py.float;
  max_flow_rate : Z;
  connects_to_zone : string;
  is_accessible : bool;
  current_flow_rate : Z
}.

Record EvacuationZone : Type := {
  zone_id : string;
  current_occupancy : Z;
  area_sqm : Py.float;
  nearest_exits : list string;
  distance_to_exits : dict Py.float;
  evacuation_started : bool;
  evacuated_count : Z;
  estimated_time_remaining : Z
}.

Inductive Severity : Set := critical | high | medium.

(** A bottleneck entry: the zone or exit it is about and its severity.
    The message and action texts are left out. *)
Record Bottleneck : Set := {
  bn_zone_id : option string;
  bn_exit_id : option string;
  bn_severity : Severity
}.

(** A recommendation entry, without its action text. *)
Record Recommendation : Set := {
  rec_priority : Z;
  rec_type : string;
  rec_target : option string;
  rec_exits : list string
}.

(** [EvacuationState]; [zone_t] is what the [zones] dictionary holds: the
    address of a zone object in the live state, a zone value in a history
    copy. *)
Record EvacuationState (datetime zone_t : Type) : Type := {
  phase : EvacuationPhase;
  start_time : option datetime;
  elapsed_seconds : Z;
  total_to_evacuate : Z;
  total_evacuated : Z;
  zones : dict zone_t;
  bottlenecks : list Bottleneck;
  recommendations : list Recommendation;
  estimated_complete_time : Z
}.

Arguments phase {datetime zone_t} _.
Arguments start_time {datetime zone_t} _.
Arguments elapsed_seconds {datetime zone_t} _.
Arguments total_to_evacuate {datetime zone_t} _.
Arguments total_evacuated {datetime zone_t} _.
Arguments zones {datetime zone_t} _.
Arguments bottlenecks {datetime zone_t} _.
Arguments recommendations {datetime zone_t} _.
Arguments estimated_complete_time {datetime zone_t} _.

Definition NORMAL_VELOCITY : Py.float := Eval vm_compute in Py.lit 15 10.
Definition PANIC_VELOCITY : Py.float := Eval vm_compute in Py.lit 25 10.
Definition BOTTLENECK_DENSITY : Py.float := Eval vm_compute in Py.lit 4 1.
Definition CRUSHING_DENSITY : Py.float := Eval vm_compute in Py.lit 6 1.

Definition set_flow_rate (e : EmergencyExit) (r : Z) : EmergencyExit :=
  {| exit_id := exit_id e; name := name e; location := location e;
     width := width e; max_flow_rate := max_flow_rate e;
     connects_to_zone := connects_to_zone e; is_accessible := is_accessible e;
     current_flow_rate := r |}.

Definition set_started (z : EvacuationZone) : EvacuationZone :=
  {| zone_id := zone_id z; current_occupancy := current_occupancy z;
     area_sqm := area_sqm z; nearest_exits := nearest_exits z;
     distance_to_exits := distance_to_exits z; evacuation_started := true;
     evacuated_count := evacuated_count z;
     estimated_time_remaining := estimated_time_remaining z |}.

(** [zone.current_occupancy -= n; zone.evacuated_count += n] *)
Definition evacuate (z : EvacuationZone) (n : Z) : EvacuationZone :=
  {| zone_id := zone_id z; current_occupancy := current_occupancy z - n;
     area_sqm := area_sqm z; nearest_exits := nearest_exits z;
     distance_to_exits := distance_to_exits z;
     evacuation_started := evacuation_started z;
     evacuated_count := evacuated_count z + n;
     estimated_time_remaining := estimated_time_remaining z |}.

Definition set_time_remaining (z : EvacuationZone) (t : Z) : EvacuationZone :=
  {| zone_id := zone_id z; current_occupancy := current_occupancy z;
     area_sqm := area_sqm z; nearest_exits := nearest_exits z;
     distance_to_exits := distance_to_exits z;
     evacuation_started := evacuation_started z;
     evacuated_count := evacuated_count z;
     estimated_time_remaining := t |}.

Section Simulator.

Context `{Clock}.

(** The simulator object.  [heap] holds the zone objects; [zones] and
    the [zones] of [state] refer to them by address, so that both
    dictionaries see the updates a step makes to a zone. *)
Record EvacuationSimulator : Type := {
  exits : dict EmergencyExit;
  heap : list EvacuationZone;
  sim_zones : dict nat;
  state : option (EvacuationState datetime nat);
  history : list (EvacuationState datetime EvacuationZone)
}.

Definition set_exits (s : EvacuationSimulator) (e : dict EmergencyExit) :=
  {| exits := e; heap := heap s; sim_zones := sim_zones s; state := state s;
     history := history s |}.

Definition set_heap (s : EvacuationSimulator) (h : list EvacuationZone) :=
  {| exits := exits s; heap := h; sim_zones := sim_zones s; state := state s;
     history := history s |}.

Definition set_state (s : EvacuationSimulator) (st : EvacuationState datetime nat) :=
  {| exits := exits s; heap := heap s; sim_zones := sim_zones s; state := Some st;
     history := history s |}.

Definition set_history (s : EvacuationSimulator)
    (h : list (EvacuationState datetime EvacuationZone)) :=
  {| exits := exits s; heap := heap s; sim_zones := sim_zones s; state := state s;
     history := h |}.

Fixpoint index_zones (zs : list EvacuationZone) (i : nat) (d : dict nat) : dict nat :=
  match zs with
  | [] => d
  | z :: r => index_zones r (S i) (dict_set (zone_id z) i d)
  end.

(** [__init__]: the zone objects of the argument list are stored at
    addresses [0, 1, ...]. *)
Definition init (exit_list : list EmergencyExit) (zone_list : list EvacuationZone)
    : EvacuationSimulator :=
  {| exits := fold_left (fun d e => dict_set (exit_id e) e d) exit_list [];
     heap := zone_list;
     sim_zones := index_zones zone_list 0%nat [];
     state := None;
     history := [] |}.

(** The zone objects a dictionary of addresses refers to. *)
Definition deref (h : list EvacuationZone) (d : dict nat) : list EvacuationZone :=
  omap (fun i => h !! i) (dict_values d).

(** [sorted(..., key=occupancy, reverse=True)]: stable, largest first. *)
Fixpoint insert_desc (z : EvacuationZone) (l : list EvacuationZone) : list EvacuationZone :=
  match l with
  | [] => [z]
  | y :: r =>
      if current_occupancy y <? current_occupancy z then z :: l
      else y :: insert_desc z r
  end.

Definition sorted_desc (l : list EvacuationZone) : list EvacuationZone :=
  fold_left (fun acc z => insert_desc z acc) l [].

Fixpoint initial_recs (exs : dict EmergencyExit) (i : Z) (l : list EvacuationZone)
    : list Recommendation :=
  match l with
  | [] => []
  | z :: r =>
      let rest := initial_recs exs (i + 1) r in
      if 0 <? current_occupancy z then
        {| rec_priority := i + 1; rec_type := "evacuation_start";
           rec_target := Some (zone_id z);
           rec_exits := omap (fun eid => option_map name (dict_get eid exs))
                          (nearest_exits z) |} :: rest
      else rest
  end.

(** [_generate_initial_recommendations] reads [self.state.zones]. *)
Definition _generate_initial_recommendations (s : EvacuationSimulator)
    : result (list Recommendation) :=
  match state s with
  | None => Raise AttributeError
  | Some st =>
      Ok (initial_recs (exits s) 0 (take 3 (sorted_desc (deref (heap s) (zones st)))))
  end.

(** [start_evacuation] *)
Definition start_evacuation (s : EvacuationSimulator) (trigger_time : datetime)
    (initial_phase : EvacuationPhase) : EvacuationSimulator * result unit :=
  let total := sum_Z (map current_occupancy (deref (heap s) (sim_zones s))) in
  let total_exit_capacity := sum_Z (map max_flow_rate (dict_values (exits s))) in
  let r :=
    let* estimated_time :=
      if 0 <? total_exit_capacity
      then let* q := Py.int_truediv total total_exit_capacity in
           let* x := Py.float_mul_int q 60 in Ok (Py.F x)
      else Ok (Py.I 9999) in
    let safety_factor :=
      if phase_eqb initial_phase ALERT then Py.f1_5 else Py.f2 in
    let* estimated_time := Py.num_mul_float estimated_time safety_factor in
    let* recs := _generate_initial_recommendations s in
    let* est := Py.to_int estimated_time in
    Ok {| phase := initial_phase; start_time := Some trigger_time;
          elapsed_seconds := 0; total_to_evacuate := total;
          total_evacuated := 0; zones := sim_zones s; bottlenecks := [];
          recommendations := recs; estimated_complete_time := est |} in
  match r with
  | Ok st => (set_state s st, Ok tt)
  | Raise e => (s, Raise e)
  end.

(** Methods act on the simulator object and may raise part-way through:
    a computation yields the object as it then is, and a value or the
    exception. *)
Definition M (A : Type) : Type :=
  EvacuationSimulator -> EvacuationSimulator * result A.

Definition ret {A : Type} (a : A) : M A := fun s => (s, Ok a).

Definition bind {A B : Type} (m : M A) (k : A -> M B) : M B :=
  fun s =>
    match m s with
    | (s1, Ok a) => k a s1
    | (s1, Raise e) => (s1, Raise e)
    end.

Definition lift {A : Type} (r : result A) : M A := fun s => (s, r).

Definition modify (f : EvacuationSimulator -> EvacuationSimulator) : M unit :=
  fun s => (f s, Ok tt).

Notation "'do' x '<-' m ';' k" := (bind m (fun x => k))
  (at level 10, x pattern, m at level 100, k at level 200).

(** The flow a zone sends through one exit in a step:
    [min(int(exit.max_flow_rate * congestion_factor * dt_minutes),
         zone.current_occupancy - zone_evacuated)] *)
Definition evacuated_via (ex : EmergencyExit) (zone : EvacuationZone)
    (velocity dt_minutes : Py.float) (zone_evacuated : Z) : result Z :=
  let distance :=
    match dict_get (exit_id ex) (distance_to_exits zone) with
    | Some d => Py.F d
    | None => Py.I 50
    end in
  let* fd := Py.to_float distance in
  let* travel_time := Py.fdiv fd velocity in
  let* density := Py.int_div_float (current_occupancy zone) (area_sqm zone) in
  let* q := Py.fdiv density BOTTLENECK_DENSITY in
  let congestion_factor :=
    Py.fmax2 Py.f0_3 (Py.fsub Py.f1 (Py.fmul q Py.f0_5)) in
  let* r := Py.int_mul_float (max_flow_rate ex) congestion_factor in
  let effective_rate := Py.fmul r dt_minutes in
  let* n := Py.to_int effective_rate in
  Ok (Z.min n (current_occupancy zone - zone_evacuated)).

(** The loop over [zone.nearest_exits]; it updates the exits' current
    flow rates as it goes and yields [zone_evacuated]. *)
Fixpoint exits_loop (zone : EvacuationZone) (velocity dt_minutes : Py.float)
    (ids : list string) (zone_evacuated : Z) : M Z :=
  match ids with
  | [] => ret zone_evacuated
  | eid :: rest =>
      fun s =>
        match dict_get eid (exits s) with
        | None => exits_loop zone velocity dt_minutes rest zone_evacuated s
        | Some ex =>
            if negb (is_accessible ex)
            then exits_loop zone velocity dt_minutes rest zone_evacuated s
            else
              (do n <- lift (evacuated_via ex zone velocity dt_minutes zone_evacuated);
               do rate <- lift (let* x := Py.int_div_float n dt_minutes in Py.to_int x);
               do _ <- modify (fun s1 =>
                         set_exits s1 (dict_set eid (set_flow_rate ex rate) (exits s1)));
               exits_loop zone velocity dt_minutes rest (zone_evacuated + n)) s
        end
  end.

Definition add_evacuated (st : EvacuationState datetime nat) (n : Z) :=
  {| phase := phase st; start_time := start_time st;
     elapsed_seconds := elapsed_seconds st;
     total_to_evacuate := total_to_evacuate st;
     total_evacuated := total_evacuated st + n; zones := zones st;
     bottlenecks := bottlenecks st; recommendations := recommendations st;
     estimated_complete_time := estimated_complete_time st |}.

(** [self.state.total_evacuated += n] *)
Definition bump_total (n : Z) (s : EvacuationSimulator) : EvacuationSimulator :=
  match state s with
  | Some st => set_state s (add_evacuated st n)
  | None => s
  end.

(** Capacity of the accessible exits that serve a zone. *)
Definition remaining_exits_capacity (exs : dict EmergencyExit) (zone : EvacuationZone) : Z :=
  sum_Z (omap (fun eid =>
                 match dict_get eid exs with
                 | Some ex => if is_accessible ex then Some (max_flow_rate ex) else None
                 | None => None
                 end) (nearest_exits zone)).

(** The body of the loop over [self.state.zones.items()] for the zone
    object at address [a]. *)
Definition process_zone (dt_minutes : Py.float) (a : nat) : M unit :=
  fun s =>
    match heap s !! a, state s with
    | Some zone, Some st =>
        if current_occupancy zone <=? 0 then (s, Ok tt)
        else
          let zone1 := set_started zone in
          let velocity :=
            if phase_eqb (phase st) PANIC then PANIC_VELOCITY else NORMAL_VELOCITY in
          (do _ <- modify (fun s0 => set_heap s0 (<[a := zone1]> (heap s0)));
           do zone_evacuated <- exits_loop zone1 velocity dt_minutes (nearest_exits zone1) 0;
           let zone2 := evacuate zone1 zone_evacuated in
           do _ <- modify (fun s0 =>
                     bump_total zone_evacuated
                       (set_heap s0 (<[a := zone2]> (heap s0))));
           if 0 <? current_occupancy zone2 then
             fun s0 =>
               let cap := remaining_exits_capacity (exits s0) zone2 in
               if 0 <? cap then
                 (do t <- lift (let* q := Py.int_truediv (current_occupancy zone2) cap in
                                let* x := Py.float_mul_int q 60 in Py.to_int x);
                  modify (fun s1 =>
                    set_heap s1 (<[a := set_time_remaining zone2 t]> (heap s1)))) s0
               else (s0, Ok tt)
           else ret tt) s
    | _, _ => (s, Ok tt)
    end.

Fixpoint zones_loop (dt_minutes : Py.float) (zs : dict nat) : M unit :=
  match zs with
  | [] => ret tt
  | (_, a) :: rest => do _ <- process_zone dt_minutes a; zones_loop dt_minutes rest
  end.

(** The zone part of [_detect_bottlenecks]. *)
Fixpoint zone_bottlenecks (h : list EvacuationZone) (zs : dict nat)
    : result (list Bottleneck) :=
  match zs with
  | [] => Ok []
  | (zid, a) :: rest =>
      match h !! a with
      | None => zone_bottlenecks h rest
      | Some zone =>
          if current_occupancy zone <=? 0 then zone_bottlenecks h rest
          else
            let* density := Py.int_div_float (current_occupancy zone) (area_sqm zone) in
            let* r := zone_bottlenecks h rest in
            if Py.fge density CRUSHING_DENSITY then
              Ok ({| bn_zone_id := Some zid; bn_exit_id := None;
                     bn_severity := critical |} :: r)
            else if Py.fge density BOTTLENECK_DENSITY then
              Ok ({| bn_zone_id := Some zid; bn_exit_id := None;
                     bn_severity := high |} :: r)
            else Ok r
      end
  end.

(** The exit part: an exit running at 90% or more of its rated flow. *)
Fixpoint exit_bottlenecks (exs : dict EmergencyExit) : result (list Bottleneck) :=
  match exs with
  | [] => Ok []
  | (eid, ex) :: rest =>
      let* limit := Py.int_mul_float (max_flow_rate ex) (Py.lit 9 10) in
      let* r := exit_bottlenecks rest in
      if Py.num_ge (Py.I (current_flow_rate ex)) (Py.F limit) then
        Ok ({| bn_zone_id := None; bn_exit_id := Some eid;
               bn_severity := medium |} :: r)
      else Ok r
  end.

Definition _detect_bottlenecks (s : EvacuationSimulator) (st : EvacuationState datetime nat)
    : result (list Bottleneck) :=
  let* zb := zone_bottlenecks (heap s) (zones st) in
  let* eb := exit_bottlenecks (exits s) in
  Ok (zb ++ eb).

(** Densities of the occupied zones, in dictionary order. *)
Fixpoint occupied_densities (zs : list EvacuationZone) : result (list Py.float) :=
  match zs with
  | [] => Ok []
  | z :: rest =>
      if 0 <? current_occupancy z then
        let* d := Py.int_div_float (current_occupancy z) (area_sqm z) in
        let* r := occupied_densities rest in
        Ok (d :: r)
      else occupied_densities rest
  end.

(** [max(..., default=0)] *)
Definition max_default (l : list Py.float) : Py.num :=
  match l with
  | [] => Py.I 0
  | d :: r => Py.F (fold_left Py.fmax2 r d)
  end.

(** The branches of [_update_phase], given [max_density]. *)
Definition next_phase (current : EvacuationPhase) (max_density : Py.num)
    : EvacuationPhase :=
  if Py.num_ge max_density (Py.F CRUSHING_DENSITY) then CRITICAL
  else if Py.num_ge max_density (Py.F BOTTLENECK_DENSITY) then PANIC
  else if phase_eqb current CRITICAL
          && Py.num_lt max_density (Py.F BOTTLENECK_DENSITY) then PANIC
  else if phase_eqb current PANIC
          && Py.num_lt max_density (Py.F (Py.fmul BOTTLENECK_DENSITY Py.f0_5))
       then ALERT
  else current.

Definition set_phase (st : EvacuationState datetime nat) (p : EvacuationPhase) :=
  {| phase := p; start_time := start_time st;
     elapsed_seconds := elapsed_seconds st;
     total_to_evacuate := total_to_evacuate st;
     total_evacuated := total_evacuated st; zones := zones st;
     bottlenecks := bottlenecks st; recommendations := recommendations st;
     estimated_complete_time := estimated_complete_time st |}.

Definition _update_phase : M unit :=
  fun s =>
    match state s with
    | None => (s, Ok tt)
    | Some st =>
        match occupied_densities (deref (heap s) (zones st)) with
        | Raise e => (s, Raise e)
        | Ok ds => (set_state s (set_phase st (next_phase (phase st) (max_default ds))), Ok tt)
        end
    end.

(** [_generate_recommendations]: critical bottlenecks, then blocked
    exits, then the progress entry. *)
Definition _generate_recommendations (s : EvacuationSimulator)
    (st : EvacuationState datetime nat) : result (list Recommendation) :=
  let crit :=
    omap (fun bn =>
            match bn_severity bn with
            | critical =>
                Some {| rec_priority := 1; rec_type := "critical";
                        rec_target :=
                          match bn_zone_id bn with
                          | Some z => Some z
                          | None => bn_exit_id bn
                          end;
                        rec_exits := [] |}
            | _ => None
            end) (bottlenecks st) in
  let blocked :=
    omap (fun ex =>
            if is_accessible ex then None
            else Some {| rec_priority := 2; rec_type := "obstruction";
                         rec_target := Some (exit_id ex); rec_exits := [] |})
         (dict_values (exits s)) in
  let* q := Py.int_truediv (total_evacuated st) (Z.max (total_to_evacuate st) 1) in
  let* progress := Py.float_mul_int q 100 in
  let* remaining_mins := Py.int_truediv (estimated_complete_time st) 60 in
  Ok (crit ++ blocked ++
      [ {| rec_priority := 3; rec_type := "progress"; rec_target := None;
           rec_exits := [] |} ]).

Definition set_bottlenecks (st : EvacuationState datetime nat) (b : list Bottleneck) :=
  {| phase := phase st; start_time := start_time st;
     elapsed_seconds := elapsed_seconds st;
     total_to_evacuate := total_to_evacuate st;
     total_evacuated := total_evacuated st; zones := zones st;
     bottlenecks := b; recommendations := recommendations st;
     estimated_complete_time := estimated_complete_time st |}.

Definition set_recommendations (st : EvacuationState datetime nat)
    (r : list Recommendation) :=
  {| phase := phase st; start_time := start_time st;
     elapsed_seconds := elapsed_seconds st;
     total_to_evacuate := total_to_evacuate st;
     total_evacuated := total_evacuated st; zones := zones st;
     bottlenecks := bottlenecks st; recommendations := r;
     estimated_complete_time := estimated_complete_time st |}.

Definition set_estimate (st : EvacuationState datetime nat) (t : Z) :=
  {| phase := phase st; start_time := start_time st;
     elapsed_seconds := elapsed_seconds st;
     total_to_evacuate := total_to_evacuate st;
     total_evacuated := total_evacuated st; zones := zones st;
     bottlenecks := bottlenecks st; recommendations := recommendations st;
     estimated_complete_time := t |}.

Definition add_elapsed (st : EvacuationState datetime nat) (dt : Z) :=
  {| phase := phase st; start_time := start_time st;
     elapsed_seconds := elapsed_seconds st + dt;
     total_to_evacuate := total_to_evacuate st;
     total_evacuated := total_evacuated st; zones := zones st;
     bottlenecks := bottlenecks st; recommendations := recommendations st;
     estimated_complete_time := estimated_complete_time st |}.

(** [_copy_state]: the state with its zones copied by value. *)
Definition _copy_state (s : EvacuationSimulator) (st : EvacuationState datetime nat)
    : EvacuationState datetime EvacuationZone :=
  {| phase := phase st; start_time := start_time st;
     elapsed_seconds := elapsed_seconds st;
     total_to_evacuate := total_to_evacuate st;
     total_evacuated := total_evacuated st;
     zones := omap (fun '(zid, a) => option_map (pair zid) (heap s !! a)) (zones st);
     bottlenecks := bottlenecks st; recommendations := recommendations st;
     estimated_complete_time := estimated_complete_time st |}.

(** Apply [f] to the state object; [g] computes the new field value and
    may raise. *)
Definition update_state {A : Type}
    (g : EvacuationSimulator -> EvacuationState datetime nat -> result A)
    (f : EvacuationState datetime nat -> A -> EvacuationState datetime nat) : M unit :=
  fun s =>
    match state s with
    | None => (s, Ok tt)
    | Some st =>
        match g s st with
        | Ok a => (set_state s (f st a), Ok tt)
        | Raise e => (s, Raise e)
        end
    end.

(** The overall estimate at the end of a step. *)
Definition overall_estimate (s : EvacuationSimulator) (st : EvacuationState datetime nat)
    : result Z :=
  let remaining := total_to_evacuate st - total_evacuated st in
  if 0 <? remaining then
    let total_capacity :=
      sum_Z (map max_flow_rate (List.filter is_accessible (dict_values (exits s)))) in
    let* q := Py.int_truediv remaining (Z.max total_capacity 1) in
    let* x := Py.float_mul_int q 60 in
    Py.to_int x
  else Ok (estimated_complete_time st).

(** The part of [simulate_step] that follows the loop over the zones:
    bottlenecks, phase, recommendations, overall estimate and history. *)
Definition finish_step : M unit :=
  do _ <- update_state _detect_bottlenecks set_bottlenecks;
  do _ <- _update_phase;
  do _ <- update_state _generate_recommendations set_recommendations;
  do _ <- update_state overall_estimate set_estimate;
  modify (fun s0 =>
    match state s0 with
    | Some st0 => set_history s0 (history s0 ++ [_copy_state s0 st0])
    | None => s0
    end).

(** [simulate_step] *)
Definition simulate_step (dt_seconds : Z) : M unit :=
  fun s =>
    match state s with
    | None => (s, Raise ValueError)
    | Some st =>
        (do _ <- modify (fun s0 => set_state s0 (add_elapsed st dt_seconds));
         do dt_minutes <- lift (Py.int_truediv dt_seconds 60);
         do _ <- zones_loop dt_minutes (zones st);
         finish_step) s
    end.

(** A value stored in the summary dictionary; [VRound x n] stands for
    [round(x, n)]. *)
Inductive summary_value : Type :=
| VStr (v : string)
| VInt (z : Z)
| VRound (x : Py.float) (ndigits : Z)
| VRecs (r : list Recommendation).

Definition phase_value (p : EvacuationPhase) : string :=
  match p with
  | NORMAL => "normal"
  | ALERT => "alert"
  | PANIC => "panic"
  | CRITICAL => "critical"
  end.

(** [get_evacuation_summary] *)
Definition get_evacuation_summary (s : EvacuationSimulator)
    : result (dict summary_value) :=
  match state s with
  | None => Ok []
  | Some st =>
      let zs := deref (heap s) (zones st) in
      let zones_cleared :=
        length (List.filter (fun z => (current_occupancy z =? 0)
                                      && (0 <? evacuated_count z)) zs) in
      let zones_total :=
        length (List.filter (fun z => (0 <? evacuated_count z)
                                      || (0 <? current_occupancy z)) zs) in
      let* em := Py.int_truediv (elapsed_seconds st) 60 in
      let* q := Py.int_truediv (total_evacuated st) (Z.max (total_to_evacuate st) 1) in
      let* pp := Py.float_mul_int q 100 in
      let* rm := Py.int_truediv (estimated_complete_time st) 60 in
      Ok [ ("status",
            VStr (if total_to_evacuate st <=? total_evacuated st
                  then "complete" else "in_progress"));
           ("phase", VStr (phase_value (phase st)));
           ("elapsed_seconds", VInt (elapsed_seconds st));
           ("elapsed_minutes", VRound em 1);
           ("total_evacuated", VInt (total_evacuated st));
           ("total_to_evacuate", VInt (total_to_evacuate st));
           ("progress_percent", VRound pp 1);
           ("zones_cleared", VInt (Z.of_nat zones_cleared));
           ("zones_total", VInt (Z.of_nat zones_total));
           ("bottlenecks_detected", VInt (Z.of_nat (length (bottlenecks st))));
           ("estimated_remaining_minutes", VRound rm 1);
           ("recommendations", VRecs (recommendations st)) ]
  end.

End Simulator.

End Evacuation.

(** ** The facility queue simulator ([engine/facilities.py]) *)

Module Facilities.

Inductive FacilityType : Set :=
| RESTROOM_MALE | RESTROOM_FEMALE | RESTROOM_ACCESSIBLE | FOOD_COURT
| FOOD_STALL | MERCHANDISE | ATM | FIRST_AID.

Record Facility : Set := {
  facility_id : string;
  facility_type : FacilityType;
  name : string;
  location : string;
  capacity : Z;
  service_time_avg : Py.num;
  service_time_std : Py.num;
  current_queue : Z;
  total_served : Z;
  is_operational : bool
}.

(** [FacilityState]; the two rounded fields hold the argument of
    [round(., 1)]. *)
Record FacilityState : Set := {
  fs_facility_id : string;
  fs_current_queue : Z;
  wait_time_minutes : Py.float;
  utilization_percent : Py.num;
  status : string
}.

Definition DEMAND_MULTIPLIERS : dict Py.float :=
  Eval vm_compute in
  [ ("pre_event", Py.lit 5 10); ("entry", Py.lit 1 1); ("event_start", Py.lit 3 10);
    ("halftime", Py.lit 5 1); ("intermission", Py.lit 4 1);
    ("event_end", Py.lit 5 10); ("exit", Py.lit 2 10) ].

(** Share of a zone's population that joins a facility's queue per minute. *)
Definition base_fraction (t : FacilityType) : Py.float :=
  match t with
  | RESTROOM_MALE | RESTROOM_FEMALE => Py.lit 2 1000
  | FOOD_COURT => Py.lit 5 1000
  | _ => Py.lit 1 1000
  end.

Definition serve (f : Facility) (queue served : Z) : Facility :=
  {| facility_id := facility_id f; facility_type := facility_type f;
     name := name f; location := location f; capacity := capacity f;
     service_time_avg := service_time_avg f;
     service_time_std := service_time_std f; current_queue := queue;
     total_served := served; is_operational := is_operational f |}.

(** The loop body for one operational facility; [u] is the value drawn by
    [np.random.uniform(0.8, 1.2)]. *)
Definition step_facility (f : Facility) (demand_mult u : Py.float)
    (zone_populations : dict Z) (dt_seconds : Z) : result (Facility * FacilityState) :=
  let zone_pop := default 0 (dict_get (location f) zone_populations) in
  let* r := Py.int_mul_float zone_pop (base_fraction (facility_type f)) in
  let* dt_minutes := Py.int_truediv dt_seconds 60 in
  let base_rate := Py.fmul r dt_minutes in
  let* arrivals := Py.to_int (Py.fmul (Py.fmul base_rate demand_mult) u) in
  let* service_rate := Py.num_truediv (Py.I (capacity f * 60)) (service_time_avg f) in
  let* completions :=
    Py.num_to_int (Py.min2 (Py.I (current_queue f + arrivals))
                           (Py.F (Py.fmul service_rate dt_minutes))) in
  let queue := Z.max 0 (current_queue f + arrivals - completions) in
  let f' := serve f queue (total_served f + completions) in
  let* busy := Py.num_mul (Py.I queue) (service_time_avg f) in
  let* wait_time := Py.num_truediv busy (Py.I (60 * capacity f)) in
  let max_service := Py.fmul service_rate dt_minutes in
  let* utilization :=
    if Py.num_lt (Py.I 0) (Py.F max_service) then
      let* q := Py.int_div_float completions max_service in
      let* x := Py.float_mul_int q 100 in Ok (Py.F x)
    else Ok (Py.I 0) in
  let status :=
    if Py.num_lt (Py.I 15) (Py.F wait_time) then "overcrowded"
    else if Py.num_lt (Py.I 7) (Py.F wait_time) then "busy"
    else "normal" in
  Ok (f', {| fs_facility_id := facility_id f; fs_current_queue := queue;
             wait_time_minutes := wait_time;
             utilization_percent := Py.min2 utilization (Py.I 100);
             status := status |}).

Section Simulator.

Context `{Clock}.

Record FacilitySimulator : Type := {
  facilities : dict Facility;
  history : list (datetime * dict Z)
}.

Definition init (fs : list Facility) : FacilitySimulator :=
  {| facilities := fold_left (fun d f => dict_set (facility_id f) f d) fs [];
     history := [] |}.

(** The loop over [self.facilities.items()]; [draws] and [pos] stand for
    the global [numpy] generator. *)
Fixpoint facilities_loop (todo : list (string * Facility)) (demand_mult : Py.float)
    (zone_populations : dict Z) (dt_seconds : Z) (draws : nat -> Py.float) (pos : nat)
    (sim : FacilitySimulator) (states : list FacilityState)
    : FacilitySimulator * nat * result (list FacilityState) :=
  match todo with
  | [] => (sim, pos, Ok states)
  | (fid, _) :: rest =>
      match dict_get fid (facilities sim) with
      | None =>
          facilities_loop rest demand_mult zone_populations dt_seconds draws pos
            sim states
      | Some f =>
          if negb (is_operational f) then
            facilities_loop rest demand_mult zone_populations dt_seconds draws pos
              sim states
          else
            match step_facility f demand_mult (draws pos) zone_populations dt_seconds with
            | Raise e => (sim, S pos, Raise e)
            | Ok (f', fs) =>
                facilities_loop rest demand_mult zone_populations dt_seconds draws
                  (S pos)
                  {| facilities := dict_set fid f' (facilities sim);
                     history := history sim |}
                  (states ++ [fs])
            end
      end
  end.

(** [simulate_step] *)
Definition simulate_step (sim : FacilitySimulator) (current_time : datetime)
    (event_phase : string) (zone_populations : dict Z) (dt_seconds : Z)
    (draws : nat -> Py.float) (pos : nat)
    : FacilitySimulator * nat * result (list FacilityState) :=
  let demand_mult := default Py.f1 (dict_get event_phase DEMAND_MULTIPLIERS) in
  match facilities_loop (facilities sim) demand_mult zone_populations dt_seconds
          draws pos sim [] with
  | (sim1, pos1, Ok states) =>
      ({| facilities := facilities sim1;
          history := history sim1 ++
            [(current_time, map (fun s => (fs_facility_id s, fs_current_queue s)) states)] |},
       pos1, Ok states)
  | r => r
  end.

End Simulator.

End Facilities.

(** ** The arrival curve ([generate_arrival_curve] in [engine/simulation.py]) *)

Module ArrivalCurve.

Inductive Pattern : Set := normal | early_rush | late_surge | wave.

(** One bell of the festival pattern:
    [weight * truncnorm.pdf(minutes, clip_a, clip_b, loc, scale)]. *)
Record Peak : Set := {
  weight : Py.float;
  clip_a : Py.float;
  clip_b : Py.float;
  loc : Py.float;
  scale : Py.float
}.

(** The three bells of the [else] branch, in the order they are added. *)
Definition wave_peaks (duration_minutes : Py.float) : list Peak :=
  let a := Py.lit (-30) 20 in
  let b := Py.lit 30 20 in
  let s := Py.lit 20 1 in
  [ {| weight := Py.lit 3 10; clip_a := a; clip_b := b;
       loc := Py.fmul duration_minutes (Py.lit 3 10); scale := s |};
    {| weight := Py.lit 4 10; clip_a := a; clip_b := b;
       loc := Py.fmul duration_minutes (Py.lit 5 10); scale := s |};
    {| weight := Py.lit 3 10; clip_a := a; clip_b := b;
       loc := Py.fmul duration_minutes (Py.lit 7 10); scale := s |} ].

(** [np.arange(0, stop)]: the floats [0.0, 1.0, ...] below [stop]. *)
Definition arange0 (stop : Py.float) : result (list Py.float) :=
  match stop with
  | S754_nan | S754_infinity _ => Raise ValueError
  | S754_zero _ | S754_finite true _ _ => Ok []
  | S754_finite false m e =>
      let t := Py.trunc_mag m e in
      let n := if SFeqb (binary_normalize Py.prec Py.emax t 0 false) stop
               then t else t + 1 in
      Ok (map (fun i => binary_normalize Py.prec Py.emax (Z.of_nat i) 0 false)
            (seq 0 (Z.to_nat n)))
  end.

Section Curve.

Context `{Clock}.

(** [scipy.stats.truncnorm.pdf(x, a, b, loc, scale)], the sum of a [numpy]
    array and [(t - u).total_seconds()] are library routines. *)
Variable truncnorm_pdf :
  Py.float -> Py.float -> Py.float -> Py.float -> Py.float -> Py.float.
Variable np_sum : list Py.float -> Py.float.
Variable total_seconds_between : datetime -> datetime -> Py.float.

Definition bell (p : Peak) (m : Py.float) : Py.float :=
  Py.fmul (weight p) (truncnorm_pdf m (clip_a p) (clip_b p) (loc p) (scale p)).

(** The weighted bells added from left to right. *)
Definition mixture (peaks : list Peak) (m : Py.float) : Py.float :=
  match peaks with
  | [] => Py.f0
  | p :: r => fold_left (fun acc q => Py.fadd acc (bell q m)) r (bell p m)
  end.

(** A single bell at [peak_frac] of the window with a spread of
    [std_frac] of it, clipped to the window. *)
Definition single (duration_minutes peak_frac std_frac : Py.float)
    : result (Py.float -> Py.float) :=
  let peak := Py.fmul duration_minutes peak_frac in
  let std := Py.fmul duration_minutes std_frac in
  let* a := Py.fdiv (SFopp peak) std in
  let* b := Py.fdiv (Py.fsub duration_minutes peak) std in
  Ok (fun m => truncnorm_pdf m a b peak std).

(** The curve before normalisation, as a function of the minute. *)
Definition raw_curve (pattern : Pattern) (duration_minutes : Py.float)
    : result (Py.float -> Py.float) :=
  match pattern with
  | normal => single duration_minutes (Py.lit 5 10) (Py.lit 25 100)
  | early_rush => single duration_minutes (Py.lit 3 10) (Py.lit 15 100)
  | late_surge => single duration_minutes (Py.lit 8 10) (Py.lit 1 10)
  | wave => Ok (mixture (wave_peaks duration_minutes))
  end.

(** [generate_arrival_curve] *)
Definition generate_arrival_curve (total_attendees : Z)
    (gates_open event_start : datetime) (pattern : Pattern)
    : result (list (Py.float * Py.float)) :=
  let* duration_minutes :=
    Py.float_div_int (total_seconds_between event_start gates_open) 60 in
  let* minutes := arange0 (Py.fadd duration_minutes Py.f1) in
  let* f := raw_curve pattern duration_minutes in
  let curve := map f minutes in
  let total := np_sum curve in
  let* n := Py.of_int total_attendees in
  Ok (combine minutes
        (map (fun c => Py.fmul (SFdiv Py.prec Py.emax c total) n) curve)).

End Curve.

End ArrivalCurve.

(** ** Concrete scenarios *)

(** A time stamp given by the increments added since the start, the latest
    first. *)
#[local] Instance elapsed_clock : Clock :=
  {| datetime := list Py.float; add_seconds := fun t d => Ok (d :: t) |}.

Definition t0 : datetime := [].

Module Scenario.

Import Evacuation.

Definition mk_exit (id : string) (flow : Z) : EmergencyExit :=
  {| exit_id := id; name := id; location := (Py.f0, Py.f0); width := Py.f2;
     max_flow_rate := flow; connects_to_zone := "outside";
     is_accessible := true; current_flow_rate := 0 |}.

Definition mk_zone (id : string) (occ : Z) (area : Py.float) (ex : list string)
    : EvacuationZone :=
  {| zone_id := id; current_occupancy := occ; area_sqm := area;
     nearest_exits := ex; distance_to_exits := [];
     evacuation_started := false; evacuated_count := 0;
     estimated_time_remaining := 0 |}.

(** 10,000 occupants in two zones, two exits of 1,000 persons per minute. *)
Definition stadium_exits : list EmergencyExit :=
  [ mk_exit "north" 1000; mk_exit "south" 1000 ].

Definition stadium_zones : list EvacuationZone :=
  [ mk_zone "stand-a" 6000 (Py.lit 4000 1) ["north"];
    mk_zone "stand-b" 4000 (Py.lit 4000 1) ["south"] ].

Definition stadium : EvacuationSimulator := init stadium_exits stadium_zones.

(** The same simulator with a state object already in place. *)
Definition idle_state : EvacuationState datetime nat :=
  {| phase := NORMAL; start_time := None; elapsed_seconds := 0;
     total_to_evacuate := 0; total_evacuated := 0;
     zones := sim_zones stadium; bottlenecks := []; recommendations := [];
     estimated_complete_time := 0 |}.

Definition stadium_with_state : EvacuationSimulator := set_state stadium idle_state.

(** A simulator without exits. *)
Definition sealed_with_state : EvacuationSimulator :=
  set_state (init [] stadium_zones) idle_state.

(** A restroom without service points. *)
Definition closed_restroom : Facilities.Facility :=
  {| Facilities.facility_id := "restroom-m"; Facilities.facility_type := Facilities.RESTROOM_MALE;
     Facilities.name := "Male Restroom"; Facilities.location := "north-stand";
     Facilities.capacity := 0; Facilities.service_time_avg := Py.I 90;
     Facilities.service_time_std := Py.I 30; Facilities.current_queue := 0;
     Facilities.total_served := 0; Facilities.is_operational := true |}.

Definition one_draw (n : nat) : Py.float := Py.f1.

End Scenario.

(** The attendees a crowd state accounts for. *)
Definition attendees `{Clock} (st : CrowdState) : Z :=
total_approaching st + total_queuing st + total_inside st + total_exited st.

Module Arena.

(** One zone of 250 square metres for 1,000 people behind one gate of 200
    persons per minute. *)
Definition venue : Venue :=
{| venue_id := "arena"; venue_name := "Arena"; total_capacity := 1000;
   gates := [ {| gate_id := "g1"; gate_name := "Gate 1"; capacity_per_minute := 200;
                 gate_location := (Py.f0, Py.f0); is_emergency_exit := false;
                 gate_connected_zones := ["z1"]; is_open := true;
                 gate_current_queue := 0 |} ];
   zones := [ {| zone_id := "z1"; zone_name := "Zone 1"; capacity := 1000;
                 area_sqm := Py.lit 250 1; zone_type := "seating";
                 connected_zones := []; connected_gates := ["g1"];
                 zone_current_occupancy := 0 |} ] |}.

(** The first values of [numpy.random.default_rng(42).random()]. *)
Definition seed42 (n : nat) : Py.float :=
match n with
| O => Py.lit 7739560485559633 10000000000000000
| 1%nat => Py.lit 4388784397520523 10000000000000000
| 2%nat => Py.lit 8585979199113825 10000000000000000
| _ => Py.lit 6973680290593639 10000000000000000
end.

Definition engine : Engine := new_engine seed42 None.

Definition opening : CrowdState := initialize_state venue "concert" 1000 t0.

Definition minute : Py.float := Py.lit 60 1.

End Arena.

Module Replay.

(** Half a person per minute is expected at the gates. *)
Definition trickle : Py.float := Py.lit 5 10.

(** The engine as the first call leaves it. *)
Definition engine_after_one_call : Engine :=
fst (simulate_timestep Arena.engine Arena.venue Arena.opening Arena.minute trickle).

(** An engine with another generator whose next draw is the same as the
    first draw of [Arena.engine]. *)
Definition other_engine : Engine :=
{| params := default_params; rng_draws := fun _ => Arena.seed42 0; rng_pos := 7 |}.

End Replay.

Module Plaza.

Definition mk_zone (id : string) (neighbours : list string) : Zone :=
{| zone_id := id; zone_name := id; capacity := 1000; area_sqm := Py.lit 400 1;
   zone_type := "concourse"; connected_zones := neighbours; connected_gates := [];
   zone_current_occupancy := 0 |}.

(** A concourse that opens onto two wings; no gates. *)
Definition venue : Venue :=
{| venue_id := "plaza"; venue_name := "Plaza"; total_capacity := 3000; gates := [];
   zones := [ mk_zone "concourse" ["east"; "west"]; mk_zone "east" [];
              mk_zone "west" [] ] |}.

Definition mk_state (id : string) (occ : Z) (d : Py.float) : ZoneState :=
{| zs_zone_id := id; current_occupancy := occ; density := d; inflow_rate := Py.f0;
   outflow_rate := Py.f0; risk_level := "safe" |}.

(** 100 people stand in the concourse (0.25 persons per square metre), the
    wings are empty. *)
Definition crowd : CrowdState :=
{| event_id := "fair"; timestamp := t0; simulation_time_minutes := Py.f0;
   total_inside := 100; total_queuing := 0; total_exited := 0;
   total_approaching := 0;
   zone_states :=
     <["concourse" := mk_state "concourse" 100 (Py.lit 25 100)]>
       (<["east" := mk_state "east" 0 Py.f0]>
          (<["west" := mk_state "west" 0 Py.f0]> ∅));
   gate_states := ∅;
   overall_inflow_rate := Py.f0; overall_outflow_rate := Py.f0; agents := [] |}.

End Plaza.

(** The occupancies of the given zones in a step's result. *)
Definition occupancies `{Clock} (r : result CrowdState) (ids : list string)
    : option (list Z) :=
match r with
| Ok st => Some (omap (fun z => option_map current_occupancy (zone_states st !! z)) ids)
| Raise _ => None
end.


(** ** Evacuation runs *)

Section EvacuationRuns.

Context `{Clock}.

Import Evacuation.

(** The simulator after the calls [simulate_step(dt)] for the [dt] of a list,
    made in turn whether or not they raise. *)
Definition steps (dts : list Z) (s : EvacuationSimulator) : EvacuationSimulator :=
fold_left (fun s0 dt => fst (simulate_step dt s0)) dts s.

(** [self.state.total_evacuated] *)
Definition evacuated_so_far (s : EvacuationSimulator) : Z :=
match state s with
| Some st => total_evacuated st
| None => 0
end.

(** The sum of [evacuated_count] over [self.state.zones.values()]. *)
Definition zone_counts (s : EvacuationSimulator) : Z :=
match state s with
| Some st => sum_Z (map evacuated_count (deref (heap s) (zones st)))
| None => 0
end.

(** Every exit has a rated flow that is not negative. *)
Definition flows_nonneg (s : EvacuationSimulator) : Prop :=
Forall (fun e => 0 <= max_flow_rate e) (dict_values (exits s)).

(** The state's dictionary holds each zone object once. *)
Definition zones_distinct (s : EvacuationSimulator) : Prop :=
match state s with
| Some st => NoDup (dict_values (zones st))
| None => True
end.

(** Zone object [z'] is [z] after [n] people have left it. *)
Definition zone_moved (z z' : EvacuationZone) (n : Z) : Prop :=
zone_id z' = zone_id z /\ area_sqm z' = area_sqm z /\
nearest_exits z' = nearest_exits z /\
current_occupancy z' = current_occupancy z - n /\
evacuated_count z' = evacuated_count z + n.

(** The fields of the state that the bookkeeping at the end of a step
    leaves alone, the phase apart. *)
Definition ledger (st : EvacuationState datetime nat) : Z * Z * dict nat :=
(total_to_evacuate st, total_evacuated st, zones st).

(** What steps may do to the zone objects: each keeps its identity, area
    and exits, the people it loses are counted as evacuated, its occupancy
    stays non-negative and, under the condition [G], does not grow. *)
Definition heap_step (G : Prop) (h h' : list EvacuationZone) : Prop :=
length h' = length h /\
forall a z, h !! a = Some z ->
  exists z', h' !! a = Some z' /\
    zone_id z' = zone_id z /\ area_sqm z' = area_sqm z /\
    nearest_exits z' = nearest_exits z /\
    current_occupancy z' + evacuated_count z'
    = current_occupancy z + evacuated_count z /\
    (0 <= current_occupancy z -> 0 <= current_occupancy z') /\
    (G -> current_occupancy z' <= current_occupancy z).

(** The sum of [evacuated_count] over the zone objects at the addresses [L]. *)
Definition counts (h : list EvacuationZone) (L : list nat) : Z :=
sum_Z (map evacuated_count (omap (fun a => h !! a) L)).

(** The density of a zone: occupancy over area. *)
Definition zone_density (z : EvacuationZone) : result Py.float :=
Py.int_div_float (current_occupancy z) (area_sqm z).

Fixpoint all_densities (zs : list EvacuationZone) : result (list Py.float) :=
match zs with
| [] => Ok []
| z :: rest =>
    let* d := zone_density z in
    let* ds := all_densities rest in
    Ok (d :: ds)
end.

(** The transition rule as the specification words it, over the densities of
    the zones after the step: CRITICAL if some density reaches the crushing
    threshold; else PANIC if some density reaches the bottleneck threshold
    or the phase was CRITICAL; else ALERT if the phase was PANIC and every
    density, hence the largest, is below half the bottleneck threshold;
    otherwise the phase stays. *)
Definition phase_rule (previous : EvacuationPhase) (densities : list Py.float)
    : EvacuationPhase :=
if existsb (fun d => Py.fge d CRUSHING_DENSITY) densities then CRITICAL
else if existsb (fun d => Py.fge d BOTTLENECK_DENSITY) densities
        || phase_eqb previous CRITICAL then PANIC
else if phase_eqb previous PANIC
        && forallb (fun d => Py.flt d (Py.fmul BOTTLENECK_DENSITY Py.f0_5)) densities
     then ALERT
else previous.

(** Every zone object has a positive area and no negative occupancy. *)
Definition zones_well_formed (s : EvacuationSimulator) : Prop :=
Forall (fun z => Py.positive_finite (area_sqm z) /\ 0 <= current_occupancy z) (heap s).

(** C2 as it is stated, between a simulator [s] and what it has become
    after some steps: the evacuated total has not decreased, no zone has
    gained occupants, and the total equals the sum of the zone counters. *)
Definition monotone_and_balanced (s s' : EvacuationSimulator) : Prop :=
evacuated_so_far s <= evacuated_so_far s' /\
(forall a z z', heap s !! a = Some z -> heap s' !! a = Some z' ->
                current_occupancy z' <= current_occupancy z) /\
evacuated_so_far s' = zone_counts s'.

End EvacuationRuns.

Module Restart.

Import Evacuation.

(** An evacuation of the stadium is started and runs for a minute. *)
Definition started : EvacuationSimulator :=
fst (start_evacuation Scenario.stadium_with_state t0 ALERT).

Definition after_a_minute : EvacuationSimulator := steps [60] started.

(** A second evacuation is started on the same simulator. *)
Definition restarted : EvacuationSimulator :=
fst (start_evacuation after_a_minute t0 ALERT).

End Restart.

Module Turnstile.

(** A side gate that lets one person a minute through, with five people
    waiting at it, over a step of thirty seconds. *)
Definition gate : Gate :=
{| gate_id := "side"; gate_name := "Side gate"; capacity_per_minute := 1;
   gate_location := (Py.f0, Py.f0); is_emergency_exit := false;
   gate_connected_zones := ["z1"]; is_open := true; gate_current_queue := 0 |}.

Definition queue : Z := 5.



(** Densities of 1 and of 3 persons per square metre. *)
Definition busy : Py.float := Py.lit 1 1.



End Turnstile.

(** ** Notions for the further properties *)

(** [Venue.get_gate]: the first gate with the given id. *)
Definition get_gate (v : Venue) (g : string) : option Gate :=
List.find (fun gt => String.eqb (gate_id gt) g) (gates v).

(** [Venue.get_total_gate_capacity]: the capacity of the open gates. *)
Definition get_total_gate_capacity (v : Venue) : Z :=
sum_Z (map capacity_per_minute (List.filter is_open (gates v))).

Section CrowdNotions.

Context `{Clock}.

(** The state has an entry for every zone and every gate of the venue. *)
Definition covers (venue : Venue) (st : CrowdState) : Prop :=
Forall (fun z => is_Some (zone_states st !! zone_id z)) (zones venue) /\
Forall (fun g => is_Some (gate_states st !! gate_id g)) (gates venue).

(** No zone or gate entry of [st] is missing from [st']. *)
Definition keeps_keys (st st' : CrowdState) : Prop :=
(forall k, is_Some (zone_states st !! k) -> is_Some (zone_states st' !! k)) /\
(forall k, is_Some (gate_states st !! k) -> is_Some (gate_states st' !! k)).

(** No zone of the venue holds more people than the larger of [b] of its
    id and its capacity. *)
Definition within_bounds (venue : Venue) (b : string -> Z) (st : CrowdState) : Prop :=
forall id z zst,
  get_zone venue id = Some z -> zone_states st !! id = Some zst ->
  current_occupancy zst <= Z.max (b id) (capacity z).

(** The occupancy the state records for a zone id, 0 for an id it lacks. *)
Definition occupancy_of (st : CrowdState) (id : string) : Z :=
match zone_states st !! id with
| Some zst => current_occupancy zst
| None => 0
end.

(** The people queuing at the gates of the venue:
    the sum of [queue_length] over the venue's gates. *)
Definition queues_total (venue : Venue) (st : CrowdState) : Z :=
sum_Z (map (fun g => match gate_states st !! gate_id g with
                     | Some gst => queue_length gst
                     | None => 0
                     end) (gates venue)).

(** The people in the zones of the venue. *)
Definition zones_total (venue : Venue) (st : CrowdState) : Z :=
sum_Z (map (fun z => occupancy_of st (zone_id z)) (zones venue)).

(** The four counters of a crowd state. *)
Definition counters (st : CrowdState) : Z * Z * Z * Z :=
(total_approaching st, total_queuing st, total_inside st, total_exited st).

End CrowdNotions.

(** ** The stepping loop of the route ([api/routes/simulation.py]) *)

(** The rate the route reads off the arrival curve for a minute: that of
    the first entry with [minute <= current_minute < minute + 1], else
    0.0. *)
Fixpoint arrival_rate_at (arrival_curve : list (Py.float * Py.float))
    (current_minute : Z) : Py.float :=
match arrival_curve with
| [] => Py.f0
| (minute, rate) :: rest =>
    if Py.num_ge (Py.I current_minute) (Py.F minute)
       && Py.num_lt (Py.I current_minute) (Py.F (Py.fadd minute Py.f1))
    then rate
    else arrival_rate_at rest current_minute
end.

Section RouteLoop.

Context `{Clock}.

(** The loop [for _ in range(request.steps)] of [simulation_step] over
    time steps of ten seconds: the engine, the route's clock
    [current_time_minutes] and the crowd state after it, or the exception
    that ended it. *)
Fixpoint stepping_loop (steps : nat) (eng : Engine) (venue : Venue)
    (arrival_curve : list (Py.float * Py.float)) (current_time_minutes : Py.float)
    (st : CrowdState) : Engine * result (Py.float * CrowdState) :=
match steps with
| O => (eng, Ok (current_time_minutes, st))
| S rest =>
    match Py.to_int current_time_minutes with
    | Raise e => (eng, Raise e)
    | Ok current_minute =>
        let arrival_rate := arrival_rate_at arrival_curve current_minute in
        match simulate_timestep eng venue st (Py.lit 10 1) arrival_rate with
        | (eng1, Raise e) => (eng1, Raise e)
        | (eng1, Ok st1) =>
            match Py.float_div_int (Py.lit 10 1) 60 with
            | Raise e => (eng1, Raise e)
            | Ok m =>
                stepping_loop rest eng1 venue arrival_curve
                  (Py.fadd current_time_minutes m) st1
            end
        end
    end
end.

Definition simulation_step_loop (steps : Z) (eng : Engine) (venue : Venue)
    (arrival_curve : list (Py.float * Py.float)) (current_time_minutes : Py.float)
    (st : CrowdState) : Engine * result (Py.float * CrowdState) :=
stepping_loop (Z.to_nat steps) eng venue arrival_curve current_time_minutes st.

End RouteLoop.

(** The place of a risk level on the scale from safe to critical. *)
Definition risk_rank (level : string) : nat :=
if String.eqb level "safe" then 0
else if String.eqb level "moderate" then 1
else if String.eqb level "high" then 2
else 3.

(** The three reduction factors of the parameters are not negative. *)
Definition reductions_nonneg (p : SimulationParams) : Prop :=
Py.nonneg (flow_reduction_crowded p) /\ Py.nonneg (flow_reduction_dangerous p) /\
Py.nonneg (flow_reduction_critical p).

Module Detour.

(** A gate of 60 persons a minute that is connected to a zone the venue
    does not have, with ten people queuing at it. *)
Definition gate : Gate :=
{| gate_id := "g1"; gate_name := "Gate 1"; capacity_per_minute := 60;
   gate_location := (Py.f0, Py.f0); is_emergency_exit := false;
   gate_connected_zones := ["nowhere"]; is_open := true; gate_current_queue := 0 |}.

Definition venue : Venue :=
{| venue_id := "detour"; venue_name := "Detour"; total_capacity := 1000;
   gates := [gate]; zones := zones Arena.venue |}.

Definition waiting : GateState :=
{| gs_gate_id := "g1"; queue_length := 10; throughput_rate := Py.f0;
   wait_time_minutes := Py.F Py.f0; is_congested := false |}.

Definition queued : CrowdState :=
set_gate_states (initialize_state venue "concert" 100 t0) (<["g1" := waiting]> ∅).

End Detour.

Section EvacuationAccounts.

Context `{Clock}.

Import Evacuation.

(** The people still in the zones of the state:
    [sum(z.current_occupancy for z in self.state.zones.values())]. *)
Definition people_in_zones (s : EvacuationSimulator) : Z :=
match state s with
| Some st => sum_Z (map current_occupancy (deref (heap s) (zones st)))
| None => 0
end.

(** [self.state.total_to_evacuate - self.state.total_evacuated], the
    [remaining] of [simulate_step]. *)
Definition still_to_evacuate (s : EvacuationSimulator) : Z :=
match state s with
| Some st => total_to_evacuate st - total_evacuated st
| None => 0
end.

(** What a zone's turn in the loop leaves when it returns over a step of no
    duration. *)
Definition zero_turn (a : nat) (s s' : EvacuationSimulator) : Prop :=
  exits s' = exits s /\ (is_Some (state s) -> is_Some (state s')) /\
  (forall b z, heap s !! b = Some z ->
     exists z', heap s' !! b = Some z' /\
                current_occupancy z' = current_occupancy z /\
                nearest_exits z' = nearest_exits z) /\
  (forall z eid ex,
     heap s !! a = Some z -> is_Some (state s) -> 0 < current_occupancy z ->
     eid ∈ nearest_exits z -> dict_get eid (exits s) = Some ex ->
     is_accessible ex = false).

(** No zone object has an area of zero. *)
Definition areas_not_zero (s : EvacuationSimulator) : Prop :=
  Forall (fun z => Py.is_zero (area_sqm z) = false) (heap s).

(** A method that, on a simulator without zones of area zero, does not
    raise [ZeroDivisionError] and leaves no such zone. *)
Definition divides_safely {A : Type} (m : M A) : Prop :=
  forall s, areas_not_zero s ->
    snd (m s) <> Raise ZeroDivisionError /\ areas_not_zero (fst (m s)).

(** The fullest zone first. *)
Fixpoint fullest_first (l : list EvacuationZone) : Prop :=
  match l with
  | [] => True
  | z :: r =>
      Forall (fun y => current_occupancy y <= current_occupancy z) r /\ fullest_first r
  end.

(** The number of zones of [zs] that hold more people than [z]. *)
Definition fuller_than (zs : list EvacuationZone) (z : EvacuationZone) : nat :=
  length (List.filter (fun y => current_occupancy z <? current_occupancy y) zs).

End EvacuationAccounts.

(** The people who join the queue of a facility in one step: the
    [arrivals] of [FacilitySimulator.simulate_step]. *)
Definition arrivals_of (f : Facilities.Facility) (demand_mult u : Py.float)
    (zone_populations : dict Z) (dt_seconds : Z) : result Z :=
let zone_pop := default 0 (dict_get (Facilities.location f) zone_populations) in
let* r := Py.int_mul_float zone_pop (Facilities.base_fraction (Facilities.facility_type f)) in
let* dt_minutes := Py.int_truediv dt_seconds 60 in
Py.to_int (Py.fmul (Py.fmul (Py.fmul r dt_minutes) demand_mult) u).

(** A number that is zero: the [int] 0 or a float zero of either sign. *)
Definition num_is_zero (a : Py.num) : bool :=
match a with
| Py.I z => z =? 0
| Py.F x => Py.is_zero x
end.

(** A facility with at least one service point and a service time other
    than zero. *)
Definition can_serve (f : Facilities.Facility) : Prop :=
Facilities.capacity f <> 0 /\ num_is_zero (Facilities.service_time_avg f) = false.

(** The keys of the facilities in service, in the order of the dictionary. *)
Definition in_service (d : dict Facilities.Facility) : list string :=
map fst (List.filter (fun kv => Facilities.is_operational (snd kv)) d).

Module Kiosk.

Import Facilities.

(** A food court with four counters and twelve people waiting, and a cash
    machine that is out of service. *)
Definition food_court : Facility :=
{| facility_id := "food-1"; facility_type := FOOD_COURT; name := "Food Court";
   location := "concourse"; capacity := 4; service_time_avg := Py.I 180;
   service_time_std := Py.I 60; current_queue := 12; total_served := 0;
   is_operational := true |}.

Definition cash_machine : Facility :=
{| facility_id := "atm-1"; facility_type := ATM; name := "Cash Machine";
   location := "concourse"; capacity := 1; service_time_avg := Py.I 90;
   service_time_std := Py.I 30; current_queue := 3; total_served := 7;
   is_operational := false |}.

Definition sim : FacilitySimulator := init [food_court; cash_machine].

Definition crowd : dict Z := [("concourse", 2000)].

End Kiosk.

(** * Properties *)

Lemma rbind_ok {A B : Type} (r : result A) (k : A -> result B) (b : B) :
  rbind r k = Ok b -> exists a, r = Ok a /\ k a = Ok b.
Proof. destruct r as [a|e]; simpl; [eauto | discriminate]. Qed.

Lemma of_option_ok {A : Type} (e : exn) (o : option A) (a : A) :
  of_option e o = Ok a -> o = Some a.
Proof. destruct o; simpl; congruence. Qed.

(** ** Python numbers: signs *)

Module PyFacts.

Lemma trunc_mag_nonneg (m : positive) (e : Z) : 0 <= Py.trunc_mag m e.
Proof.
  unfold Py.trunc_mag. destruct e as [|p|p].
  - lia.
  - apply Z.mul_nonneg_nonneg; [lia|]. apply Z.pow_nonneg. lia.
  - apply Z.div_pos; [lia|]. apply Z.pow_pos_nonneg; lia.
Qed.

Lemma to_int_nonneg (x : Py.float) (n : Z) :
  Py.nonneg x -> Py.to_int x = Ok n -> 0 <= n.
Proof.
  unfold Py.to_int. destruct x as [s|s| |s m e]; try discriminate.
  - intros _ [= <-]. lia.
  - destruct s; [contradiction|]. intros _ [= <-]. apply trunc_mag_nonneg.
Qed.

Lemma binary_round_aux_sign (s : bool) (m e : Z) (l : location) :
  match binary_round_aux Py.prec Py.emax s m e l with
  | S754_zero s' | S754_infinity s' | S754_finite s' _ _ => s' = s
  | S754_nan => True
  end.
Proof.
  unfold binary_round_aux.
  destruct (shr_fexp _ _ _ _ _) as [mrs' e'].
  destruct (shr_fexp _ _ _ _ _) as [mrs'' e''].
  destruct (shr_m mrs''); try reflexivity.
  destruct (_ <=? _); reflexivity.
Qed.

Lemma binary_round_aux_nonneg (m e : Z) (l : location) :
  Py.nonneg (binary_round_aux Py.prec Py.emax false m e l).
Proof.
  pose proof (binary_round_aux_sign false m e l) as Hs.
  destruct (binary_round_aux _ _ _ _ _ _) as [s|s| |s m' e']; cbn; subst; exact I.
Qed.

Lemma binary_round_nonneg (m : positive) (e : Z) :
  Py.nonneg (binary_round Py.prec Py.emax false m e).
Proof.
  unfold binary_round. destruct (shl_align _ _ _) as [mz ez].
  apply binary_round_aux_nonneg.
Qed.

Lemma fmul_nonneg (x y : Py.float) :
  Py.nonneg x -> Py.nonneg y -> Py.nonneg (Py.fmul x y).
Proof.
  unfold Py.fmul.
  destruct x as [sx|[|]| |[|] mx ex]; destruct y as [sy|[|]| |[|] my ey];
    cbn; try tauto.
  intros _ _. apply binary_round_aux_nonneg.
Qed.

Lemma of_int_nonneg (z : Z) (x : Py.float) :
  0 <= z -> Py.of_int z = Ok x -> Py.nonneg x.
Proof.
  unfold Py.of_int, binary_normalize. intros Hz.
  destruct z as [|p|p]; [| |lia].
  - intros [= <-]. exact I.
  - pose proof (binary_round_nonneg p 0) as Hn.
    destruct (binary_round _ _ _ _ _) as [s|s| |s m e]; try discriminate;
      intros [= <-]; exact Hn.
Qed.

Lemma int_truediv_nonneg (a b : Z) (x : Py.float) :
  0 <= a -> 0 < b -> Py.int_truediv a b = Ok x -> Py.nonneg x.
Proof.
  unfold Py.int_truediv. intros Ha Hb.
  destruct (b =? 0); [discriminate|].
  replace (a <? 0) with false by (symmetry; apply Z.ltb_ge; lia).
  replace (b <? 0) with false by (symmetry; apply Z.ltb_ge; lia).
  cbn [xorb].
  destruct (Z.abs a =? 0); [intros [= <-]; exact I|].
  match goal with
  | |- context [binary_round ?p ?q false ?m ?e] =>
      pose proof (binary_round_nonneg m e) as Hn;
      destruct (binary_round p q false m e) as [s|s| |s m' e']
  end; try discriminate; intros [= <-]; exact Hn.
Qed.

(** The larger of a positive constant and any float is not negative. *)
Lemma fmax2_nonneg (c y : Py.float) :
  Py.positive_finite c -> Py.nonneg (Py.fmax2 c y).
Proof.
  unfold Py.fmax2, Py.flt, SFltb.
  destruct c as [| | |[|] mc ec]; try contradiction. intros _.
  destruct y as [sy|[|]| |[|] my ey]; cbn; try exact I.
  destruct (ec ?= ey); [destruct (Pos.compare_cont Eq mc my)| |]; exact I.
Qed.

(** *** Results that are numbers *)

Lemma iter_pos_invariant {A : Type} (P : A -> Prop) (f : A -> A) :
  (forall x, P x -> P (f x)) -> forall p x, P x -> P (SpecFloat.iter_pos f p x).
Proof.
  intros Hf. induction p as [p IH|p IH|]; intros x Hx; cbn; auto.
Qed.

Lemma shr_1_nonneg (r : shr_record) : 0 <= shr_m r -> 0 <= shr_m (shr_1 r).
Proof.
  destruct r as [m r s]. cbn. destruct m as [|[p|p|]|[p|p|]]; cbn; lia.
Qed.

Lemma shr_nonneg (r : shr_record) (e n : Z) :
  0 <= shr_m r -> 0 <= shr_m (fst (shr r e n)).
Proof.
  intros Hr. unfold shr. destruct n as [|p|p]; cbn; try exact Hr.
  apply (iter_pos_invariant (fun x => 0 <= shr_m x)); [apply shr_1_nonneg | exact Hr].
Qed.

Lemma shr_fexp_nonneg (m e : Z) (l : location) :
  0 <= m -> 0 <= shr_m (fst (shr_fexp Py.prec Py.emax m e l)).
Proof.
  intros Hm. unfold shr_fexp. apply shr_nonneg.
  destruct l as [|[ | | ]]; exact Hm.
Qed.

Lemma round_nearest_even_nonneg (m : Z) (l : location) :
  0 <= m -> 0 <= round_nearest_even m l.
Proof.
  intros Hm. unfold round_nearest_even.
  destruct l as [|[ | | ]]; try destruct (Z.even m); lia.
Qed.

Lemma binary_round_aux_not_nan (s : bool) (m e : Z) (l : location) :
  0 <= m -> Py.is_nan (binary_round_aux Py.prec Py.emax s m e l) = false.
Proof.
  intros Hm. unfold binary_round_aux.
  pose proof (shr_fexp_nonneg m e l Hm) as H1.
  destruct (shr_fexp _ _ m e l) as [mrs' e']. cbn [fst] in H1.
  pose proof (shr_fexp_nonneg _ e' loc_Exact
                (round_nearest_even_nonneg _ (loc_of_shr_record mrs') H1)) as H2.
  destruct (shr_fexp _ _ _ e' loc_Exact) as [mrs'' e'']. cbn [fst] in H2.
  destruct (shr_m mrs'') as [|p|p]; [reflexivity| |lia].
  destruct (_ <=? _); reflexivity.
Qed.

Lemma binary_round_not_nan (s : bool) (m : positive) (e : Z) :
  Py.is_nan (binary_round Py.prec Py.emax s m e) = false.
Proof.
  unfold binary_round. destruct (shl_align _ _ _) as [mz ez].
  apply binary_round_aux_not_nan. lia.
Qed.

Lemma of_int_not_nan (z : Z) (x : Py.float) :
  Py.of_int z = Ok x -> Py.is_nan x = false.
Proof.
  unfold Py.of_int, binary_normalize.
  destruct z as [|p|p].
  - intros [= <-]. reflexivity.
  - pose proof (binary_round_not_nan false p 0) as Hn.
    destruct (binary_round _ _ _ _ _) as [s|s| |s m e]; try discriminate;
      intros [= <-]; reflexivity.
  - pose proof (binary_round_not_nan true p 0) as Hn.
    destruct (binary_round _ _ _ _ _) as [s|s| |s m e]; try discriminate;
      intros [= <-]; reflexivity.
Qed.

Lemma SFdiv_not_nan (x y : Py.float) :
  Py.is_nan x = false -> Py.positive_finite y ->
  Py.is_nan (SFdiv Py.prec Py.emax x y) = false.
Proof.
  destruct y as [| | |[|] my ey]; try contradiction. intros Hx _.
  destruct x as [sx|sx| |sx mx ex]; try discriminate; try reflexivity.
  unfold SFdiv, SFdiv_core_binary.
  match goal with
  | |- context [Z.div_eucl ?a ?b] =>
      assert (Hq : 0 <= a / b) by (apply Z.div_pos; [|lia];
        destruct (_ - _ - _) as [|p|p]; try lia; apply Z.shiftl_nonneg; lia);
      unfold Z.div in Hq; destruct (Z.div_eucl a b) as [q r]
  end.
  apply binary_round_aux_not_nan. exact Hq.
Qed.

(** The density [occupancy / area] of a zone with a positive area is a
    number. *)
Lemma int_div_float_not_nan (z : Z) (y d : Py.float) :
  Py.positive_finite y -> Py.int_div_float z y = Ok d -> Py.is_nan d = false.
Proof.
  intros Hy. unfold Py.int_div_float. intros Hr.
  apply rbind_ok in Hr as (fz & Hz & Hr).
  unfold Py.fdiv in Hr. destruct (Py.is_zero y); [discriminate|].
  injection Hr as <-. apply SFdiv_not_nan; [|exact Hy].
  eapply of_int_not_nan. exact Hz.
Qed.

(** *** The order of floats *)

Lemma compare_cont_eq (m n : positive) : Pos.compare_cont Eq m n = (m ?= n)%positive.
Proof. reflexivity. Qed.

(** Decide a goal about comparisons of integers by cases. *)
Ltac cmp_cases :=
  repeat match goal with
  | H : context [Pos.compare_cont Eq ?a ?b] |- _ =>
      change (Pos.compare_cont Eq a b) with (Pos.compare a b) in H
  | |- context [Pos.compare_cont Eq ?a ?b] =>
      change (Pos.compare_cont Eq a b) with (Pos.compare a b)
  | H : context [(?a ?= ?b)%positive] |- _ =>
      destruct (Pos.compare_spec a b); try discriminate H
  | |- context [(?a ?= ?b)%positive] => destruct (Pos.compare_spec a b)
  | H : context [?a ?= ?b] |- _ =>
      destruct (Z.compare_spec a b); try discriminate H
  | |- context [?a ?= ?b] => destruct (Z.compare_spec a b)
  end;
  cbn in *; try reflexivity; try discriminate; try lia.

Lemma SFltb_negb_leb (x y : Py.float) :
  Py.is_nan x = false -> Py.is_nan y = false ->
  SFltb x y = negb (SFleb y x).
Proof.
  unfold SFltb, SFleb.
  destruct x as [sx|[|]| |[|] mx ex]; destruct y as [sy|[|]| |[|] my ey];
    cbn; try discriminate; intros _ _; try reflexivity; cmp_cases.
Qed.

Lemma SFleb_trans (x y z : Py.float) :
  SFleb x y = true -> SFleb y z = true -> SFleb x z = true.
Proof.
  unfold SFleb.
  destruct x as [sx|[|]| |[|] mx ex]; destruct y as [sy|[|]| |[|] my ey];
    cbn; try discriminate;
    destruct z as [sz|[|]| |[|] mz ez]; cbn; try discriminate; try reflexivity;
    intros H1 H2; cmp_cases.
Qed.

Lemma SFltb_leb (x y : Py.float) : SFltb x y = true -> SFleb x y = true.
Proof. unfold SFltb, SFleb. destruct (SFcompare x y) as [[ | | ]|]; auto. Qed.

Lemma fmax2_not_nan (a b : Py.float) :
  Py.is_nan a = false -> Py.is_nan b = false -> Py.is_nan (Py.fmax2 a b) = false.
Proof. unfold Py.fmax2. destruct (Py.flt a b); auto. Qed.

(** The larger of two numbers reaches a threshold when one of them does. *)
Lemma fge_fmax2 (a b t : Py.float) :
  Py.is_nan a = false -> Py.is_nan b = false ->
  Py.fge (Py.fmax2 a b) t = Py.fge a t || Py.fge b t.
Proof.
  intros Ha Hb. unfold Py.fmax2, Py.fge, Py.flt.
  destruct (SFltb a b) eqn:Hab.
  - destruct (SFleb t a) eqn:Hta; [|reflexivity]. cbn.
    eapply SFleb_trans; [exact Hta|]. apply SFltb_leb. exact Hab.
  - rewrite (SFltb_negb_leb a b Ha Hb) in Hab. apply negb_false_iff in Hab.
    destruct (SFleb t b) eqn:Htb; [|rewrite orb_false_r; reflexivity].
    rewrite orb_true_r. eapply SFleb_trans; eassumption.
Qed.

(** ** The exponent of a rounded result *)

Lemma fexp_eq (e : Z) : fexp Py.prec Py.emax e = Z.max (e - 53) (-1074).
Proof. reflexivity. Qed.

(** ** Binary digits *)

Lemma digits2_pos_bounds (p : positive) :
  2 ^ (Zpos (digits2_pos p) - 1) <= Zpos p < 2 ^ Zpos (digits2_pos p).
Proof.
  induction p as [p IH|p IH|]; cbn [digits2_pos].
  - rewrite Pos2Z.inj_succ, Z.pow_succ_r by lia.
    replace (Z.succ (Zpos (digits2_pos p)) - 1) with (Z.succ (Zpos (digits2_pos p) - 1)) by lia.
    rewrite Z.pow_succ_r by lia. lia.
  - rewrite Pos2Z.inj_succ, Z.pow_succ_r by lia.
    replace (Z.succ (Zpos (digits2_pos p)) - 1) with (Z.succ (Zpos (digits2_pos p) - 1)) by lia.
    rewrite Z.pow_succ_r by lia. lia.
  - cbn. lia.
Qed.

Lemma Zdigits2_nonneg (m : Z) : 0 <= Zdigits2 m.
Proof. destruct m; cbn; lia. Qed.

Lemma Zdigits2_bounds (m : Z) :
  0 < m -> 2 ^ (Zdigits2 m - 1) <= m < 2 ^ Zdigits2 m.
Proof. destruct m as [|p|p]; try lia. intros _. apply digits2_pos_bounds. Qed.

Lemma Zdigits2_pos (m : Z) : 0 < m -> 0 < Zdigits2 m.
Proof. destruct m; cbn; lia. Qed.

Lemma Zdigits2_unique (m k : Z) :
  2 ^ (k - 1) <= m < 2 ^ k -> 0 < m -> Zdigits2 m = k.
Proof.
  intros (Hlo & Hhi) Hm.
  destruct (Zdigits2_bounds m Hm) as (Dlo & Dhi).
  pose proof (Zdigits2_pos m Hm) as Dp.
  assert (Hk : 0 < k).
  { destruct k as [|p|p]; [cbn in Hhi; lia|lia|].
    rewrite Z.pow_neg_r in Hhi by lia. lia. }
  destruct (Z_lt_le_dec (Zdigits2 m) k) as [Hlt|Hge].
  - assert (2 ^ Zdigits2 m <= 2 ^ (k - 1)) by (apply Z.pow_le_mono_r; lia). lia.
  - destruct (Z_lt_le_dec k (Zdigits2 m)) as [Hlt|Hge2]; [|lia].
    assert (2 ^ k <= 2 ^ (Zdigits2 m - 1)) by (apply Z.pow_le_mono_r; lia). lia.
Qed.

Lemma Zdigits2_div_pow2 (m n : Z) :
  0 < m -> 0 <= n < Zdigits2 m -> Zdigits2 (m / 2 ^ n) = Zdigits2 m - n /\ 0 < m / 2 ^ n.
Proof.
  intros Hm Hn. destruct (Zdigits2_bounds m Hm) as (Dlo & Dhi).
  assert (Hp : 0 < 2 ^ n) by (apply Z.pow_pos_nonneg; lia).
  assert (Hlo : 2 ^ (Zdigits2 m - n - 1) <= m / 2 ^ n).
  { apply Z.div_le_lower_bound; [exact Hp|].
    rewrite <- Z.pow_add_r by lia.
    replace (n + (Zdigits2 m - n - 1)) with (Zdigits2 m - 1) by lia. exact Dlo. }
  assert (Hhi : m / 2 ^ n < 2 ^ (Zdigits2 m - n)).
  { apply Z.div_lt_upper_bound; [exact Hp|].
    rewrite <- Z.pow_add_r by lia.
    replace (n + (Zdigits2 m - n)) with (Zdigits2 m) by lia. exact Dhi. }
  assert (Hq : 0 < m / 2 ^ n).
  { assert (0 < 2 ^ (Zdigits2 m - n - 1)) by (apply Z.pow_pos_nonneg; lia). lia. }
  split; [|exact Hq]. apply Zdigits2_unique; [|exact Hq]. split; assumption.
Qed.

Lemma div_pow2_small (m n : Z) :
  0 <= m -> Zdigits2 m <= n -> m / 2 ^ n = 0.
Proof.
  intros Hm Hn. destruct (Z.eq_dec m 0) as [->|Hne]; [apply Z.div_0_l|].
  - pose proof (Z.pow_pos_nonneg 2 n). pose proof (Zdigits2_nonneg 0). cbn in *. lia.
  - apply Z.div_small. destruct (Zdigits2_bounds m) as (_ & Hhi); [lia|].
    assert (2 ^ Zdigits2 m <= 2 ^ n) by (apply Z.pow_le_mono_r; lia). lia.
Qed.

Lemma Zdigits2_mul_pow2 (m n : Z) :
  0 < m -> 0 <= n -> Zdigits2 (m * 2 ^ n) = Zdigits2 m + n.
Proof.
  intros Hm Hn. destruct (Zdigits2_bounds m Hm) as (Dlo & Dhi).
  pose proof (Zdigits2_pos m Hm).
  assert (Hp : 0 < 2 ^ n) by (apply Z.pow_pos_nonneg; lia).
  apply Zdigits2_unique; [|nia].
  replace (Zdigits2 m + n - 1) with (Zdigits2 m - 1 + n) by lia.
  rewrite !Z.pow_add_r by lia. nia.
Qed.


Lemma Zdigits2_le (a b : Z) : 0 <= a <= b -> Zdigits2 a <= Zdigits2 b.
Proof.
  intros (Ha & Hab). destruct (Z.eq_dec a 0) as [->|Hne]; [apply Zdigits2_nonneg|].
  destruct (Zdigits2_bounds a) as (Alo & Ahi); [lia|].
  destruct (Zdigits2_bounds b) as (Blo & Bhi); [lia|].
  destruct (Z_lt_le_dec (Zdigits2 b) (Zdigits2 a)); [|lia].
  assert (2 ^ Zdigits2 b <= 2 ^ (Zdigits2 a - 1)) by (apply Z.pow_le_mono_r; lia). lia.
Qed.

(** Adding one either keeps the number of digits or gives a power of two. *)
Lemma Zdigits2_succ (m : Z) :
  0 < m ->
  Zdigits2 (m + 1) = Zdigits2 m \/
  (Zdigits2 (m + 1) = Zdigits2 m + 1 /\ m + 1 = 2 ^ Zdigits2 m).
Proof.
  intros Hm. destruct (Zdigits2_bounds m Hm) as (Dlo & Dhi).
  pose proof (Zdigits2_pos m Hm).
  destruct (Z_lt_le_dec (m + 1) (2 ^ Zdigits2 m)) as [Hlt|Hge].
  - left. apply Zdigits2_unique; lia.
  - right. assert (He : m + 1 = 2 ^ Zdigits2 m) by lia. split; [|exact He].
    apply Zdigits2_unique; [|lia].
    replace (Zdigits2 m + 1 - 1) with (Zdigits2 m) by lia.
    rewrite Z.pow_add_r by lia. lia.
Qed.

(** *** Shifting a mantissa right *)

Lemma iter_pos_nat {A : Type} (f : A -> A) (p : positive) (x : A) :
  SpecFloat.iter_pos f p x = Nat.iter (Pos.to_nat p) f x.
Proof.
  revert x. induction p as [p IH|p IH|]; intros x; cbn [SpecFloat.iter_pos].
  - rewrite !IH, Pos2Nat.inj_xI.
    replace (S (2 * Pos.to_nat p)) with (Pos.to_nat p + (Pos.to_nat p + 1))%nat by lia.
    rewrite !Nat.iter_add. reflexivity.
  - rewrite !IH, Pos2Nat.inj_xO.
    replace (2 * Pos.to_nat p)%nat with (Pos.to_nat p + Pos.to_nat p)%nat by lia.
    rewrite Nat.iter_add. reflexivity.
  - reflexivity.
Qed.

Lemma shr_1_m (r : shr_record) : 0 <= shr_m r -> shr_m (shr_1 r) = shr_m r / 2.
Proof.
  destruct r as [m r s]. cbn [shr_m]. intros Hm.
  destruct m as [|[p|p|]|p]; cbn [shr_1 shr_m]; [reflexivity| | |reflexivity|lia].
  - apply Z.div_unique with 1; lia.
  - apply Z.div_unique with 0; lia.
Qed.

Lemma iter_shr_1_m (n : nat) (r : shr_record) :
  0 <= shr_m r ->
  shr_m (Nat.iter n shr_1 r) = shr_m r / 2 ^ Z.of_nat n.
Proof.
  intros Hr. induction n as [|n IH].
  - cbn. symmetry. apply Z.div_1_r.
  - rewrite Nat.iter_succ, shr_1_m.
    + rewrite IH, Nat2Z.inj_succ, Z.pow_succ_r by lia.
      rewrite Z.div_div by (try apply Z.pow_pos_nonneg; lia).
      f_equal. lia.
    + rewrite IH. apply Z.div_pos; [exact Hr|]. apply Z.pow_pos_nonneg; lia.
Qed.

(** [shr] by [n] places divides the mantissa by [2 ^ n] and adds [n] to the
    exponent. *)
Lemma shr_spec (r : shr_record) (e n : Z) :
  0 <= shr_m r ->
  shr_m (fst (shr r e n)) = shr_m r / 2 ^ Z.max 0 n /\
  snd (shr r e n) = e + Z.max 0 n.
Proof.
  intros Hr. unfold shr. destruct n as [|p|p]; cbn [fst snd].
  - cbn. rewrite Z.div_1_r. lia.
  - rewrite iter_pos_nat, iter_shr_1_m, positive_nat_Z by exact Hr.
    rewrite Z.max_r by lia. lia.
  - cbn. rewrite Z.div_1_r. lia.
Qed.

Lemma shr_record_of_loc_m (m : Z) (l : location) : shr_m (shr_record_of_loc m l) = m.
Proof. destruct l as [|[ | | ]]; reflexivity. Qed.

Lemma shr_fexp_spec (m e : Z) (l : location) :
  0 <= m ->
  let n := Z.max 0 (fexp Py.prec Py.emax (Zdigits2 m + e) - e) in
  shr_m (fst (shr_fexp Py.prec Py.emax m e l)) = m / 2 ^ n /\
  snd (shr_fexp Py.prec Py.emax m e l) = e + n.
Proof.
  intros Hm n. unfold shr_fexp.
  pose proof (shr_spec (shr_record_of_loc m l) e
                (fexp Py.prec Py.emax (Zdigits2 m + e) - e)) as Hs.
  rewrite shr_record_of_loc_m in Hs. apply Hs. exact Hm.
Qed.

Lemma round_nearest_even_cases (m : Z) (l : location) :
  round_nearest_even m l = m \/ round_nearest_even m l = m + 1.
Proof.
  unfold round_nearest_even. destruct l as [|[ | | ]]; auto.
  destruct (Z.even m); auto.
Qed.

(** ** Rounding *)

(** What rounding leaves in the mantissa and the exponent: [M] and [E'']
    from the mantissa [mx] at exponent [ex], with [E] the exponent that
    [mx] calls for. *)
Lemma round_shift_spec (mx ex : Z) (lx : location) :
  0 <= mx ->
  let E := fexp Py.prec Py.emax (Zdigits2 mx + ex) in
  ex <= E ->
  let '(mrs', e') := shr_fexp Py.prec Py.emax mx ex lx in
  let '(mrs'', e'') :=
    shr_fexp Py.prec Py.emax (round_nearest_even (shr_m mrs') (loc_of_shr_record mrs')) e'
      loc_Exact in
  (shr_m mrs'' = 0 /\ mx / 2 ^ (E - ex) = 0) \/
  (0 < shr_m mrs'' /\
   fexp Py.prec Py.emax (Zdigits2 (shr_m mrs'') + e'') = e'' /\ E <= e'' /\
   mx / 2 ^ (E - ex) <= shr_m mrs'' * 2 ^ (e'' - E) <= 2 ^ Py.prec).
Proof.
  intros Hm E HE. subst E. rewrite fexp_eq in HE |- *.
  remember (Zdigits2 mx) as d eqn:Ed.
  remember (Z.max (d + ex - 53) (-1074)) as E eqn:EE.
  pose proof (shr_fexp_spec mx ex lx Hm) as H1. cbn zeta in H1.
  rewrite fexp_eq, <- Ed, <- EE, Z.max_r in H1 by lia.
  destruct (shr_fexp Py.prec Py.emax mx ex lx) as [mrs' e']. cbn [fst snd] in H1.
  destruct H1 as (H1m & H1e). replace (ex + (E - ex)) with E in H1e by lia. subst e'.
  remember (mx / 2 ^ (E - ex)) as m' eqn:Em'.
  assert (Hp : 0 < 2 ^ (E - ex)) by (apply Z.pow_pos_nonneg; lia).
  assert (Hm' : 0 <= m') by (subst m'; apply Z.div_pos; lia).
  remember (round_nearest_even (shr_m mrs') (loc_of_shr_record mrs')) as mr eqn:Emr.
  assert (Hmr : mr = m' \/ mr = m' + 1).
  { subst mr. rewrite <- H1m. apply round_nearest_even_cases. }
  assert (Hmr0 : 0 <= mr) by lia.
  pose proof (shr_fexp_spec mr E loc_Exact Hmr0) as H2. cbn zeta in H2.
  destruct (shr_fexp Py.prec Py.emax mr E loc_Exact) as [mrs'' e'']. cbn [fst snd] in H2.
  destruct H2 as (H2m & H2e). rewrite fexp_eq in H2m, H2e. unfold Py.prec.
  destruct (Z.eq_dec m' 0) as [Hz|Hnz].
  - (* everything was shifted out *)
    assert (Hd : d <= E - ex).
    { destruct (Z_lt_le_dec (E - ex) d) as [Hlt|]; [|lia].
      exfalso. assert (0 < mx).
      { destruct (Z.eq_dec mx 0) as [->|]; [cbn in Ed; lia|lia]. }
      destruct (Zdigits2_div_pow2 mx (E - ex)) as (_ & Hq); [lia|lia|lia]. }
    clear Emr. destruct Hmr as [Hmr|Hmr]; rewrite Hz in Hmr;
      try change (0 + 1) with 1 in Hmr; subst mr.
    + left. cbn [Zdigits2] in H2m. rewrite H2m. split; [apply Z.div_0_l|exact Hz].
      apply Z.pow_nonzero; lia.
    + right. cbn [Zdigits2 digits2_pos] in H2m, H2e.
      rewrite Z.max_l in H2m, H2e by lia. rewrite Z.pow_0_r, Z.div_1_r in H2m.
      rewrite H2m, H2e. cbn [Zdigits2 digits2_pos]. rewrite !fexp_eq.
      replace (E + 0 - E) with 0 by lia. rewrite Z.pow_0_r. lia.
  - (* a mantissa of [k] digits is left *)
    assert (Hmx : 0 < mx).
    { destruct (Z.eq_dec mx 0) as [Hx|]; [|lia]. rewrite Hx, Z.div_0_l in Em'; lia. }
    assert (Hn : E - ex < d).
    { destruct (Z_lt_le_dec (E - ex) d) as [|Hge]; [assumption|].
      exfalso. apply Hnz. subst m'. apply div_pow2_small; [lia|lia]. }
    destruct (Zdigits2_div_pow2 mx (E - ex) Hmx) as (Hk & Hpos); [lia|].
    rewrite <- Em', <- Ed in Hk. rewrite <- Em' in Hpos.
    remember (Zdigits2 m') as k eqn:Ek.
    destruct (Zdigits2_bounds m' Hpos) as (Klo & Khi). rewrite <- Ek in Klo, Khi.
    assert (Hk53 : 2 ^ k <= 2 ^ 53) by (apply Z.pow_le_mono_r; lia).
    assert (Hcase : (Zdigits2 mr = k /\ m' <= mr < 2 ^ k) \/
                    (Zdigits2 mr = k + 1 /\ mr = 2 ^ k)).
    { destruct Hmr as [->| ->]; [left; lia|].
      destruct (Zdigits2_succ m' Hpos) as [He|(He & Hpow)]; rewrite <- Ek in *.
      - left. destruct (Zdigits2_bounds (m' + 1)) as (_ & Hlt); [lia|].
        rewrite He in Hlt. lia.
      - right. lia. }
    right. destruct Hcase as [(Hdig & Hb)|(Hdig & Hb)]; rewrite Hdig in H2m, H2e.
    + rewrite Z.max_l in H2m, H2e by lia. rewrite Z.pow_0_r, Z.div_1_r in H2m.
      rewrite H2m, H2e. rewrite Hdig, !fexp_eq.
      replace (E + 0 - E) with 0 by lia.
      rewrite Z.pow_0_r. lia.
    + destruct (Z.eq_dec k 53) as [Hk'|Hk'].
      * rewrite Z.max_r in H2m, H2e by lia.
        replace (Z.max (k + 1 + E - 53) (-1074) - E) with 1 in H2m, H2e by lia.
        rewrite Hb, Hk' in H2m.
        change (2 ^ 53 `div` 2 ^ 1) with 4503599627370496 in H2m. rewrite H2m, H2e.
        cbn [Zdigits2 digits2_pos Pos.succ]. rewrite !fexp_eq.
        replace (E + 1 - E) with 1 by lia.
        change (Z.pos (Pos.succ (digits2_pos 4503599627370496))) with 53.
        change (2 ^ 1) with 2. lia.
      * rewrite Z.max_l in H2m, H2e by lia. rewrite Z.pow_0_r, Z.div_1_r in H2m.
        rewrite H2m, H2e, Hdig, !fexp_eq.
        replace (E + 0 - E) with 0 by lia.
        rewrite Z.pow_0_r. lia.
Qed.

Lemma binary_round_aux_spec (s : bool) (mx ex : Z) (lx : location) :
  0 <= mx ->
  let E := fexp Py.prec Py.emax (Zdigits2 mx + ex) in
  ex <= E ->
  match binary_round_aux Py.prec Py.emax s mx ex lx with
  | S754_nan => False
  | S754_zero _ => mx / 2 ^ (E - ex) = 0
  | S754_infinity _ => True
  | S754_finite _ m e =>
      bounded Py.prec Py.emax m e = true /\ E <= e /\
      mx / 2 ^ (E - ex) <= Zpos m * 2 ^ (e - E) <= 2 ^ Py.prec
  end.
Proof.
  intros Hm E HE. pose proof (round_shift_spec mx ex lx Hm HE) as H.
  unfold binary_round_aux.
  destruct (shr_fexp Py.prec Py.emax mx ex lx) as [mrs' e'].
  destruct (shr_fexp Py.prec Py.emax _ e' loc_Exact) as [mrs'' e''].
  fold E in H. destruct H as [(H0 & Hq)|(Hpos & Hcan & HEe & Hb)].
  - rewrite H0. exact Hq.
  - destruct (shr_m mrs'') as [|m|m]; [lia| |lia].
    destruct (Z.leb_spec e'' (Py.emax - Py.prec)) as [Hle|Hgt]; [|exact I].
    split; [|split; assumption].
    unfold bounded, canonical_mantissa. apply andb_true_intro. split.
    + apply Z.eqb_eq. exact Hcan.
    + apply Z.leb_le. exact Hle.
Qed.





End PyFacts.

(** ** Evacuation: calls before the evacuation has started *)

Section EvacuationBeforeStart.

Context `{Clock}.

Import Evacuation.

Lemma init_state (exit_list : list EmergencyExit) (zone_list : list EvacuationZone) :
  state (init exit_list zone_list) = None.
Proof. reflexivity. Qed.

(** C10.  On a simulator on which [start_evacuation] has not been called,
    [get_evacuation_summary] returns the empty dictionary, whereas
    [simulate_step] raises [ValueError] and leaves the simulator as it
    was. *)
Theorem summary_before_start
    (exit_list : list EmergencyExit) (zone_list : list EvacuationZone) (dt_seconds : Z) :
  let s := init exit_list zone_list in
  get_evacuation_summary s = Ok [] /\
  simulate_step dt_seconds s = (s, Raise ValueError).
Proof. split; reflexivity. Qed.

(** A simulator that has no state object never completes
    [start_evacuation]: building the initial recommendations reads
    [self.state.zones]. *)
Lemma start_evacuation_needs_state (s : EvacuationSimulator) (t : datetime)
    (ph : EvacuationPhase) :
  state s = None ->
  exists e, start_evacuation s t ph = (s, Raise e).
Proof.
  intros Hs. unfold start_evacuation, _generate_initial_recommendations.
  rewrite Hs.
  destruct (if 0 <? _ then _ else _) as [n|e]; simpl; [|eauto].
  destruct (Py.num_mul_float _ _); simpl; eauto.
Qed.

End EvacuationBeforeStart.

(** C7.  A freshly built simulator holding 10,000 occupants and exits of
    2,000 persons per minute in total, started in the ALERT phase, raises
    [AttributeError] and stays without a state; the estimate of 450 seconds
    is only reached when a state object is already in place. *)
Theorem start_evacuation_fresh_raises :
  Evacuation.start_evacuation Scenario.stadium t0 Evacuation.ALERT
  = (Scenario.stadium, Raise AttributeError) /\
  option_map Evacuation.estimated_complete_time
    (Evacuation.state
       (fst (Evacuation.start_evacuation Scenario.stadium_with_state t0 Evacuation.ALERT)))
  = Some 450.
Proof. split; vm_compute; reflexivity. Qed.

(** C8.  A facility with zero service points makes [simulate_step] raise
    [ZeroDivisionError] (the wait-time quotient divides by
    [60 * capacity]), while [start_evacuation] without exit capacity takes
    the guarded branch and yields 9999 seconds times the safety factor. *)
Theorem zero_capacity_facility_raises :
  snd (Facilities.simulate_step (Facilities.init [Scenario.closed_restroom]) t0
         "entry" [("north-stand", 500)] 60 Scenario.one_draw 0)
  = Raise ZeroDivisionError /\
  option_map Evacuation.estimated_complete_time
    (Evacuation.state
       (fst (Evacuation.start_evacuation Scenario.sealed_with_state t0 Evacuation.ALERT)))
  = Some 14998.
Proof. split; vm_compute; reflexivity. Qed.

(** ** Crowd engine: conservation of attendees *)

(** Split a successful monadic computation into its successful steps. *)
Ltac inv_ok :=
  repeat match goal with
  | H : rbind _ _ = Ok _ |- _ =>
      let a := fresh "a" in
      let Ha := fresh "Ha" in
      apply rbind_ok in H; destruct H as (a & Ha & H)
  | H : of_option _ _ = Ok _ |- _ => apply of_option_ok in H
  | H : Ok _ = Ok _ |- _ => injection H as H; try subst
  | H : Raise _ = Ok _ |- _ => discriminate H
  | H : (if ?c then _ else _) = Ok _ |- _ => destruct c eqn:?
  end.

Section Conservation.

Context `{Clock}.

Lemma distribute_arrivals_attendees (gs : list Gate) (n c : Z) (st st' : CrowdState) :
  distribute_arrivals gs n c st = Ok st' -> attendees st' = attendees st.
Proof.
  revert st. induction gs as [|g gs IH]; intros st Hr; simpl in Hr.
  - congruence.
  - inv_ok. apply IH in Hr. rewrite Hr. unfold attendees; simpl. lia.
Qed.

Lemma _process_arrivals_attendees (eng : Engine) (venue : Venue) (st st' : CrowdState)
    (rate dt : Py.float) :
  snd (_process_arrivals eng venue st rate dt) = Ok st' -> attendees st' = attendees st.
Proof.
  unfold _process_arrivals.
  destruct (total_approaching st <=? 0); cbn; [congruence|].
  destruct (Py.float_div_int _ _) as [x|e]; cbn; [|discriminate].
  intros Hr. inv_ok; try reflexivity.
  destruct (List.filter _ _) eqn:Hf; [congruence|].
  eapply distribute_arrivals_attendees; eassumption.
Qed.


Lemma add_to_zones_totals (zs : list (option Zone)) (k : Z) (st st' : CrowdState) :
  add_to_zones zs k st = Ok st' ->
  total_approaching st' = total_approaching st /\
  total_queuing st' = total_queuing st /\
  total_inside st' = total_inside st /\
  total_exited st' = total_exited st /\
  gate_states st' = gate_states st.
Proof.
  revert st. induction zs as [|[z|] zs IH]; intros st Hr; simpl in Hr.
  - inv_ok. auto.
  - inv_ok. apply IH in Hr. simpl in Hr. exact Hr.
  - auto.
Qed.

Lemma gates_loop_totals (p : SimulationParams) (venue : Venue) (gs : list Gate)
    (dt : Py.float) (st st' : CrowdState) (te te' : Z) :
  gates_loop p venue gs dt st te = Ok (st', te') ->
  total_approaching st' = total_approaching st /\
  total_inside st' = total_inside st /\
  total_exited st' = total_exited st /\
  total_queuing st' + te' = total_queuing st + te.
Proof.
  revert st te. induction gs as [|g gs IH]; intros st te Hr; simpl in Hr.
  - injection Hr as <- <-. auto.
  - destruct (negb (is_open g)); [auto|].
    apply rbind_ok in Hr as (gst & _ & Hr).
    destruct (queue_length gst <=? 0); [auto|].
    apply rbind_ok in Hr as (actual0 & _ & Hr).
    apply rbind_ok in Hr as (reduction & _ & Hr).
    apply rbind_ok in Hr as (n & _ & Hr).
    apply rbind_ok in Hr as (rate & _ & Hr).
    apply rbind_ok in Hr as (wait & _ & Hr).
    apply rbind_ok in Hr as (st2 & Hst2 & Hr).
    apply IH in Hr. cbn in Hr.
    assert (Ht : total_approaching st2 = total_approaching st /\
                 total_queuing st2 = total_queuing st /\
                 total_inside st2 = total_inside st /\
                 total_exited st2 = total_exited st).
    { destruct (map _ _) eqn:Hm.
      - injection Hst2 as <-. cbn. auto.
      - destruct (0 <? n).
        + apply add_to_zones_totals in Hst2. cbn in Hst2. tauto.
        + injection Hst2 as <-. cbn. auto. }
    lia.
Qed.

Lemma _process_gates_attendees (p : SimulationParams) (venue : Venue)
    (st st' : CrowdState) (dt : Py.float) :
  _process_gates p venue st dt = Ok st' -> attendees st' = attendees st.
Proof.
  unfold _process_gates. intros Hr.
  apply rbind_ok in Hr as ([st1 te] & Hl & Hr).
  apply rbind_ok in Hr as (r & _ & Hr).
  injection Hr as <-.
  apply gates_loop_totals in Hl.
  unfold attendees; cbn. lia.
Qed.

Lemma flow_to_targets_totals (p : SimulationParams) (src : string) (red dt : Py.float)
    (k : Z) (ts : list Zone) (st st' : CrowdState) :
  flow_to_targets p src red dt k ts st = Ok st' -> attendees st' = attendees st.
Proof.
  revert st. induction ts as [|t ts IH]; intros st Hr; cbn in Hr.
  - congruence.
  - apply rbind_ok in Hr as (tst & _ & Hr).
    destruct (_ <=? 0); [auto|].
    apply rbind_ok in Hr as (zst & _ & Hr).
    apply rbind_ok in Hr as (base & _ & Hr).
    apply rbind_ok in Hr as (a1 & _ & Hr).
    apply rbind_ok in Hr as (a & _ & Hr).
    apply rbind_ok in Hr as (b & _ & Hr).
    apply rbind_ok in Hr as (flow & _ & Hr).
    destruct (0 <? flow); [|auto].
    apply rbind_ok in Hr as (tst' & _ & Hr).
    apply IH in Hr. exact Hr.
Qed.

Lemma zones_flow_loop_attendees (p : SimulationParams) (venue : Venue) (zs : list Zone)
    (dt : Py.float) (st st' : CrowdState) :
  zones_flow_loop p venue zs dt st = Ok st' -> attendees st' = attendees st.
Proof.
  revert st. induction zs as [|z zs IH]; intros st Hr; cbn in Hr.
  - congruence.
  - apply rbind_ok in Hr as (zst & _ & Hr).
    destruct (_ <=? 0); [auto|].
    apply rbind_ok in Hr as (st1 & H1 & Hr).
    apply flow_to_targets_totals in H1. apply IH in Hr. congruence.
Qed.

Lemma densities_loop_attendees (p : SimulationParams) (zs : list Zone)
    (st st' : CrowdState) :
  densities_loop p zs st = Ok st' -> attendees st' = attendees st.
Proof.
  revert st. induction zs as [|z zs IH]; intros st Hr; cbn in Hr.
  - congruence.
  - apply rbind_ok in Hr as (zst & _ & Hr).
    apply rbind_ok in Hr as (d & _ & Hr).
    apply IH in Hr. exact Hr.
Qed.

(** C1.  Whenever [simulate_timestep] returns a state, the attendees it
    accounts for (approaching, queuing, inside and exited together) are as
    many as in the state it was given. *)
Theorem simulate_timestep_conserves (eng : Engine) (venue : Venue) (st st' : CrowdState)
    (dt_seconds arrival_rate : Py.float) :
  snd (simulate_timestep eng venue st dt_seconds arrival_rate) = Ok st' ->
  attendees st' = attendees st.
Proof.
  unfold simulate_timestep.
  destruct (rbind (add_seconds _ _) _) as [st0|e] eqn:H0; [|discriminate].
  apply rbind_ok in H0 as (t & _ & H0).
  apply rbind_ok in H0 as (m & _ & H0).
  injection H0 as <-.
  destruct (_process_arrivals _ _ _ _ _) as [eng1 r1] eqn:Ha.
  cbn. intros Hr.
  apply rbind_ok in Hr as (st1 & -> & Hr).
  apply rbind_ok in Hr as (st2 & H2 & Hr).
  apply rbind_ok in Hr as (st3 & H3 & Hr).
  apply (f_equal snd) in Ha. cbn in Ha.
  apply _process_arrivals_attendees in Ha.
  apply _process_gates_attendees in H2.
  apply zones_flow_loop_attendees in H3.
  apply densities_loop_attendees in Hr.
  rewrite Hr, H3, H2, Ha. reflexivity.
Qed.

End Conservation.

Lemma simulate_timestep_conserves_witness :
  exists st',
    snd (simulate_timestep Arena.engine Arena.venue Arena.opening Arena.minute
           (Py.lit 300 1)) = Ok st' /\
    attendees st' = attendees Arena.opening.
Proof.
  eexists. split.
  - vm_compute. reflexivity.
  - apply (simulate_timestep_conserves Arena.engine Arena.venue Arena.opening _
             Arena.minute (Py.lit 300 1)).
    vm_compute. reflexivity.
Defined.

(** ** Crowd engine: what a step depends on *)

(** The jitter is the engine's own: the same engine called twice with the
    same venue, state, time step and arrival rate returns two different
    states when the draw is not held fixed, since the generator has moved on
    between the calls (one arrival in the first call, none in the second). *)
Lemma simulate_timestep_not_repeatable :
  snd (simulate_timestep Arena.engine Arena.venue Arena.opening Arena.minute
         Replay.trickle)
  <> snd (simulate_timestep Replay.engine_after_one_call Arena.venue Arena.opening
            Arena.minute Replay.trickle).
Proof.
  intros Heq.
  apply (f_equal (fun r => match r with
                           | Ok s => Some (total_approaching s)
                           | Raise _ => None
                           end)) in Heq.
  vm_compute in Heq. discriminate Heq.
Qed.

Section Determinism.

Context `{Clock}.

Lemma _process_arrivals_draw (eng1 eng2 : Engine) (venue : Venue) (st : CrowdState)
    (rate dt : Py.float) :
  rng_draws eng1 (rng_pos eng1) = rng_draws eng2 (rng_pos eng2) ->
  snd (_process_arrivals eng1 venue st rate dt)
  = snd (_process_arrivals eng2 venue st rate dt).
Proof.
  intros Hd. unfold _process_arrivals.
  destruct (total_approaching st <=? 0); [reflexivity|].
  destruct (Py.float_div_int _ _); [|reflexivity].
  unfold rng_random. cbn. rewrite Hd. reflexivity.
Qed.

Lemma _process_arrivals_idle (eng : Engine) (venue : Venue) (st : CrowdState)
    (rate dt : Py.float) :
  total_approaching st <= 0 ->
  _process_arrivals eng venue st rate dt = (eng, Ok st).
Proof.
  intros Hle. unfold _process_arrivals.
  destruct (total_approaching st <=? 0) eqn:E; [reflexivity|].
  apply Z.leb_gt in E. lia.
Qed.

(** C4.  With the jitter held fixed, the state a step returns is determined
    by the arguments and the engine's parameters: two engines that agree on
    the parameters return the same result when their next draws are equal,
    whatever the positions of their generators, and also when nobody is
    approaching, for then no draw is made. *)
Theorem simulate_timestep_determined_by_draw (eng1 eng2 : Engine) (venue : Venue)
    (st : CrowdState) (dt_seconds arrival_rate : Py.float) :
  params eng1 = params eng2 ->
  rng_draws eng1 (rng_pos eng1) = rng_draws eng2 (rng_pos eng2)
  \/ total_approaching st <= 0 ->
  snd (simulate_timestep eng1 venue st dt_seconds arrival_rate)
  = snd (simulate_timestep eng2 venue st dt_seconds arrival_rate).
Proof.
  intros Hp Hc. unfold simulate_timestep.
  destruct (rbind (add_seconds _ _) _) as [st0|e] eqn:H0; [|reflexivity].
  assert (Ht : total_approaching st0 = total_approaching st).
  { apply rbind_ok in H0 as (t & _ & H0).
    apply rbind_ok in H0 as (m & _ & H0).
    injection H0 as <-. reflexivity. }
  destruct Hc as [Hd|Hle].
  - pose proof (_process_arrivals_draw eng1 eng2 venue st0 arrival_rate dt_seconds Hd)
      as Ha.
    destruct (_process_arrivals eng1 _ _ _ _) as [e1 r1].
    destruct (_process_arrivals eng2 _ _ _ _) as [e2 r2].
    cbn in *. subst r2. rewrite Hp. reflexivity.
  - rewrite <- Ht in Hle.
    rewrite !_process_arrivals_idle by exact Hle.
    cbn. rewrite Hp. reflexivity.
Qed.

(** The generator only moves when somebody is approaching. *)
Lemma simulate_timestep_idle_engine (eng : Engine) (venue : Venue) (st : CrowdState)
    (dt_seconds arrival_rate : Py.float) :
  total_approaching st <= 0 ->
  fst (simulate_timestep eng venue st dt_seconds arrival_rate) = eng.
Proof.
  intros Hle. unfold simulate_timestep.
  destruct (rbind (add_seconds _ _) _) as [st0|e] eqn:H0; [|reflexivity].
  assert (Ht : total_approaching st0 = total_approaching st).
  { apply rbind_ok in H0 as (t & _ & H0).
    apply rbind_ok in H0 as (m & _ & H0).
    injection H0 as <-. reflexivity. }
  rewrite <- Ht in Hle.
  rewrite _process_arrivals_idle by exact Hle. reflexivity.
Qed.

End Determinism.

Lemma simulate_timestep_determined_by_draw_witness :
  params Arena.engine = params Replay.other_engine /\
  rng_draws Arena.engine (rng_pos Arena.engine)
  = rng_draws Replay.other_engine (rng_pos Replay.other_engine) /\
  snd (simulate_timestep Arena.engine Arena.venue Arena.opening Arena.minute
         Replay.trickle)
  = snd (simulate_timestep Replay.other_engine Arena.venue Arena.opening Arena.minute
           Replay.trickle).
Proof.
  assert (Hp : params Arena.engine = params Replay.other_engine) by reflexivity.
  assert (Hd : rng_draws Arena.engine (rng_pos Arena.engine)
               = rng_draws Replay.other_engine (rng_pos Replay.other_engine))
    by reflexivity.
  split; [exact Hp|]. split; [exact Hd|].
  exact (simulate_timestep_determined_by_draw Arena.engine Replay.other_engine
           Arena.venue Arena.opening Arena.minute Replay.trickle Hp (or_introl Hd)).
Defined.

(** ** Crowd engine: diffusion between zones *)

(** C5.  With 100 people in a concourse that opens onto two empty wings, one
    step of a minute moves 10 people to the first wing and then 9 to the
    second: 19 leave the concourse, more than a tenth of the 100 it held
    when the step began.  The cap of a tenth is applied to each transfer,
    against the occupancy left by the transfers before it. *)
Theorem diffusion_moves_more_than_a_tenth :
  occupancies
    (snd (simulate_timestep Arena.engine Plaza.venue Plaza.crowd Arena.minute Py.f0))
    ["concourse"; "east"; "west"]
  = Some [81; 10; 9].
Proof. vm_compute. reflexivity. Qed.

(** ** The arrival curve of the festival pattern *)


Section WaveCurve.

Variable truncnorm_pdf :
  Py.float -> Py.float -> Py.float -> Py.float -> Py.float -> Py.float.


End WaveCurve.

(** Split a conjunction into its parts, leaving quantifiers alone. *)
Ltac conj_split := repeat match goal with |- _ /\ _ => split end.

(** ** Evacuation: what a step does to the counters *)

Section EvacuationCounters.

Context `{Clock}.

Import Evacuation.

Lemma dict_get_Forall {V : Type} (P : V -> Prop) (k : string) (d : dict V) (v : V) :
  dict_get k d = Some v -> Forall P (dict_values d) -> P v.
Proof.
  induction d as [|[k' v'] d IH]; cbn; [discriminate|].
  intros Hg Hf. apply Forall_cons_iff in Hf as (Hv & Hf).
  destruct (String.eqb k' k); [congruence | auto].
Qed.

Lemma dict_set_Forall {V : Type} (P : V -> Prop) (k : string) (v : V) (d : dict V) :
  P v -> Forall P (dict_values d) -> Forall P (dict_values (dict_set k v d)).
Proof.
  intros Hv. induction d as [|[k' v'] d IH]; cbn.
  - intros _. repeat constructor. exact Hv.
  - intros Hf. apply Forall_cons_iff in Hf as (Hv' & Hf).
    destruct (String.eqb k' k); cbn; constructor; auto.
Qed.

Lemma bind_inv {A B : Type} (m : M A) (k : A -> M B) (s s' : EvacuationSimulator)
    (r : result B) :
  bind m k s = (s', r) ->
  (exists s1 a, m s = (s1, Ok a) /\ k a s1 = (s', r)) \/
  (exists e, m s = (s', Raise e) /\ r = Raise e).
Proof.
  unfold bind. destruct (m s) as [s1 [a|e]]; intros Hb.
  - left. eauto.
  - right. injection Hb as <- <-. eauto.
Qed.

(** The number of people a zone sends through an exit never exceeds those
    still in the zone, and is not negative when the time step and the
    exit's rated flow are not. *)
Lemma evacuated_via_bounds (ex : EmergencyExit) (zone : EvacuationZone)
    (velocity dt_minutes : Py.float) (ze n : Z) :
  evacuated_via ex zone velocity dt_minutes ze = Ok n ->
  n <= current_occupancy zone - ze /\
  (Py.nonneg dt_minutes -> 0 <= max_flow_rate ex -> ze <= current_occupancy zone ->
   0 <= n).
Proof.
  unfold evacuated_via. intros Hr.
  apply rbind_ok in Hr as (fd & _ & Hr).
  apply rbind_ok in Hr as (travel_time & _ & Hr).
  apply rbind_ok in Hr as (density & _ & Hr).
  apply rbind_ok in Hr as (q & _ & Hr).
  apply rbind_ok in Hr as (r & Hm & Hr).
  apply rbind_ok in Hr as (k & Hk & Hr).
  injection Hr as <-. split; [lia|].
  intros Hdt Hflow Hze.
  assert (0 <= k); [|lia].
  apply (PyFacts.to_int_nonneg (Py.fmul r dt_minutes)); [|exact Hk].
  apply PyFacts.fmul_nonneg; [|exact Hdt].
  unfold Py.int_mul_float in Hm.
  apply rbind_ok in Hm as (fz & Hfz & Hm). injection Hm as <-.
  apply PyFacts.fmul_nonneg.
  - eapply PyFacts.of_int_nonneg; eassumption.
  - apply PyFacts.fmax2_nonneg. exact I.
Qed.

Lemma exits_loop_spec (zone : EvacuationZone) (velocity dt_minutes : Py.float)
    (ids : list string) (ze : Z) (s s' : EvacuationSimulator) (r : result Z) :
  exits_loop zone velocity dt_minutes ids ze s = (s', r) ->
  heap s' = heap s /\ state s' = state s /\ sim_zones s' = sim_zones s /\
  history s' = history s /\
  (flows_nonneg s -> flows_nonneg s') /\
  (forall ze', r = Ok ze' -> ze <= current_occupancy zone ->
     ze' <= current_occupancy zone /\
     (Py.nonneg dt_minutes -> flows_nonneg s -> ze <= ze')).
Proof.
  revert ze s. induction ids as [|eid rest IH]; intros ze s Hr; cbn in Hr.
  - injection Hr as <- <-. repeat split; auto.
    + injection H0 as <-. exact H1.
    + injection H0 as <-. lia.
  - destruct (dict_get eid (exits s)) as [ex|] eqn:Hg; [|eauto].
    destruct (negb (is_accessible ex)); [eauto|].
    unfold bind, lift, modify in Hr.
    destruct (evacuated_via ex zone velocity dt_minutes ze) as [n|e] eqn:Hn.
    2:{ injection Hr as <- <-. repeat split; auto; discriminate. }
    destruct (rbind (Py.int_div_float n dt_minutes) _) as [rate|e] eqn:Hrate.
    2:{ injection Hr as <- <-. repeat split; auto; discriminate. }
    apply IH in Hr. cbn in Hr.
    destruct Hr as (Hh & Hst & Hz & Hhist & Hflows & Hze).
    apply evacuated_via_bounds in Hn as (Hle & Hge).
    assert (Hset : flows_nonneg s ->
                   flows_nonneg (set_exits s (dict_set eid (set_flow_rate ex rate) (exits s)))).
    { unfold flows_nonneg. cbn. intros Hf. apply dict_set_Forall; [|exact Hf].
      cbn. eapply (dict_get_Forall (fun e => 0 <= max_flow_rate e)); eassumption. }
    repeat split; auto.
    + specialize (Hze ze' H0). lia.
    + intros Hdt Hf. specialize (Hze ze' H0).
      assert (0 <= max_flow_rate ex)
        by (eapply (dict_get_Forall (fun e => 0 <= max_flow_rate e)); eassumption).
      specialize (Hge Hdt H2 H1).
      destruct Hze as (_ & Hze); [lia|]. specialize (Hze Hdt (Hset Hf)). lia.
Qed.

Lemma add_evacuated_0 (st : EvacuationState datetime nat) : add_evacuated st 0 = st.
Proof. destruct st. unfold add_evacuated. cbn. f_equal. lia. Qed.

Lemma process_zone_spec (dt_minutes : Py.float) (a : nat)
    (s s' : EvacuationSimulator) (r : result unit) :
  process_zone dt_minutes a s = (s', r) ->
  sim_zones s' = sim_zones s /\ history s' = history s /\
  (flows_nonneg s -> flows_nonneg s') /\
  ((heap s' = heap s /\ state s' = state s) \/
   exists z z' n st,
     heap s !! a = Some z /\ state s = Some st /\
     heap s' = <[a := z']> (heap s) /\ state s' = Some (add_evacuated st n) /\
     zone_moved z z' n /\ n <= current_occupancy z /\
     (Py.nonneg dt_minutes -> flows_nonneg s -> 0 <= n)).
Proof.
  unfold process_zone.
  destruct (heap s !! a) as [zone|] eqn:Hz.
  2:{ intros [= <- <-]. repeat split; auto. }
  destruct (state s) as [st|] eqn:Hst.
  2:{ intros [= <- <-]. repeat split; auto. }
  destruct (current_occupancy zone <=? 0) eqn:Hocc.
  { intros [= <- <-]. repeat split; auto. }
  apply Z.leb_gt in Hocc. intros Hr.
  apply bind_inv in Hr as [(s1 & u & H1 & Hr) | (e & H1 & _)]; [|discriminate H1].
  injection H1 as <- _.
  apply bind_inv in Hr as [(s2 & ze & Hl & Hr) | (e & Hl & _)].
  2:{ apply exits_loop_spec in Hl as (Hh & Hs & Hsz & Hhi & Hf & _).
      cbn in Hh, Hs, Hsz, Hhi, Hf.
      repeat split; auto.
      right. exists zone, (set_started zone), 0, st.
      rewrite add_evacuated_0. repeat split; cbn; auto; try congruence; lia. }
  apply exits_loop_spec in Hl as (Hh & Hs & Hsz & Hhi & Hf & Hze).
  cbn in Hh, Hs, Hsz, Hhi, Hf, Hze.
  destruct (Hze ze eq_refl) as (Hle & Hge); [lia|]. clear Hze.
  apply bind_inv in Hr as [(s3 & u3 & H3 & Hr) | (e & H3 & _)]; [|discriminate H3].
  injection H3 as <- _.
  set (z2 := evacuate (set_started zone) ze) in *.
  set (s3 := bump_total ze (set_heap s2 (<[a:=z2]> (heap s2)))) in *.
  assert (Hmoved : forall t,
            zone_moved zone z2 ze /\ zone_moved zone (set_time_remaining z2 t) ze).
  { intros t. unfold zone_moved. cbn. repeat split; lia. }
  assert (Hs3 : state s3 = Some (add_evacuated st ze) /\
                heap s3 = <[a:=z2]> (heap s) /\
                sim_zones s3 = sim_zones s /\ history s3 = history s /\
                exits s3 = exits s2).
  { subst s3. unfold bump_total. cbn. rewrite Hs, Hst. cbn. rewrite Hh.
    repeat split; auto. apply list_insert_insert_eq. }
  destruct Hs3 as (Hst3 & Hheap3 & Hz3 & Hh3 & He3).
  assert (Hf3 : flows_nonneg s -> flows_nonneg s3).
  { intros Hfs. unfold flows_nonneg. rewrite He3. apply Hf. exact Hfs. }
  assert (Hn : Py.nonneg dt_minutes -> flows_nonneg s -> 0 <= ze).
  { intros Hd Hfs. apply Hge; auto. }
  assert (Hdone : sim_zones s3 = sim_zones s /\ history s3 = history s /\
    (flows_nonneg s -> flows_nonneg s3) /\
    ((heap s3 = heap s /\ state s3 = Some st) \/
     exists z z' n st0,
       Some zone = Some z /\ Some st = Some st0 /\
       heap s3 = <[a := z']> (heap s) /\ state s3 = Some (add_evacuated st0 n) /\
       zone_moved z z' n /\ n <= current_occupancy z /\
       (Py.nonneg dt_minutes -> flows_nonneg s -> 0 <= n))).
  { repeat split; auto. right. exists zone, z2, ze, st.
    repeat split; auto; apply (Hmoved 0). }
  destruct (0 <? _); [|injection Hr as <- <-; exact Hdone].
  destruct (0 <? remaining_exits_capacity _ _); [|injection Hr as <- <-; exact Hdone].
  apply bind_inv in Hr as [(s4 & t & H4 & Hr) | (e & H4 & _)].
  2:{ injection H4 as <- _. exact Hdone. }
  injection H4 as <- _. injection Hr as <- <-.
  cbn. repeat split; auto. right.
  exists zone, (set_time_remaining z2 t), ze, st.
  repeat split; auto; try apply (Hmoved t).
  rewrite Hheap3. apply list_insert_insert_eq.
Qed.

Lemma heap_step_refl (G : Prop) (h : list EvacuationZone) : heap_step G h h.
Proof. split; [reflexivity|]. intros a z Hz. exists z. repeat split; auto; lia. Qed.

Lemma heap_step_trans (G : Prop) (h1 h2 h3 : list EvacuationZone) :
  heap_step G h1 h2 -> heap_step G h2 h3 -> heap_step G h1 h3.
Proof.
  intros (Hl12 & H12) (Hl23 & H23). split; [congruence|]. intros a z Hz.
  destruct (H12 a z Hz) as (z2 & Hz2 & Hi2 & Ha2 & He2 & Hc2 & Hn2 & Hg2).
  destruct (H23 a z2 Hz2) as (z3 & Hz3 & Hi3 & Ha3 & He3 & Hc3 & Hn3 & Hg3).
  exists z3. repeat split; try congruence; auto.
  intros HG. specialize (Hg2 HG). specialize (Hg3 HG). lia.
Qed.

Lemma heap_step_insert (G : Prop) (h : list EvacuationZone) (a : nat)
    (z z' : EvacuationZone) (n : Z) :
  h !! a = Some z -> zone_moved z z' n -> n <= current_occupancy z -> (G -> 0 <= n) ->
  heap_step G h (<[a := z']> h).
Proof.
  intros Hz (Hi & Ha & He & Ho & Hc) Hn Hg. split; [apply length_insert|].
  intros b y Hy. destruct (decide (a = b)) as [<-|Hne].
  - rewrite Hz in Hy. injection Hy as <-. exists z'.
    rewrite list_lookup_insert_eq by (eapply lookup_lt_Some; eassumption).
    repeat split; auto; try lia. intros HG. specialize (Hg HG). lia.
  - exists y. rewrite list_lookup_insert_ne by exact Hne.
    repeat split; auto; lia.
Qed.

Lemma counts_insert_notin (h : list EvacuationZone) (a : nat) (z' : EvacuationZone)
    (L : list nat) :
  a ∉ L -> counts (<[a := z']> h) L = counts h L.
Proof.
  unfold counts. induction L as [|b L IH]; intros Hn; [reflexivity|].
  apply not_elem_of_cons in Hn as (Hne & Hn). cbn.
  rewrite list_lookup_insert_ne by exact Hne.
  destruct (h !! b) as [y|]; cbn; rewrite IH by exact Hn; reflexivity.
Qed.

Lemma counts_insert (h : list EvacuationZone) (a : nat) (z z' : EvacuationZone)
    (L : list nat) :
  NoDup L -> a ∈ L -> h !! a = Some z ->
  counts (<[a := z']> h) L = counts h L + evacuated_count z' - evacuated_count z.
Proof.
  intros Hnd Hin Hz. induction Hnd as [|b L Hb Hnd IH].
  - apply elem_of_nil in Hin. contradiction.
  - destruct (decide (a = b)) as [<-|Hne].
    + pose proof (counts_insert_notin h a z' L Hb) as Hc.
      unfold counts in *. cbn.
      rewrite list_lookup_insert_eq by (eapply lookup_lt_Some; eassumption).
      rewrite Hz. cbn. rewrite Hc. lia.
    + apply elem_of_cons in Hin as [Heq|Hin]; [contradiction|].
      specialize (IH Hin). unfold counts in *. cbn.
      rewrite list_lookup_insert_ne by exact Hne.
      destruct (h !! b) as [y|]; cbn; rewrite IH; lia.
Qed.

Lemma add_evacuated_add (st : EvacuationState datetime nat) (n m : Z) :
  add_evacuated (add_evacuated st n) m = add_evacuated st (n + m).
Proof. unfold add_evacuated. cbn. f_equal. lia. Qed.

(** The loop over the zones: the zone objects change as [heap_step] allows,
    and the evacuated total grows by as much as the zone counters do. *)
Lemma zones_loop_spec (G : Prop) (dt_minutes : Py.float) (l : dict nat)
    (s s' : EvacuationSimulator) (r : result unit) :
  zones_loop dt_minutes l s = (s', r) ->
  (G -> Py.nonneg dt_minutes /\ flows_nonneg s) ->
  sim_zones s' = sim_zones s /\ history s' = history s /\
  (flows_nonneg s -> flows_nonneg s') /\
  heap_step G (heap s) (heap s') /\
  exists n,
    state s' = option_map (fun st => add_evacuated st n) (state s) /\
    (G -> 0 <= n) /\
    (forall L, NoDup L -> Forall (fun a => a ∈ L) (dict_values l) ->
               counts (heap s') L = counts (heap s) L + n).
Proof.
  revert s. induction l as [|[zid a] l IH]; intros s Hr HG; cbn in Hr.
  - injection Hr as <- <-. conj_split; auto using heap_step_refl.
    exists 0. repeat split; [|lia|intros; lia].
    destruct (state s) as [st|]; cbn; [rewrite add_evacuated_0|]; reflexivity.
  - apply bind_inv in Hr as [(s1 & u & H1 & Hr) | (e & H1 & _)].
    + apply process_zone_spec in H1 as (Hz1 & Hh1 & Hf1 & Hc1).
      apply IH in Hr as (Hz2 & Hh2 & Hf2 & Hs2 & n2 & Hst2 & Hn2 & Hb2).
      2:{ intros g. destruct (HG g). auto. }
      destruct Hc1 as [(Hheap & Hstate) | (z & z' & n & st & Hz & Hst & Hheap & Hstate & Hm & Hle & Hge)].
      * rewrite Hheap, Hstate in *. conj_split; try congruence; auto.
        exists n2. repeat split; auto.
        intros L Hnd Hin. apply Forall_cons_iff in Hin as (_ & Hin). auto.
      * conj_split; try congruence; auto.
        -- eapply heap_step_trans; [|exact Hs2]. rewrite Hheap.
           eapply heap_step_insert; eauto. intros g. destruct (HG g). auto.
        -- exists (n + n2). rewrite Hst2, Hstate, Hst. cbn.
           rewrite add_evacuated_add. repeat split; auto.
           ++ intros g. destruct (HG g). specialize (Hge H0 H1). specialize (Hn2 g). lia.
           ++ intros L Hnd Hin. apply Forall_cons_iff in Hin as (Ha & Hin).
              rewrite (Hb2 L Hnd Hin), Hheap.
              rewrite (counts_insert _ _ z z' L Hnd Ha Hz).
              destruct Hm as (_ & _ & _ & _ & Hc). lia.
    + apply process_zone_spec in H1 as (Hz1 & Hh1 & Hf1 & Hc1).
      destruct Hc1 as [(Hheap & Hstate) | (z & z' & n & st & Hz & Hst & Hheap & Hstate & Hm & Hle & Hge)].
      * rewrite Hheap, Hstate. conj_split; auto using heap_step_refl.
        exists 0. repeat split; [|lia|intros; lia].
        destruct (state s) as [st|]; cbn; [rewrite add_evacuated_0|]; reflexivity.
      * conj_split; auto.
        -- rewrite Hheap. eapply heap_step_insert; eauto.
           intros g. destruct (HG g). auto.
        -- exists n. rewrite Hstate, Hst. cbn. repeat split; auto.
           ++ intros g. destruct (HG g). auto.
           ++ intros L Hnd Hin. apply Forall_cons_iff in Hin as (Ha & Hin).
              rewrite Hheap, (counts_insert _ _ z z' L Hnd Ha Hz).
              destruct Hm as (_ & _ & _ & _ & Hc). lia.
Qed.

Lemma update_state_spec {A : Type}
    (g : EvacuationSimulator -> EvacuationState datetime nat -> result A)
    (f : EvacuationState datetime nat -> A -> EvacuationState datetime nat)
    (s s' : EvacuationSimulator) (r : result unit) :
  (forall st a, ledger (f st a) = ledger st /\ phase (f st a) = phase st) ->
  update_state g f s = (s', r) ->
  heap s' = heap s /\ exits s' = exits s /\ sim_zones s' = sim_zones s /\
  history s' = history s /\
  match state s with
  | None => state s' = None
  | Some st => exists st', state s' = Some st' /\ ledger st' = ledger st /\
                           phase st' = phase st
  end.
Proof.
  intros Hf. unfold update_state.
  destruct (state s) as [st|] eqn:Hst.
  - destruct (g s st) as [a|e]; intros [= <- <-]; cbn; repeat split; eauto.
  - intros [= <- <-]. auto.
Qed.

Lemma _update_phase_spec (s s' : EvacuationSimulator) (r : result unit) :
  _update_phase s = (s', r) ->
  heap s' = heap s /\ exits s' = exits s /\ sim_zones s' = sim_zones s /\
  history s' = history s /\
  match state s with
  | None => state s' = None
  | Some st =>
      exists st', state s' = Some st' /\ ledger st' = ledger st /\
        match r with
        | Ok _ =>
            exists ds, occupied_densities (deref (heap s) (zones st)) = Ok ds /\
                       phase st' = next_phase (phase st) (max_default ds)
        | Raise _ => phase st' = phase st
        end
  end.
Proof.
  unfold _update_phase. destruct (state s) as [st|] eqn:Hst.
  - destruct (occupied_densities _) as [ds|e] eqn:Hd; intros [= <- <-]; cbn;
      repeat split; eauto.
    eexists. repeat split. eauto.
  - intros [= <- <-]. auto.
Qed.

(** The bookkeeping after the zone loop leaves the zone objects, the exits
    and the counters alone, and moves the phase by [next_phase]. *)
Lemma finish_step_spec (s s' : EvacuationSimulator) (r : result unit) :
  finish_step s = (s', r) ->
  heap s' = heap s /\ exits s' = exits s /\ sim_zones s' = sim_zones s /\
  match state s with
  | None => state s' = None
  | Some st =>
      exists st', state s' = Some st' /\ ledger st' = ledger st /\
        (r = Ok tt ->
         exists ds, occupied_densities (deref (heap s) (zones st)) = Ok ds /\
                    phase st' = next_phase (phase st) (max_default ds))
  end.
Proof.
  unfold finish_step. intros Hr.
  apply bind_inv in Hr as [(s1 & u1 & H1 & Hr) | (e & H1 & ->)];
    apply update_state_spec in H1 as (Hh1 & He1 & Hz1 & Hi1 & Hs1);
    try (intros; split; reflexivity).
  2:{ conj_split; auto. destruct (state s) as [st|]; [|exact Hs1].
      destruct Hs1 as (st' & Hs' & Hl & _). exists st'. conj_split; auto.
      try discriminate. }
  apply bind_inv in Hr as [(s2 & u2 & H2 & Hr) | (e & H2 & ->)];
    apply _update_phase_spec in H2 as (Hh2 & He2 & Hz2 & Hi2 & Hs2).
  2:{ conj_split; try congruence. destruct (state s) as [st|].
      - destruct Hs1 as (st1 & Hs1 & Hl1 & Hp1). rewrite Hs1 in Hs2.
        destruct Hs2 as (st2 & Hs2 & Hl2 & _). exists st2.
        conj_split; try congruence; try discriminate.
      - rewrite Hs1 in Hs2. exact Hs2. }
  assert (Hmid : match state s with
                 | None => state s2 = None
                 | Some st =>
                     exists st2, state s2 = Some st2 /\ ledger st2 = ledger st /\
                       exists ds, occupied_densities (deref (heap s) (zones st)) = Ok ds /\
                                  phase st2 = next_phase (phase st) (max_default ds)
                 end).
  { destruct (state s) as [st|].
    - destruct Hs1 as (st1 & Hs1 & Hl1 & Hp1). rewrite Hs1 in Hs2.
      destruct Hs2 as (st2 & Hs2 & Hl2 & ds & Hd & Hp2). exists st2.
      conj_split; try congruence. exists ds. rewrite Hh1 in Hd.
      assert (zones st1 = zones st) by (unfold ledger in Hl1; congruence).
      split; congruence.
    - rewrite Hs1 in Hs2. exact Hs2. }
  clear Hs1 Hs2.
  apply bind_inv in Hr as [(s3 & u3 & H3 & Hr) | (e & H3 & ->)];
    apply update_state_spec in H3 as (Hh3 & He3 & Hz3 & Hi3 & Hs3);
    try (intros; split; reflexivity).
  2:{ conj_split; try congruence. destruct (state s) as [st|].
      - destruct Hmid as (st2 & Hs2 & Hl2 & _). rewrite Hs2 in Hs3.
        destruct Hs3 as (st3 & Hs3 & Hl3 & _). exists st3.
        conj_split; try congruence; try discriminate.
      - rewrite Hmid in Hs3. exact Hs3. }
  assert (Hmid3 : match state s with
                  | None => state s3 = None
                  | Some st =>
                      exists st3, state s3 = Some st3 /\ ledger st3 = ledger st /\
                        exists ds, occupied_densities (deref (heap s) (zones st)) = Ok ds /\
                                   phase st3 = next_phase (phase st) (max_default ds)
                  end).
  { destruct (state s) as [st|].
    - destruct Hmid as (st2 & Hs2 & Hl2 & ds & Hd & Hp2). rewrite Hs2 in Hs3.
      destruct Hs3 as (st3 & Hs3 & Hl3 & Hp3). exists st3.
      conj_split; try congruence. exists ds. split; congruence.
    - rewrite Hmid in Hs3. exact Hs3. }
  clear Hmid Hs3.
  apply bind_inv in Hr as [(s4 & u4 & H4 & Hr) | (e & H4 & ->)];
    apply update_state_spec in H4 as (Hh4 & He4 & Hz4 & Hi4 & Hs4);
    try (intros; split; reflexivity).
  2:{ conj_split; try congruence. destruct (state s) as [st|].
      - destruct Hmid3 as (st3 & Hs3 & Hl3 & _). rewrite Hs3 in Hs4.
        destruct Hs4 as (st4 & Hs4 & Hl4 & _). exists st4.
        conj_split; try congruence; try discriminate.
      - rewrite Hmid3 in Hs4. exact Hs4. }
  injection Hr as <- <-.
  destruct (state s) as [st|].
  - destruct Hmid3 as (st3 & Hs3 & Hl3 & ds & Hd & Hp3). rewrite Hs3 in Hs4.
    destruct Hs4 as (st4 & Hs4 & Hl4 & Hp4). rewrite Hs4. cbn.
    conj_split; try congruence. exists st4.
    conj_split; try congruence. intros _. exists ds. split; congruence.
  - rewrite Hmid3 in Hs4. rewrite Hs4. conj_split; congruence.
Qed.

(** One call of [simulate_step], returning or raising. *)
Lemma simulate_step_spec (G : Prop) (dt : Z) (s s' : EvacuationSimulator)
    (r : result unit) :
  simulate_step dt s = (s', r) ->
  (G -> 0 <= dt /\ flows_nonneg s) ->
  sim_zones s' = sim_zones s /\
  (flows_nonneg s -> flows_nonneg s') /\
  heap_step G (heap s) (heap s') /\
  match state s with
  | None => state s' = None
  | Some st =>
      exists st' n,
        state s' = Some st' /\ zones st' = zones st /\
        total_to_evacuate st' = total_to_evacuate st /\
        total_evacuated st' = total_evacuated st + n /\
        (G -> 0 <= n) /\
        (forall L, NoDup L -> Forall (fun a => a ∈ L) (dict_values (zones st)) ->
                   counts (heap s') L = counts (heap s) L + n) /\
        (r = Ok tt ->
         exists ds, occupied_densities (deref (heap s') (zones st)) = Ok ds /\
                    phase st' = next_phase (phase st) (max_default ds))
  end.
Proof.
  unfold simulate_step. destruct (state s) as [st|] eqn:Hst.
  2:{ intros [= <- <-] _. rewrite Hst. conj_split; auto using heap_step_refl. }
  intros Hr HG.
  apply bind_inv in Hr as [(s0 & u0 & H0 & Hr) | (e & H0 & _)]; [|discriminate H0].
  injection H0 as <- _.
  apply bind_inv in Hr as [(s1 & dtm & H1 & Hr) | (e & H1 & ->)].
  2:{ injection H1 as <-. cbn. conj_split; auto using heap_step_refl.
      exists (add_elapsed st dt), 0. cbn. conj_split; auto; try lia; discriminate. }
  unfold lift in H1. injection H1 as <- Hdtm.
  assert (HG1 : G -> Py.nonneg dtm /\ flows_nonneg (set_state s (add_elapsed st dt))).
  { intros g. destruct (HG g) as (Hdt & Hf). split; [|exact Hf].
    eapply PyFacts.int_truediv_nonneg; [exact Hdt| |exact Hdtm]. lia. }
  apply bind_inv in Hr as [(s2 & u2 & H2 & Hr) | (e & H2 & ->)];
    apply (zones_loop_spec G) in H2 as (Hz2 & Hh2 & Hf2 & Hs2 & n & Hst2 & Hn & Hc);
    try exact HG1; cbn in Hz2, Hh2, Hf2, Hs2, Hst2, Hc.
  2:{ conj_split; auto. exists (add_evacuated (add_elapsed st dt) n), n.
      cbn. conj_split; auto. discriminate. }
  apply finish_step_spec in Hr as (Hh3 & He3 & Hz3 & Hs3).
  rewrite Hst2 in Hs3. destruct Hs3 as (st' & Hs' & Hl & Hp).
  unfold ledger in Hl. cbn in Hl. injection Hl as Ht Hn' Hzs.
  conj_split; try congruence.
  - intros Hf. unfold flows_nonneg. rewrite He3. apply Hf2. exact Hf.
  - exists st', n. conj_split; auto.
    + intros L Hnd Hin. rewrite Hh3. auto.
    + intros Hok. destruct (Hp Hok) as (ds & Hd & Hph). exists ds.
      rewrite Hh3. cbn in Hd, Hph. auto.
Qed.

Lemma steps_cons (dt : Z) (dts : list Z) (s : EvacuationSimulator) :
  steps (dt :: dts) s = steps dts (fst (simulate_step dt s)).
Proof. reflexivity. Qed.

(** C2, amended.  Over any sequence of [simulate_step] calls with time steps
    that are not negative, on a simulator whose exits have non-negative
    rated flows and whose state holds each zone object once: the evacuated
    total does not decrease, no zone gains occupants, and the difference
    between the evacuated total and the sum of the zones' evacuated counts
    stays what it was (so the two are equal after the calls exactly when
    they were equal before them).  The two conditions on the simulator
    hold again after the calls. *)
Theorem evacuation_steps_counters (s : EvacuationSimulator) (dts : list Z) :
  Forall (fun dt => 0 <= dt) dts -> flows_nonneg s -> zones_distinct s ->
  evacuated_so_far s <= evacuated_so_far (steps dts s) /\
  (forall a z z', heap s !! a = Some z -> heap (steps dts s) !! a = Some z' ->
                  current_occupancy z' <= current_occupancy z) /\
  evacuated_so_far (steps dts s) - zone_counts (steps dts s)
  = evacuated_so_far s - zone_counts s /\
  flows_nonneg (steps dts s) /\ zones_distinct (steps dts s).
Proof.
  intros Hdts. revert s. induction Hdts as [|dt dts Hdt Hdts IH]; intros s Hf Hd.
  - cbn. conj_split; auto; try lia. intros a z z' Hz Hz'. rewrite Hz in Hz'.
    injection Hz' as <-. lia.
  - rewrite steps_cons. destruct (simulate_step dt s) as [s1 r] eqn:Hstep. cbn [fst].
    apply (simulate_step_spec True) in Hstep as (Hz1 & Hf1 & Hh1 & Hs1); [|auto].
    assert (Hinv : flows_nonneg s1 /\ zones_distinct s1 /\
                   evacuated_so_far s <= evacuated_so_far s1 /\
                   evacuated_so_far s1 - zone_counts s1
                   = evacuated_so_far s - zone_counts s).
    { split; [auto|]. unfold zones_distinct, evacuated_so_far, zone_counts in *.
      destruct (state s) as [st|].
      - destruct Hs1 as (st1 & n & -> & Hzs & _ & Ht & Hn & Hc & _).
        rewrite Hzs. conj_split; auto.
        + specialize (Hn I). lia.
        + specialize (Hc (dict_values (zones st)) Hd).
          unfold counts, deref in *. rewrite Hc; [lia|].
          apply Forall_forall. auto.
      - rewrite Hs1. conj_split; auto; lia. }
    destruct Hinv as (Hf1' & Hd1 & Hle & Hbal).
    destruct (IH s1 Hf1' Hd1) as (Hle2 & Hocc & Hbal2 & Hf2 & Hd2).
    conj_split; auto; try lia.
    intros a z z' Hz Hz'.
    destruct Hh1 as (_ & Hh1).
    destruct (Hh1 a z Hz) as (y & Hy & _ & _ & _ & _ & _ & Hyz).
    specialize (Hocc a y z' Hy Hz'). specialize (Hyz I). lia.
Qed.

(** What [start_evacuation] sets up: the counters of the new state start
    from zero over the simulator's own zone dictionary, while the zone
    objects, their evacuated counts included, are left as they are. *)
Lemma start_evacuation_spec (s s1 : EvacuationSimulator) (t : datetime)
    (ph : EvacuationPhase) :
  start_evacuation s t ph = (s1, Ok tt) ->
  heap s1 = heap s /\ exits s1 = exits s /\
  exists st, state s1 = Some st /\ zones st = sim_zones s /\
             total_evacuated st = 0 /\ phase st = ph.
Proof.
  unfold start_evacuation.
  destruct (rbind _ _) as [st|e] eqn:Hr; intros [= <-]. cbn.
  apply rbind_ok in Hr as (et & _ & Hr).
  apply rbind_ok in Hr as (et' & _ & Hr).
  apply rbind_ok in Hr as (recs & _ & Hr).
  apply rbind_ok in Hr as (est & _ & Hr).
  injection Hr as <-. conj_split; auto. eexists. conj_split; reflexivity.
Qed.

Lemma dict_set_values {V : Type} (k : string) (v : V) (d : dict V) :
  exists l1 l2, dict_values (dict_set k v d) = l1 ++ v :: l2 /\
    (dict_values d = l1 ++ l2 \/ exists w, dict_values d = l1 ++ w :: l2).
Proof.
  unfold dict_values.
  induction d as [|[k' v'] d (l1 & l2 & Hs & Hd)]; cbn.
  - exists [], []. auto.
  - destruct (String.eqb k' k); cbn.
    + exists [], (map snd d). split; [reflexivity|]. right. exists v'. reflexivity.
    + exists (v' :: l1), l2. rewrite Hs. split; [reflexivity|].
      destruct Hd as [->|(w & ->)]; [left|right; exists w]; reflexivity.
Qed.

Lemma index_zones_distinct (zs : list EvacuationZone) (i : nat) (d : dict nat) :
  NoDup (dict_values d) -> Forall (fun a => (a < i)%nat) (dict_values d) ->
  NoDup (dict_values (index_zones zs i d)).
Proof.
  revert i d. induction zs as [|z zs IH]; intros i d Hnd Hlt; cbn; [exact Hnd|].
  destruct (dict_set_values (zone_id z) i d) as (l1 & l2 & Hs & Hd).
  assert (Hparts : NoDup (l1 ++ l2) /\ Forall (fun a => (a < i)%nat) (l1 ++ l2)).
  { destruct Hd as [Hd|(w & Hd)]; rewrite Hd in Hnd, Hlt.
    - auto.
    - split.
      + apply NoDup_app in Hnd as (H1 & H2 & H3). apply NoDup_cons in H3 as (H3 & H4).
        apply NoDup_app. conj_split; auto.
        intros x Hx Hx2. apply (H2 x Hx). apply elem_of_cons. auto.
      + apply Forall_app in Hlt as (H1 & H2). apply Forall_cons in H2 as (_ & H2).
        apply Forall_app. auto. }
  destruct Hparts as (Hnd' & Hlt').
  apply Forall_app in Hlt' as (Hlt1 & Hlt2).
  apply IH; rewrite Hs.
  - apply NoDup_app in Hnd' as (H1 & H2 & H3).
    apply NoDup_app. conj_split; auto.
    + intros x Hx Hx2. apply elem_of_cons in Hx2 as [->|Hx2].
      * rewrite Forall_forall in Hlt1. specialize (Hlt1 i Hx). lia.
      * exact (H2 x Hx Hx2).
    + apply NoDup_cons. split; [|exact H3].
      intros Hi. rewrite Forall_forall in Hlt2. specialize (Hlt2 i Hi). lia.
  - apply Forall_app. split; [|apply Forall_cons; split; [lia|]];
      eapply Forall_impl; eauto; cbn; intros; lia.
Qed.

(** A simulator built by [__init__] holds each zone object once, and so does
    the state that [start_evacuation] makes from it. *)
Lemma init_zones_distinct (exit_list : list EmergencyExit)
    (zone_list : list EvacuationZone) :
  NoDup (dict_values (sim_zones (init exit_list zone_list))).
Proof. cbn. apply index_zones_distinct; constructor. Qed.

End EvacuationCounters.

(** C2, as stated, fails: when an evacuation is started again on a simulator
    that has already run one, the new state counts from zero while the zone
    objects keep their evacuated counts; after the next step the evacuated
    total (1,392) is not the sum of the zone counts (3,079). *)
Lemma restart_breaks_balance :
  ~ monotone_and_balanced Restart.restarted (steps [60] Restart.restarted).
Proof.
  intros (_ & _ & Heq). vm_compute in Heq. discriminate Heq.
Qed.

(** A negative time step takes people back into the zones. *)
Lemma negative_step_unevacuates :
  evacuated_so_far (steps [-60] Restart.started) = -1687.
Proof. vm_compute. reflexivity. Qed.

Lemma evacuation_steps_counters_witness :
  Forall (fun dt => 0 <= dt) [60; 60] /\
  flows_nonneg Restart.started /\ zones_distinct Restart.started /\
  evacuated_so_far Restart.started <= evacuated_so_far (steps [60; 60] Restart.started) /\
  evacuated_so_far (steps [60; 60] Restart.started)
  - zone_counts (steps [60; 60] Restart.started)
  = evacuated_so_far Restart.started - zone_counts Restart.started.
Proof.
  assert (H1 : Forall (fun dt => 0 <= dt) [60; 60]) by (repeat constructor; lia).
  assert (H2 : flows_nonneg Restart.started)
    by (apply (bool_decide_unpack _); vm_compute; reflexivity).
  assert (H3 : zones_distinct Restart.started).
  { vm_compute. repeat constructor; intros Hin; repeat (inversion_clear Hin as [|? ? ? Hin']; rename Hin' into Hin). }
  destruct (evacuation_steps_counters Restart.started [60; 60] H1 H2 H3)
    as (Ha & _ & Hb & _).
  exact (conj H1 (conj H2 (conj H3 (conj Ha Hb)))).
Defined.

(** ** Evacuation: the phase after a step *)

Section EvacuationPhase.

Context `{Clock}.

Import Evacuation.

Lemma fold_fmax2_spec (t : Py.float) (r : list Py.float) (d : Py.float) :
  Py.is_nan d = false -> Forall (fun x => Py.is_nan x = false) r ->
  Py.is_nan (fold_left Py.fmax2 r d) = false /\
  Py.fge (fold_left Py.fmax2 r d) t = Py.fge d t || existsb (fun x => Py.fge x t) r.
Proof.
  revert d. induction r as [|x r IH]; intros d Hd Hr; cbn.
  - rewrite orb_false_r. auto.
  - apply Forall_cons in Hr as (Hx & Hr).
    destruct (IH (Py.fmax2 d x) (PyFacts.fmax2_not_nan d x Hd Hx) Hr) as (Hn & Hg).
    split; [exact Hn|]. rewrite Hg, PyFacts.fge_fmax2 by assumption.
    symmetry. apply orb_assoc.
Qed.

Lemma flt_negb_fge (d t : Py.float) :
  Py.is_nan d = false -> Py.is_nan t = false -> Py.flt d t = negb (Py.fge d t).
Proof. intros Hd Ht. apply PyFacts.SFltb_negb_leb; assumption. Qed.

Lemma forallb_flt (t : Py.float) (ds : list Py.float) :
  Py.is_nan t = false -> Forall (fun x => Py.is_nan x = false) ds ->
  forallb (fun d => Py.flt d t) ds = negb (existsb (fun d => Py.fge d t) ds).
Proof.
  intros Ht. induction 1 as [|d ds Hd Hds IH]; cbn; [reflexivity|].
  rewrite IH, (flt_negb_fge d t Hd Ht), negb_orb. reflexivity.
Qed.

(** The branches of [_update_phase] on the largest density are the rule on
    the list of densities. *)
Lemma next_phase_rule (previous : EvacuationPhase) (ds : list Py.float) :
  Forall (fun x => Py.is_nan x = false) ds ->
  next_phase previous (max_default ds) = phase_rule previous ds.
Proof.
  intros Hds. destruct ds as [|d r].
  - destruct previous; vm_compute; reflexivity.
  - apply Forall_cons in Hds as (Hd & Hr).
    unfold next_phase, phase_rule, max_default.
    rewrite (forallb_flt _ (d :: r)) by (try reflexivity; constructor; assumption).
    pose proof (fold_fmax2_spec CRUSHING_DENSITY r d Hd Hr) as (Hn & H6).
    pose proof (fold_fmax2_spec BOTTLENECK_DENSITY r d Hd Hr) as (_ & H4).
    pose proof (fold_fmax2_spec (Py.fmul BOTTLENECK_DENSITY Py.f0_5) r d Hd Hr)
      as (_ & H2).
    set (m := fold_left Py.fmax2 r d) in *.
    change (Py.num_ge (Py.F m) (Py.F CRUSHING_DENSITY)) with (Py.fge m CRUSHING_DENSITY).
    change (Py.num_ge (Py.F m) (Py.F BOTTLENECK_DENSITY))
      with (Py.fge m BOTTLENECK_DENSITY).
    change (Py.num_lt (Py.F m) (Py.F BOTTLENECK_DENSITY))
      with (Py.flt m BOTTLENECK_DENSITY).
    change (Py.num_lt (Py.F m) (Py.F (Py.fmul BOTTLENECK_DENSITY Py.f0_5)))
      with (Py.flt m (Py.fmul BOTTLENECK_DENSITY Py.f0_5)).
    rewrite !(flt_negb_fge m) by (try reflexivity; exact Hn).
    cbn [existsb]. rewrite <- H6, <- H4, <- H2.
    destruct (Py.fge m CRUSHING_DENSITY), (Py.fge m BOTTLENECK_DENSITY),
      (Py.fge m (Py.fmul BOTTLENECK_DENSITY Py.f0_5)), previous; reflexivity.
Qed.

Lemma phase_rule_not_normal (previous : EvacuationPhase) (ds : list Py.float) :
  previous <> NORMAL -> phase_rule previous ds <> NORMAL.
Proof.
  intros Hp. unfold phase_rule.
  destruct (existsb _ ds); [discriminate|].
  destruct (existsb _ ds || _); [discriminate|].
  destruct (_ && _); [discriminate|exact Hp].
Qed.

Lemma empty_zone_density (z : EvacuationZone) (t : Py.float) :
  Py.positive_finite (area_sqm z) -> current_occupancy z = 0 ->
  Py.positive_finite t ->
  exists d, zone_density z = Ok d /\ Py.fge d t = false /\ Py.flt d t = true.
Proof.
  unfold zone_density. intros Ha -> Ht.
  destruct (area_sqm z) as [| | |[|] m e]; try contradiction.
  destruct t as [| | |[|] mt et]; try contradiction.
  eexists. split; [reflexivity|]. split; reflexivity.
Qed.

(** The densities of the occupied zones, which the code looks at, decide the
    rule as the densities of all the zones do: an empty zone has density
    zero. *)
Lemma densities_agree (zs : list EvacuationZone) (occupied : list Py.float) :
  Forall (fun z => Py.positive_finite (area_sqm z) /\ 0 <= current_occupancy z) zs ->
  occupied_densities zs = Ok occupied ->
  Forall (fun x => Py.is_nan x = false) occupied /\
  exists ds, all_densities zs = Ok ds /\
    forall t, Py.positive_finite t ->
      existsb (fun d => Py.fge d t) ds = existsb (fun d => Py.fge d t) occupied /\
      forallb (fun d => Py.flt d t) ds = forallb (fun d => Py.flt d t) occupied.
Proof.
  intros Hwf. revert occupied.
  induction Hwf as [|z zs (Ha & Ho) Hwf IH]; intros occupied Hr; cbn in Hr.
  - injection Hr as <-. split; [constructor|]. exists []. split; [reflexivity|].
    intros t _. split; reflexivity.
  - destruct (0 <? current_occupancy z) eqn:Hpos.
    + apply rbind_ok in Hr as (d & Hd & Hr).
      apply rbind_ok in Hr as (r & Hrest & Hr). injection Hr as <-.
      destruct (IH r Hrest) as (Hn & ds & Hds & Ht).
      split.
      * constructor; [|exact Hn]. eapply PyFacts.int_div_float_not_nan; eassumption.
      * exists (d :: ds). cbn. unfold zone_density. rewrite Hd, Hds. cbn.
        split; [reflexivity|]. intros t Hpt. destruct (Ht t Hpt) as (-> & ->).
        split; reflexivity.
    + apply Z.ltb_ge in Hpos. assert (Hz : current_occupancy z = 0) by lia.
      destruct (IH occupied Hr) as (Hn & ds & Hds & Ht).
      split; [exact Hn|].
      destruct (empty_zone_density z Py.f1 Ha Hz I) as (d & Hd & _).
      exists (d :: ds). cbn. rewrite Hd, Hds. cbn. split; [reflexivity|].
      intros t Hpt. destruct (Ht t Hpt) as (He & Hf).
      destruct (empty_zone_density z t Ha Hz Hpt) as (d' & Hd' & Hg & Hl).
      rewrite Hd in Hd'. injection Hd' as <-. cbn. rewrite Hg, Hl, He, Hf.
      split; reflexivity.
Qed.

Lemma heap_step_well_formed (G : Prop) (h h' : list EvacuationZone) :
  heap_step G h h' ->
  Forall (fun z => Py.positive_finite (area_sqm z) /\ 0 <= current_occupancy z) h ->
  Forall (fun z => Py.positive_finite (area_sqm z) /\ 0 <= current_occupancy z) h'.
Proof.
  intros (Hlen & Hstep) Hwf. rewrite Forall_lookup in *. intros i z' Hz'.
  assert (Hi : is_Some (h !! i)).
  { apply lookup_lt_is_Some. rewrite <- Hlen. eapply lookup_lt_Some. exact Hz'. }
  destruct Hi as (z & Hz).
  destruct (Hstep i z Hz) as (y & Hy & _ & Ha & _ & _ & Ho & _).
  rewrite Hz' in Hy. injection Hy as <-.
  destruct (Hwf i z Hz) as (Hpa & Hpo). rewrite Ha. auto.
Qed.

Lemma deref_Forall (P : EvacuationZone -> Prop) (h : list EvacuationZone) (d : dict nat) :
  Forall P h -> Forall P (deref h d).
Proof.
  intros Hh. unfold deref. induction (dict_values d) as [|a l IH]; cbn; [constructor|].
  destruct (h !! a) as [z|] eqn:Hz; [|exact IH].
  constructor; [|exact IH]. rewrite Forall_lookup in Hh. eauto.
Qed.

(** C3.  After every [simulate_step] that returns, on zones with positive
    areas and no negative occupancy, the phase is the one the rule gives for
    the phase before the step and the densities of the zones after it; a
    phase other than NORMAL never becomes NORMAL. *)
Theorem phase_after_step (s s' : EvacuationSimulator) (dt_seconds : Z)
    (st : EvacuationState datetime nat) :
  state s = Some st -> zones_well_formed s ->
  simulate_step dt_seconds s = (s', Ok tt) ->
  exists st' ds,
    state s' = Some st' /\
    all_densities (deref (heap s') (zones st')) = Ok ds /\
    phase st' = phase_rule (phase st) ds /\
    (phase st <> NORMAL -> phase st' <> NORMAL).
Proof.
  intros Hst Hwf Hstep.
  apply (simulate_step_spec False) in Hstep as (_ & _ & Hheap & Hs'); [|tauto].
  rewrite Hst in Hs'.
  destruct Hs' as (st' & n & Hst' & Hzs & _ & _ & _ & _ & Hp).
  destruct (Hp eq_refl) as (occupied & Ho & Hph).
  pose proof (heap_step_well_formed _ _ _ Hheap Hwf) as Hwf'.
  destruct (densities_agree _ _ (deref_Forall _ _ (zones st) Hwf') Ho)
    as (Hn & ds & Hds & Ht).
  assert (Hrule : phase_rule (phase st) ds = phase_rule (phase st) occupied).
  { unfold phase_rule.
    destruct (Ht CRUSHING_DENSITY I) as (-> & _).
    destruct (Ht BOTTLENECK_DENSITY I) as (-> & _).
    destruct (Ht (Py.fmul BOTTLENECK_DENSITY Py.f0_5) I) as (_ & ->).
    reflexivity. }
  exists st', ds. rewrite Hzs. conj_split; auto.
  - rewrite Hph, Hrule. apply next_phase_rule. exact Hn.
  - intros Hne. rewrite Hph, next_phase_rule by exact Hn.
    apply phase_rule_not_normal. exact Hne.
Qed.

End EvacuationPhase.

Lemma phase_after_step_witness :
  exists st st' ds,
    Evacuation.state Restart.started = Some st /\
    zones_well_formed Restart.started /\
    Evacuation.simulate_step 60 Restart.started = (Restart.after_a_minute, Ok tt) /\
    Evacuation.state Restart.after_a_minute = Some st' /\
    all_densities
      (Evacuation.deref (Evacuation.heap Restart.after_a_minute) (Evacuation.zones st'))
    = Ok ds /\
    Evacuation.phase st' = phase_rule (Evacuation.phase st) ds.
Proof.
  assert (H1 : exists st, Evacuation.state Restart.started = Some st)
    by (eexists; vm_compute; reflexivity).
  destruct H1 as (st & H1).
  assert (H2 : zones_well_formed Restart.started)
    by (vm_compute; repeat constructor; discriminate).
  assert (H3 : Evacuation.simulate_step 60 Restart.started
               = (Restart.after_a_minute, Ok tt))
    by (vm_compute; reflexivity).
  destruct (phase_after_step Restart.started Restart.after_a_minute 60 st H1 H2 H3)
    as (st' & ds & Ha & Hb & Hc & _).
  exact (ex_intro _ st (ex_intro _ st' (ex_intro _ ds
           (conj H1 (conj H2 (conj H3 (conj Ha (conj Hb Hc)))))))).
Defined.

Section FlowReduction.

Lemma SFleb_not_nan (x y : Py.float) :
  SFleb x y = true -> Py.is_nan x = false /\ Py.is_nan y = false.
Proof.
  unfold SFleb. destruct x as [sx|sx| |sx mx ex]; destruct y as [sy|sy| |sy my ey];
    cbn; try discriminate; auto.
Qed.


Lemma flt_of_fle (d1 d2 t : Py.float) :
  Py.fle d1 d2 = true -> Py.is_nan t = false -> Py.flt d2 t = true -> Py.flt d1 t = true.
Proof.
  unfold Py.fle, Py.flt. intros Hle Ht Hlt.
  destruct (SFleb_not_nan d1 d2 Hle) as (Hd1 & Hd2).
  rewrite (PyFacts.SFltb_negb_leb d1 t Hd1 Ht).
  rewrite (PyFacts.SFltb_negb_leb d2 t Hd2 Ht) in Hlt.
  destruct (SFleb t d1) eqn:Ht1; [|reflexivity].
  rewrite (PyFacts.SFleb_trans t d1 d2 Ht1 Hle) in Hlt. discriminate.
Qed.

Lemma fdiv_nonneg (x y r : Py.float) :
  Py.nonneg x -> Py.positive_finite y -> Py.fdiv x y = Ok r -> Py.nonneg r.
Proof.
  unfold Py.fdiv. destruct y as [sy|sy| |[|] my ey]; try contradiction.
  cbn [Py.is_zero]. intros Hx _ [= <-].
  destruct x as [sx|[|]| |[|] mx ex]; try contradiction; try exact I.
  unfold SFdiv. destruct (SFdiv_core_binary _ _ _ _ _ _) as [[mz ez] lz].
  apply PyFacts.binary_round_aux_nonneg.
Qed.

(** What [min(max_throughput, queue_length)] is as a float is not
    negative. *)
Lemma gate_capacity_bound_nonneg (gate : Gate) (queue : Z) (dt_seconds : Py.float)
    (a : Py.num) (x : Py.float) :
  0 <= capacity_per_minute gate -> 0 < queue -> Py.nonneg dt_seconds ->
  gate_capacity_bound gate queue dt_seconds = Ok a -> Py.to_float a = Ok x ->
  Py.nonneg x.
Proof.
  intros Hcap Hq Hdt. unfold gate_capacity_bound, Py.int_mul_float, Py.float_div_int.
  intros Ha Hx.
  apply rbind_ok in Ha as (c & Hc & Ha).
  apply rbind_ok in Hc as (fc & Hfc & Hc). injection Hc as <-.
  apply rbind_ok in Ha as (mt & Hmt & Ha). injection Ha as <-.
  change (60 =? 0) with false in Hmt. cbn iota in Hmt.
  apply rbind_ok in Hmt as (f60 & H60 & Hmt).
  unfold Py.min2 in Hx. destruct (Py.num_lt _ _); cbn [Py.to_float] in Hx.
  - eapply PyFacts.of_int_nonneg; [|exact Hx]. lia.
  - injection Hx as <-. eapply fdiv_nonneg; [| |exact Hmt].
    + apply PyFacts.fmul_nonneg; [|exact Hdt]. eapply PyFacts.of_int_nonneg; eassumption.
    + vm_compute in H60. injection H60 as <-. exact I.
Qed.




End FlowReduction.


(** * Further properties of the engines *)

(** ** Evacuation: where the people are *)

Section EvacuationPeople.

Context `{Clock}.

Import Evacuation.

(** Any sequence of steps, returning or raising, is a [heap_step]. *)
Lemma steps_heap_step (dts : list Z) (s : EvacuationSimulator) :
  heap_step False (heap s) (heap (steps dts s)).
Proof.
  revert s. induction dts as [|dt dts IH]; intros s; [apply heap_step_refl|].
  rewrite steps_cons. destruct (simulate_step dt s) as [s1 r] eqn:Hstep. cbn [fst].
  apply (simulate_step_spec False) in Hstep as (_ & _ & Hh & _); [|tauto].
  eapply heap_step_trans; [exact Hh|apply IH].
Qed.

(** X1.  Whatever steps are made, with any time steps and whether they
    return or raise, a zone object keeps the sum of its occupancy and its
    evacuated count, and an occupancy that was not negative stays so: no
    step takes more people out of a zone than it holds. *)
Theorem zone_people_accounted (s : EvacuationSimulator) (dts : list Z) (a : nat)
    (z : EvacuationZone) :
  heap s !! a = Some z ->
  exists z',
    heap (steps dts s) !! a = Some z' /\
    current_occupancy z' + evacuated_count z'
    = current_occupancy z + evacuated_count z /\
    (0 <= current_occupancy z -> 0 <= current_occupancy z').
Proof.
  intros Hz. destruct (steps_heap_step dts s) as (_ & Hh).
  destruct (Hh a z Hz) as (z' & Hz' & _ & _ & _ & Hsum & Hnn & _).
  exists z'. auto.
Qed.

Lemma heap_step_people (G : Prop) (h h' : list EvacuationZone) (L : list nat) :
  heap_step G h h' ->
  sum_Z (map current_occupancy (omap (fun a => h' !! a) L)) + counts h' L
  = sum_Z (map current_occupancy (omap (fun a => h !! a) L)) + counts h L.
Proof.
  intros (Hlen & Hh). unfold counts. induction L as [|a L IH]; [reflexivity|].
  cbn [omap list_omap]. destruct (h !! a) as [z|] eqn:Hz.
  - destruct (Hh a z Hz) as (z' & Hz' & _ & _ & _ & Hsum & _).
    rewrite Hz'. cbn [map sum_Z]. lia.
  - assert (Hz' : h' !! a = None).
    { apply lookup_ge_None. apply lookup_ge_None in Hz. lia. }
    rewrite Hz'. exact IH.
Qed.

(** One step keeps the difference between the people still to evacuate and
    the people in the zones. *)
Lemma simulate_step_remaining (dt : Z) (s s' : EvacuationSimulator) (r : result unit) :
  simulate_step dt s = (s', r) -> zones_distinct s ->
  zones_distinct s' /\
  still_to_evacuate s' - people_in_zones s' = still_to_evacuate s - people_in_zones s.
Proof.
  intros Hstep Hd.
  apply (simulate_step_spec False) in Hstep as (_ & _ & Hh & Hs); [|tauto].
  unfold zones_distinct, still_to_evacuate, people_in_zones in *.
  destruct (state s) as [st|]; [|rewrite Hs; auto].
  destruct Hs as (st' & n & -> & Hz & Ht & He & _ & Hc & _).
  rewrite Hz, Ht, He. split; [exact Hd|].
  specialize (Hc (dict_values (zones st)) Hd).
  pose proof (heap_step_people _ _ _ (dict_values (zones st)) Hh) as Hp.
  unfold deref. rewrite Hc in Hp; [lia|].
  apply Forall_forall. auto.
Qed.

Lemma start_evacuation_totals (s s1 : EvacuationSimulator) (t : datetime)
    (ph : EvacuationPhase) :
  start_evacuation s t ph = (s1, Ok tt) ->
  heap s1 = heap s /\
  exists st, state s1 = Some st /\ zones st = sim_zones s /\
             total_evacuated st = 0 /\
             total_to_evacuate st
             = sum_Z (map current_occupancy (deref (heap s) (sim_zones s))).
Proof.
  unfold start_evacuation.
  destruct (rbind _ _) as [st|e] eqn:Hr; intros [= <-]. cbn.
  apply rbind_ok in Hr as (et & _ & Hr).
  apply rbind_ok in Hr as (et' & _ & Hr).
  apply rbind_ok in Hr as (recs & _ & Hr).
  apply rbind_ok in Hr as (est & _ & Hr).
  injection Hr as <-. split; [reflexivity|]. eexists. conj_split; reflexivity.
Qed.

(** X2.  After a [start_evacuation] that returns, on a simulator whose zone
    dictionary holds each zone object once, and after any steps (of any
    length, returning or raising), the people still to evacuate,
    [total_to_evacuate - total_evacuated], are the people in the zones. *)
Theorem remaining_people_are_in_zones (s s1 : EvacuationSimulator) (t : datetime)
    (ph : EvacuationPhase) (dts : list Z) :
  start_evacuation s t ph = (s1, Ok tt) ->
  NoDup (dict_values (sim_zones s)) ->
  still_to_evacuate (steps dts s1) = people_in_zones (steps dts s1).
Proof.
  intros Hstart Hnd.
  apply start_evacuation_totals in Hstart as (Hheap & st & Hst & Hz & He & Ht).
  assert (H0 : zones_distinct s1 /\ still_to_evacuate s1 - people_in_zones s1 = 0).
  { unfold zones_distinct, still_to_evacuate, people_in_zones.
    rewrite Hst, Hz, He, Ht, Hheap. split; [exact Hnd|lia]. }
  clear - H0. revert s1 H0.
  induction dts as [|dt dts IH]; intros s1 (Hd & Hb); [cbn; lia|].
  rewrite steps_cons. destruct (simulate_step dt s1) as [s2 r] eqn:Hstep. cbn [fst].
  apply simulate_step_remaining in Hstep as (Hd2 & Hb2); [|exact Hd].
  apply IH. split; [exact Hd2|lia].
Qed.

End EvacuationPeople.

Lemma zone_people_accounted_witness :
  exists z z',
    Evacuation.heap Restart.started !! 0%nat = Some z /\
    Evacuation.heap (steps [60; -60; 0] Restart.started) !! 0%nat = Some z' /\
    Evacuation.current_occupancy z' + Evacuation.evacuated_count z'
    = Evacuation.current_occupancy z + Evacuation.evacuated_count z.
Proof.
  assert (Hz : Evacuation.heap Restart.started !! 0%nat
               = Some (Scenario.mk_zone "stand-a" 6000 (Py.lit 4000 1) ["north"]))
    by reflexivity.
  destruct (zone_people_accounted Restart.started [60; -60; 0] 0%nat _ Hz)
    as (z' & Hz' & Hsum & _).
  eexists _, z'. split; [exact Hz|]. split; [exact Hz'|exact Hsum].
Defined.

Lemma remaining_people_are_in_zones_witness :
  Evacuation.start_evacuation Scenario.stadium_with_state t0 Evacuation.ALERT
  = (Restart.started, Ok tt) /\
  still_to_evacuate (steps [60; 60; 60] Restart.started)
  = people_in_zones (steps [60; 60; 60] Restart.started).
Proof.
  assert (Hs : Evacuation.start_evacuation Scenario.stadium_with_state t0
                 Evacuation.ALERT = (Restart.started, Ok tt))
    by (vm_compute; reflexivity).
  split; [exact Hs|].
  apply (remaining_people_are_in_zones Scenario.stadium_with_state Restart.started t0
           Evacuation.ALERT [60; 60; 60] Hs).
  vm_compute. repeat constructor; intros Hin;
    repeat (inversion_clear Hin as [|? ? ? Hin']; rename Hin' into Hin).
Defined.

(** ** Evacuation: the clock and the history *)

Section EvacuationBookkeeping.

Context `{Clock}.

Import Evacuation.

Lemma update_state_book {A : Type}
    (g : EvacuationSimulator -> EvacuationState datetime nat -> result A)
    (f : EvacuationState datetime nat -> A -> EvacuationState datetime nat)
    (s s' : EvacuationSimulator) (r : result unit) (st : EvacuationState datetime nat) :
  (forall st0 a, elapsed_seconds (f st0 a) = elapsed_seconds st0 /\
                 start_time (f st0 a) = start_time st0) ->
  update_state g f s = (s', r) -> state s = Some st ->
  heap s' = heap s /\ history s' = history s /\
  exists st', state s' = Some st' /\ elapsed_seconds st' = elapsed_seconds st /\
              start_time st' = start_time st.
Proof.
  intros Hf. unfold update_state. intros Hu Hst. rewrite Hst in Hu.
  destruct (g s st) as [a|e]; injection Hu as <- <-; cbn.
  - conj_split; auto. exists (f st a). split; [reflexivity|apply Hf].
  - conj_split; auto. exists st. auto.
Qed.

Lemma _update_phase_book (s s' : EvacuationSimulator) (r : result unit)
    (st : EvacuationState datetime nat) :
  _update_phase s = (s', r) -> state s = Some st ->
  heap s' = heap s /\ history s' = history s /\
  exists st', state s' = Some st' /\ elapsed_seconds st' = elapsed_seconds st /\
              start_time st' = start_time st.
Proof.
  unfold _update_phase. intros Hu Hst. rewrite Hst in Hu.
  destruct (occupied_densities _) as [ds|e]; injection Hu as <- <-; cbn.
  - conj_split; auto. eexists. split; [reflexivity|]. cbn. auto.
  - conj_split; auto. exists st. auto.
Qed.

Lemma finish_step_book (s s' : EvacuationSimulator) (r : result unit)
    (st : EvacuationState datetime nat) :
  finish_step s = (s', r) -> state s = Some st ->
  exists st', state s' = Some st' /\ elapsed_seconds st' = elapsed_seconds st /\
    start_time st' = start_time st /\
    history s' = history s ++ match r with
                              | Ok _ => [_copy_state s' st']
                              | Raise _ => []
                              end.
Proof.
  unfold finish_step. intros Hr Hst.
  apply bind_inv in Hr as [(s1 & u1 & H1 & Hr) | (e & H1 & ->)];
    apply (update_state_book _ _ _ _ _ st) in H1 as (Hh1 & Hi1 & st1 & Hs1 & He1 & Ht1);
    try exact Hst; try (intros; split; reflexivity).
  2:{ exists st1. rewrite app_nil_r. auto. }
  apply bind_inv in Hr as [(s2 & u2 & H2 & Hr) | (e & H2 & ->)];
    apply (_update_phase_book _ _ _ st1) in H2 as (Hh2 & Hi2 & st2 & Hs2 & He2 & Ht2);
    try exact Hs1.
  2:{ exists st2. rewrite app_nil_r. conj_split; congruence. }
  apply bind_inv in Hr as [(s3 & u3 & H3 & Hr) | (e & H3 & ->)];
    apply (update_state_book _ _ _ _ _ st2) in H3 as (Hh3 & Hi3 & st3 & Hs3 & He3 & Ht3);
    try exact Hs2; try (intros; split; reflexivity).
  2:{ exists st3. rewrite app_nil_r. conj_split; congruence. }
  apply bind_inv in Hr as [(s4 & u4 & H4 & Hr) | (e & H4 & ->)];
    apply (update_state_book _ _ _ _ _ st3) in H4 as (Hh4 & Hi4 & st4 & Hs4 & He4 & Ht4);
    try exact Hs3; try (intros; split; reflexivity).
  2:{ exists st4. rewrite app_nil_r. conj_split; congruence. }
  unfold modify in Hr. rewrite Hs4 in Hr. injection Hr as <- <-.
  exists st4. cbn. conj_split; try congruence.
  unfold _copy_state. cbn. congruence.
Qed.

(** X3.  A call of [simulate_step] on a started simulator adds [dt_seconds]
    to the elapsed time whether it returns or raises, leaves the start time
    alone, and extends the history by one entry, the copy of the state it
    returns, exactly when it returns; a call that raises leaves the history
    as it was. *)
Theorem step_bookkeeping (dt_seconds : Z) (s s' : EvacuationSimulator)
    (r : result unit) (st : EvacuationState datetime nat) :
  simulate_step dt_seconds s = (s', r) -> state s = Some st ->
  exists st',
    state s' = Some st' /\
    elapsed_seconds st' = elapsed_seconds st + dt_seconds /\
    start_time st' = start_time st /\
    history s' = history s ++ match r with
                              | Ok _ => [_copy_state s' st']
                              | Raise _ => []
                              end.
Proof.
  unfold simulate_step. intros Hr Hst. rewrite Hst in Hr.
  apply bind_inv in Hr as [(s0 & u0 & H0 & Hr) | (e & H0 & _)]; [|discriminate H0].
  injection H0 as <- _.
  apply bind_inv in Hr as [(s1 & dtm & H1 & Hr) | (e & H1 & ->)].
  2:{ injection H1 as <-. eexists. cbn. rewrite app_nil_r. conj_split; reflexivity. }
  unfold lift in H1. injection H1 as <- _.
  apply bind_inv in Hr as [(s2 & u2 & H2 & Hr) | (e & H2 & ->)];
    apply (zones_loop_spec False) in H2 as (_ & Hi2 & _ & _ & n & Hs2 & _);
    try tauto; cbn in Hi2, Hs2.
  2:{ eexists. rewrite app_nil_r. conj_split; [exact Hs2| | |exact Hi2]; reflexivity. }
  apply (finish_step_book _ _ _ _ Hr) in Hs2 as (st' & Hs' & He & Ht & Hh).
  exists st'. cbn in He, Ht. rewrite Hi2 in Hh. auto.
Qed.

End EvacuationBookkeeping.

Lemma step_bookkeeping_witness :
  exists st st',
    Evacuation.state Restart.started = Some st /\
    Evacuation.state Restart.after_a_minute = Some st' /\
    Evacuation.elapsed_seconds st' = Evacuation.elapsed_seconds st + 60 /\
    Evacuation.history Restart.after_a_minute
    = Evacuation.history Restart.started
      ++ [Evacuation._copy_state Restart.after_a_minute st'].
Proof.
  assert (Hstep : Evacuation.simulate_step 60 Restart.started
                  = (Restart.after_a_minute, Ok tt)) by (vm_compute; reflexivity).
  assert (Hst : exists st, Evacuation.state Restart.started = Some st)
    by (eexists; vm_compute; reflexivity).
  destruct Hst as (st & Hst).
  destruct (step_bookkeeping 60 Restart.started Restart.after_a_minute (Ok tt) st
              Hstep Hst) as (st' & Hs' & He & _ & Hh).
  exact (ex_intro _ st (ex_intro _ st' (conj Hst (conj Hs' (conj He Hh))))).
Defined.

(** ** Evacuation: a step of no duration *)

Section EvacuationZeroStep.

Context `{Clock}.

Import Evacuation.

(** [int(n / 0.0)] *)
Lemma rate_over_zero (n : Z) (z : Py.float) :
  Py.is_zero z = true ->
  exists e, (let* x := Py.int_div_float n z in Py.to_int x) = Raise e.
Proof.
  intros Hz. unfold Py.int_div_float, Py.fdiv. rewrite Hz.
  destruct (Py.of_int n) as [fz|e]; cbn; eauto.
Qed.

(** Over a step of no duration the loop over the exits only returns when
    it meets no exit that is known and accessible. *)
Lemma exits_loop_zero (zone : EvacuationZone) (velocity dtm : Py.float)
    (ids : list string) (ze ze' : Z) (s s' : EvacuationSimulator) :
  Py.is_zero dtm = true ->
  exits_loop zone velocity dtm ids ze s = (s', Ok ze') ->
  s' = s /\ ze' = ze /\
  forall eid ex, eid ∈ ids -> dict_get eid (exits s) = Some ex ->
                 is_accessible ex = false.
Proof.
  intros Hz. revert ze s. induction ids as [|eid rest IH]; intros ze s Hr; cbn in Hr.
  - injection Hr as <- <-. conj_split; try reflexivity. intros eid ex Hin.
    apply elem_of_nil in Hin. contradiction.
  - destruct (dict_get eid (exits s)) as [ex|] eqn:Hg.
    + destruct (is_accessible ex) eqn:Hacc; cbn [negb] in Hr.
      * exfalso. unfold bind, lift, modify in Hr.
        destruct (evacuated_via ex zone velocity dtm ze) as [n|e]; [|discriminate Hr].
        destruct (rate_over_zero n dtm Hz) as (e & He). rewrite He in Hr.
        discriminate Hr.
      * destruct (IH _ _ Hr) as (-> & -> & Hrest). conj_split; try reflexivity.
        intros eid' ex' Hin Hg'. apply elem_of_cons in Hin as [->|Hin]; [|eauto].
        congruence.
    + destruct (IH _ _ Hr) as (-> & -> & Hrest). conj_split; try reflexivity.
      intros eid' ex' Hin Hg'. apply elem_of_cons in Hin as [->|Hin]; [|eauto].
      congruence.
Qed.

Lemma process_zone_zero (dtm : Py.float) (a : nat) (s s' : EvacuationSimulator) :
  Py.is_zero dtm = true -> process_zone dtm a s = (s', Ok tt) -> zero_turn a s s'.
Proof.
  intros Hz Hp. unfold zero_turn.
  assert (Hsame : forall b z, heap s !! b = Some z ->
            exists z', heap s !! b = Some z' /\
                       current_occupancy z' = current_occupancy z /\
                       nearest_exits z' = nearest_exits z) by eauto.
  unfold process_zone in Hp.
  destruct (heap s !! a) as [zone|] eqn:Hzone.
  2:{ injection Hp as <-. conj_split; auto. discriminate. }
  destruct (state s) as [st|] eqn:Hst.
  2:{ injection Hp as <-. conj_split; auto;
        [intros (x & Hx); discriminate Hx|intros z eid ex _ (x & Hx); discriminate Hx]. }
  destruct (current_occupancy zone <=? 0) eqn:Hocc.
  { injection Hp as <-. conj_split; auto. intros z eid ex [= <-] _ Hpos.
    apply Z.leb_le in Hocc. lia. }
  apply bind_inv in Hp as [(s1 & u & H1 & Hp) | (e & _ & He)]; [|discriminate He].
  injection H1 as <- _.
  apply bind_inv in Hp as [(s2 & ze & Hl & Hp) | (e & _ & He)]; [|discriminate He].
  apply (exits_loop_zero _ _ _ _ _ _ _ _ Hz) in Hl as (-> & -> & Hnone).
  cbn in Hnone.
  apply bind_inv in Hp as [(s3 & u3 & H3 & Hp) | (e & _ & He)]; [|discriminate He].
  injection H3 as <- _.
  assert (Ha : (a < length (heap s))%nat) by (eapply lookup_lt_Some; exact Hzone).
  assert (Hend : forall zf sx,
            current_occupancy zf = current_occupancy zone ->
            nearest_exits zf = nearest_exits zone ->
            exits sx = exits s -> is_Some (state sx) ->
            heap sx = <[a := zf]> (heap s) ->
            exits sx = exits s /\ (is_Some (Some st) -> is_Some (state sx)) /\
            (forall b z, heap s !! b = Some z ->
               exists z', heap sx !! b = Some z' /\
                          current_occupancy z' = current_occupancy z /\
                          nearest_exits z' = nearest_exits z) /\
            (forall z eid ex,
               Some zone = Some z -> is_Some (Some st) -> 0 < current_occupancy z ->
               eid ∈ nearest_exits z -> dict_get eid (exits s) = Some ex ->
               is_accessible ex = false)).
  { intros zf sx Ho Hx Hex Hsx Hheap. conj_split; auto.
    - intros b z Hb. rewrite Hheap. destruct (decide (a = b)) as [<-|Hne].
      + rewrite Hzone in Hb. injection Hb as <-. exists zf.
        rewrite list_lookup_insert_eq by exact Ha. auto.
      + exists z. rewrite list_lookup_insert_ne by exact Hne. auto.
    - intros z eid ex [= <-] _ _ Hin Hg. exact (Hnone eid ex Hin Hg). }
  set (z2 := evacuate (set_started zone) 0) in *.
  set (s3 := bump_total 0 (set_heap _ (<[a:=z2]> _))) in *.
  assert (Hs3 : exits s3 = exits s /\ is_Some (state s3) /\
                heap s3 = <[a := z2]> (heap s)).
  { subst s3. unfold bump_total. cbn. rewrite Hst. cbn. conj_split; eauto.
    apply list_insert_insert_eq. }
  destruct Hs3 as (He3 & Hst3 & Hh3).
  assert (Hz2 : current_occupancy z2 = current_occupancy zone /\
                nearest_exits z2 = nearest_exits zone).
  { subst z2. cbn. split; [lia|reflexivity]. }
  destruct Hz2 as (Ho2 & Hx2).
  destruct (0 <? current_occupancy z2).
  2:{ injection Hp as <-. apply (Hend z2); assumption. }
  destruct (0 <? remaining_exits_capacity (exits s3) z2).
  2:{ injection Hp as <-. apply (Hend z2); assumption. }
  apply bind_inv in Hp as [(s4 & t & H4 & Hp) | (e & _ & He)]; [|discriminate He].
  injection H4 as <- _. injection Hp as <-.
  apply (Hend (set_time_remaining z2 t)); cbn; auto.
  rewrite Hh3. apply list_insert_insert_eq.
Qed.

Lemma zones_loop_zero (dtm : Py.float) (l : dict nat) (s s' : EvacuationSimulator) :
  Py.is_zero dtm = true -> zones_loop dtm l s = (s', Ok tt) -> is_Some (state s) ->
  forall zid a z eid ex,
    (zid, a) ∈ l -> heap s !! a = Some z -> 0 < current_occupancy z ->
    eid ∈ nearest_exits z -> dict_get eid (exits s) = Some ex ->
    is_accessible ex = false.
Proof.
  intros Hz. revert s. induction l as [|[k a0] rest IH]; intros s Hl Hst;
    intros zid a z eid ex Hin.
  - apply elem_of_nil in Hin. contradiction.
  - cbn in Hl.
    apply bind_inv in Hl as [(s1 & [] & H1 & Hl) | (e & _ & He)]; [|discriminate He].
    apply (process_zone_zero _ _ _ _ Hz) in H1 as (Hex & Hs1 & Hheap & Hhead).
    apply elem_of_cons in Hin as [[= -> ->]|Hin].
    + intros Hz0 Hpos Hin' Hg. exact (Hhead z eid ex Hz0 Hst Hpos Hin' Hg).
    + intros Hz0 Hpos Hin' Hg.
      destruct (Hheap a z Hz0) as (z' & Hz' & Ho & Hx).
      apply (IH s1 Hl (Hs1 Hst) zid a z' eid ex Hin Hz'); [lia|congruence|congruence].
Qed.

(** X4.  A step of no duration never returns while a zone with people in it
    has an exit that is known and accessible: the flow rate of that exit is
    the quotient by [dt_minutes = 0.0]. *)
Theorem zero_step_raises (s s' : EvacuationSimulator) (r : result unit)
    (st : EvacuationState datetime nat) (zid : string) (a : nat) (z : EvacuationZone)
    (eid : string) (ex : EmergencyExit) :
  simulate_step 0 s = (s', r) ->
  state s = Some st -> (zid, a) ∈ zones st -> heap s !! a = Some z ->
  0 < current_occupancy z -> eid ∈ nearest_exits z ->
  dict_get eid (exits s) = Some ex -> is_accessible ex = true ->
  exists e, r = Raise e.
Proof.
  unfold simulate_step. intros Hr Hst Hin Hz Hpos Hx Hg Hacc. rewrite Hst in Hr.
  apply bind_inv in Hr as [(s0 & u0 & H0 & Hr) | (e & H0 & _)]; [|discriminate H0].
  injection H0 as <- _.
  apply bind_inv in Hr as [(s1 & dtm & H1 & Hr) | (e & _ & ->)]; [|eauto].
  unfold lift in H1. injection H1 as <- Hdtm.
  assert (Hzero : Py.is_zero dtm = true).
  { rewrite <- Hdtm. reflexivity. }
  apply bind_inv in Hr as [(s2 & [] & H2 & Hr) | (e & _ & ->)]; [|eauto].
  exfalso.
  pose proof (zones_loop_zero _ _ _ _ Hzero H2 (ltac:(cbn; eauto)) zid a z eid ex
                Hin Hz Hpos Hx Hg) as Hno.
  congruence.
Qed.

End EvacuationZeroStep.

Lemma zero_step_raises_witness :
  exists s' e, Evacuation.simulate_step 0 Restart.started = (s', Raise e).
Proof.
  destruct (Evacuation.simulate_step 0 Restart.started) as [s' r] eqn:Hstep.
  assert (Hst : exists st, Evacuation.state Restart.started = Some st
                           /\ ("stand-a", 0%nat) ∈ Evacuation.zones st).
  { eexists. split; [vm_compute; reflexivity|]. apply elem_of_cons. left. reflexivity. }
  destruct Hst as (st & Hst & Hin).
  assert (Hx : "north" ∈ ["north"]) by (apply elem_of_cons; left; reflexivity).
  destruct (zero_step_raises Restart.started s' r st "stand-a" 0%nat
              (Scenario.mk_zone "stand-a" 6000 (Py.lit 4000 1) ["north"])
              "north" (Scenario.mk_exit "north" 1000) Hstep Hst Hin
              eq_refl eq_refl Hx eq_refl eq_refl)
    as (e & ->).
  exists s', e. reflexivity.
Defined.

(** ** Crowd engine: a step of no duration *)

Section CrowdZeroStep.

Context `{Clock}.

Lemma int_div_float_zero (n : Z) (z : Py.float) :
  Py.is_zero z = true -> exists e, Py.int_div_float n z = Raise e.
Proof.
  intros Hz. unfold Py.int_div_float, Py.fdiv. rewrite Hz.
  destruct (Py.of_int n) as [fz|e]; cbn; eauto.
Qed.

Lemma _process_gates_zero (p : SimulationParams) (venue : Venue) (st : CrowdState)
    (dt_seconds : Py.float) :
  Py.is_zero dt_seconds = true ->
  exists e, _process_gates p venue st dt_seconds = Raise e.
Proof.
  intros Hz. unfold _process_gates.
  destruct (gates_loop p venue (gates venue) dt_seconds st 0) as [[st1 te]|e];
    cbn; [|eauto].
  destruct (int_div_float_zero (te * 60) dt_seconds Hz) as (e & ->). cbn. eauto.
Qed.

(** X5.  [simulate_timestep] with [dt_seconds] zero never returns a state:
    whatever the venue and the state, the inflow rate
    [total_entered * 60 / dt_seconds] is computed at the end of
    [_process_gates], so the call raises (ZeroDivisionError, unless
    something raised before). *)
Theorem zero_timestep_raises (eng : Engine) (venue : Venue) (st : CrowdState)
    (dt_seconds arrival_rate : Py.float) :
  Py.is_zero dt_seconds = true ->
  exists e, snd (simulate_timestep eng venue st dt_seconds arrival_rate) = Raise e.
Proof.
  intros Hz. unfold simulate_timestep.
  destruct (rbind (add_seconds _ _) _) as [st0|e]; [|cbn; eauto].
  destruct (_process_arrivals _ _ _ _ _) as [eng1 [st1|e]]; cbn; [|eauto].
  destruct (_process_gates_zero (params eng) venue st1 dt_seconds Hz) as (e & ->).
  cbn. eauto.
Qed.

End CrowdZeroStep.

Lemma zero_timestep_raises_witness :
  snd (simulate_timestep Arena.engine Arena.venue Arena.opening Py.f0 (Py.lit 300 1))
  = Raise ZeroDivisionError.
Proof.
  destruct (zero_timestep_raises Arena.engine Arena.venue Arena.opening Py.f0
              (Py.lit 300 1) eq_refl) as (e & He).
  rewrite He. f_equal.
  assert (Hc : snd (simulate_timestep Arena.engine Arena.venue Arena.opening Py.f0
                      (Py.lit 300 1)) = Raise ZeroDivisionError)
    by (vm_compute; reflexivity).
  rewrite He in Hc. injection Hc as ->. reflexivity.
Defined.

(** ** The venue: looking up zones and gates *)

Section VenueLookup.

Lemma find_first {A : Type} (key : A -> string) (id : string) (l : list A) (x : A) :
  List.find (fun y => String.eqb (key y) id) l = Some x <->
  exists l1 l2, l = l1 ++ x :: l2 /\ key x = id /\ Forall (fun y => key y <> id) l1.
Proof.
  induction l as [|y l IH]; cbn.
  - split; [discriminate|]. intros (l1 & l2 & Hl & _). destruct l1; discriminate Hl.
  - destruct (String.eqb_spec (key y) id) as [Heq|Hne].
    + split.
      * intros [= <-]. exists [], l. auto.
      * intros (l1 & l2 & Hl & Hk & Hf). destruct l1 as [|y' l1].
        -- injection Hl as ->. reflexivity.
        -- injection Hl as <- _. apply Forall_cons in Hf as (Hy & _). contradiction.
    + rewrite IH. split.
      * intros (l1 & l2 & -> & Hk & Hf). exists (y :: l1), l2. auto.
      * intros (l1 & l2 & Hl & Hk & Hf). destruct l1 as [|y' l1].
        -- injection Hl as -> _. contradiction.
        -- injection Hl as <- ->. apply Forall_cons in Hf as (_ & Hf). eauto.
Qed.

Lemma find_none {A : Type} (key : A -> string) (id : string) (l : list A) :
  List.find (fun y => String.eqb (key y) id) l = None <->
  Forall (fun y => key y <> id) l.
Proof.
  induction l as [|y l IH]; cbn.
  - split; auto.
  - destruct (String.eqb_spec (key y) id) as [Heq|Hne].
    + split; [discriminate|]. intros Hf. apply Forall_cons in Hf as (Hy & _).
      contradiction.
    + rewrite IH. split; [auto|]. intros Hf. apply Forall_cons in Hf as (_ & Hf).
      exact Hf.
Qed.

(** X6.  [get_zone] and [get_gate] return the first zone (gate) of the
    venue's list that carries the id asked for, also when several carry
    it, and [None] exactly when none does. *)
Theorem venue_lookup_first (v : Venue) (id : string) :
  (forall z, get_zone v id = Some z <->
     exists l1 l2, zones v = l1 ++ z :: l2 /\ zone_id z = id /\
                   Forall (fun y => zone_id y <> id) l1) /\
  (get_zone v id = None <-> Forall (fun y => zone_id y <> id) (zones v)) /\
  (forall g, get_gate v id = Some g <->
     exists l1 l2, gates v = l1 ++ g :: l2 /\ gate_id g = id /\
                   Forall (fun y => gate_id y <> id) l1) /\
  (get_gate v id = None <-> Forall (fun y => gate_id y <> id) (gates v)).
Proof.
  unfold get_zone, get_gate. conj_split.
  - intros z. apply find_first.
  - apply find_none.
  - intros g. apply find_first.
  - apply find_none.
Qed.

End VenueLookup.

(** ** Crowd engine: a gate that leads nowhere *)

Section CrowdUnknownZones.

Context `{Clock}.

Lemma zone_densities_unknown (st : CrowdState) (zs : list (option Zone)) :
  Forall (fun z => z = None) zs -> zone_densities st zs = Ok [].
Proof.
  induction 1 as [|z zs Hz Hzs IH]; [reflexivity|]. subst z. exact IH.
Qed.

(** X7.  When the loop of [_process_gates] reaches an open gate with people
    queuing whose [connected_zones] is not empty but names no zone of the
    venue, the step raises ValueError: the density reduction takes the
    [max] of an empty sequence. *)
Theorem gate_to_unknown_zones_raises (p : SimulationParams) (venue : Venue)
    (gate : Gate) (rest : list Gate) (dt_seconds : Py.float) (st : CrowdState)
    (total_entered : Z) (gst : GateState) (a : Py.num) :
  is_open gate = true ->
  gate_states st !! gate_id gate = Some gst -> 0 < queue_length gst ->
  gate_connected_zones gate <> [] ->
  Forall (fun z => get_zone venue z = None) (gate_connected_zones gate) ->
  gate_capacity_bound gate (queue_length gst) dt_seconds = Ok a ->
  gates_loop p venue (gate :: rest) dt_seconds st total_entered = Raise ValueError.
Proof.
  intros Hopen Hg Hq Hne Hnone Ha. cbn [gates_loop].
  rewrite Hopen, Hg. cbn.
  replace (queue_length gst <=? 0) with false by (symmetry; apply Z.leb_gt; exact Hq).
  rewrite Ha. cbn.
  unfold _calculate_flow_reduction.
  destruct (gate_connected_zones gate) as [|z zs] eqn:Hzs; [contradiction|].
  rewrite <- Hzs in *. clear Hzs.
  destruct (map (get_zone venue) (gate_connected_zones gate)) as [|o os] eqn:Hm.
  - destruct (gate_connected_zones gate); [contradiction|discriminate Hm].
  - rewrite <- Hm. rewrite zone_densities_unknown; [reflexivity|].
    clear Hm Hne. induction Hnone as [|zid ids Hz Hids IH]; constructor; assumption.
Qed.

End CrowdUnknownZones.

Lemma gate_to_unknown_zones_raises_witness :
  gates_loop default_params Detour.venue [Detour.gate] Arena.minute Detour.queued 0
  = Raise ValueError.
Proof.
  assert (Ha : exists a, gate_capacity_bound Detour.gate 10 Arena.minute = Ok a)
    by (eexists; vm_compute; reflexivity).
  destruct Ha as (a & Ha).
  apply (gate_to_unknown_zones_raises default_params Detour.venue Detour.gate []
           Arena.minute Detour.queued 0 Detour.waiting a).
  - reflexivity.
  - vm_compute. reflexivity.
  - reflexivity.
  - discriminate.
  - repeat constructor.
  - exact Ha.
Defined.

(** ** Crowd engine: states that know the venue *)

Section NoKeyError.

Lemma rbind_no_key {A B : Type} (r : result A) (k : A -> result B) :
  r <> Raise KeyError -> (forall a, r = Ok a -> k a <> Raise KeyError) ->
  rbind r k <> Raise KeyError.
Proof. destruct r as [a|e]; cbn; [auto|]. intros Hr _. congruence. Qed.

Lemma of_int_no_key (z : Z) : Py.of_int z <> Raise KeyError.
Proof. unfold Py.of_int. destruct (binary_normalize _ _ _ _ _); discriminate. Qed.

Lemma to_int_no_key (x : Py.float) : Py.to_int x <> Raise KeyError.
Proof. destruct x; discriminate. Qed.

Lemma fdiv_no_key (x y : Py.float) : Py.fdiv x y <> Raise KeyError.
Proof. unfold Py.fdiv. destruct (Py.is_zero y); discriminate. Qed.

Lemma int_truediv_no_key (a b : Z) : Py.int_truediv a b <> Raise KeyError.
Proof.
  unfold Py.int_truediv. destruct (b =? 0); [discriminate|].
  destruct (Z.abs a =? 0); [discriminate|].
  destruct (binary_round _ _ _ _ _); discriminate.
Qed.

Lemma to_float_no_key (a : Py.num) : Py.to_float a <> Raise KeyError.
Proof. destruct a; [apply of_int_no_key|discriminate]. Qed.

Lemma num_to_int_no_key (a : Py.num) : Py.num_to_int a <> Raise KeyError.
Proof. destruct a; [discriminate|apply to_int_no_key]. Qed.

Lemma int_mul_float_no_key (z : Z) (x : Py.float) :
  Py.int_mul_float z x <> Raise KeyError.
Proof.
  unfold Py.int_mul_float. apply rbind_no_key; [apply of_int_no_key|discriminate].
Qed.

Lemma float_mul_int_no_key (x : Py.float) (z : Z) :
  Py.float_mul_int x z <> Raise KeyError.
Proof.
  unfold Py.float_mul_int. apply rbind_no_key; [apply of_int_no_key|discriminate].
Qed.

Lemma int_div_float_no_key (z : Z) (x : Py.float) :
  Py.int_div_float z x <> Raise KeyError.
Proof.
  unfold Py.int_div_float. apply rbind_no_key; [apply of_int_no_key|].
  intros fz _. apply fdiv_no_key.
Qed.

Lemma float_div_int_no_key (x : Py.float) (z : Z) :
  Py.float_div_int x z <> Raise KeyError.
Proof.
  unfold Py.float_div_int. destruct (z =? 0); [discriminate|].
  apply rbind_no_key; [apply of_int_no_key|]. intros fz _. apply fdiv_no_key.
Qed.

Lemma num_mul_float_no_key (a : Py.num) (x : Py.float) :
  Py.num_mul_float a x <> Raise KeyError.
Proof.
  unfold Py.num_mul_float. apply rbind_no_key; [apply to_float_no_key|discriminate].
Qed.

Lemma of_option_no_key {A : Type} (o : option A) :
  is_Some o -> of_option KeyError o <> Raise KeyError.
Proof. intros (a & ->). discriminate. Qed.

End NoKeyError.

Create HintDb nokey.

#[local] Hint Resolve of_int_no_key to_int_no_key fdiv_no_key int_truediv_no_key
  to_float_no_key num_to_int_no_key int_mul_float_no_key float_mul_int_no_key
  int_div_float_no_key float_div_int_no_key num_mul_float_no_key : nokey.

Section CrowdCoverage.

Context `{Clock}.

Lemma keeps_keys_refl (st : CrowdState) : keeps_keys st st.
Proof. split; auto. Qed.

Lemma keeps_keys_trans (st1 st2 st3 : CrowdState) :
  keeps_keys st1 st2 -> keeps_keys st2 st3 -> keeps_keys st1 st3.
Proof. intros (Hz12 & Hg12) (Hz23 & Hg23). split; auto. Qed.

Lemma insert_keeps {V : Type} (m : gmap string V) (k k' : string) (v : V) :
  is_Some (m !! k') -> is_Some (<[k := v]> m !! k').
Proof. intros Hk. apply lookup_insert_is_Some'. right. exact Hk. Qed.

Lemma keeps_zone_insert (st : CrowdState) (k : string) (v : ZoneState) :
  keeps_keys st (set_zone_states st (<[k := v]> (zone_states st))).
Proof. split; cbn; auto using insert_keeps. Qed.

Lemma keeps_gate_insert (st : CrowdState) (k : string) (v : GateState) :
  keeps_keys st (set_gate_states st (<[k := v]> (gate_states st))).
Proof. split; cbn; auto using insert_keeps. Qed.

Lemma keeps_set_totals (st : CrowdState) (a q i : Z) :
  keeps_keys st (set_totals st a q i).
Proof. split; cbn; auto. Qed.

Lemma distribute_arrivals_keys (gs : list Gate) (n tc : Z) (st : CrowdState) :
  Forall (fun g => is_Some (gate_states st !! gate_id g)) gs ->
  distribute_arrivals gs n tc st <> Raise KeyError /\
  (forall st', distribute_arrivals gs n tc st = Ok st' -> keeps_keys st st').
Proof.
  revert st. induction gs as [|g gs IH]; intros st Hgs; cbn [distribute_arrivals].
  - split; [discriminate|]. intros st' [= <-]. apply keeps_keys_refl.
  - apply Forall_cons in Hgs as (Hg & Hgs).
    assert (Hnext : forall gst k,
              keeps_keys st
                (set_totals
                   (set_gate_states st (<[gate_id g := gst]> (gate_states st)))
                   (total_approaching st - k) (total_queuing st + k) (total_inside st))).
    { intros gst k. split; cbn; auto using insert_keeps. }
    assert (Hrest : forall st1, keeps_keys st st1 ->
              Forall (fun g0 => is_Some (gate_states st1 !! gate_id g0)) gs).
    { intros st1 (_ & Hk). eapply Forall_impl; [exact Hgs|]. cbn. auto. }
    split.
    + apply rbind_no_key; [auto with nokey|intros share _].
      apply rbind_no_key; [auto with nokey|intros x _].
      apply rbind_no_key; [auto with nokey|intros k _].
      apply rbind_no_key; [apply of_option_no_key; exact Hg|intros gst _].
      apply IH. apply Hrest. apply Hnext.
    + intros st' Hr.
      apply rbind_ok in Hr as (share & _ & Hr).
      apply rbind_ok in Hr as (x & _ & Hr).
      apply rbind_ok in Hr as (k & _ & Hr).
      apply rbind_ok in Hr as (gst & _ & Hr).
      eapply keeps_keys_trans; [apply Hnext|].
      eapply IH; [|exact Hr]. apply Hrest. apply Hnext.
Qed.

Lemma filter_Forall {A : Type} (P : A -> Prop) (f : A -> bool) (l : list A) :
  Forall P l -> Forall P (List.filter f l).
Proof.
  induction 1 as [|x l Hx Hl IH]; cbn; [constructor|].
  destruct (f x); [constructor|]; assumption.
Qed.

Lemma _process_arrivals_keys (eng : Engine) (venue : Venue) (st : CrowdState)
    (rate dt : Py.float) :
  covers venue st ->
  snd (_process_arrivals eng venue st rate dt) <> Raise KeyError /\
  (forall st', snd (_process_arrivals eng venue st rate dt) = Ok st' ->
               keeps_keys st st').
Proof.
  intros (_ & Hg). unfold _process_arrivals.
  destruct (total_approaching st <=? 0).
  { cbn. split; [discriminate|]. intros st' [= <-]. apply keeps_keys_refl. }
  pose proof (float_div_int_no_key (Py.fmul rate dt) 60) as Hx.
  destruct (Py.float_div_int _ _) as [x|e];
    [|cbn; split; [intros [= ->]; exact (Hx eq_refl)|discriminate]].
  cbn. clear Hx.
  pose proof (to_int_no_key (Py.fadd x (rng_draws eng (rng_pos eng)))) as Hn.
  destruct (Py.to_int _) as [n|e]; cbn;
    [|split; [intros [= ->]; exact (Hn eq_refl)|discriminate]].
  destruct (_ <=? 0).
  { split; [discriminate|]. intros st' [= <-]. apply keeps_keys_refl. }
  destruct (List.filter _ (gates venue)) as [|g gs] eqn:Hf.
  { split; [discriminate|]. intros st' [= <-]. apply keeps_keys_refl. }
  rewrite <- Hf. apply distribute_arrivals_keys. apply filter_Forall. exact Hg.
Qed.

Local Abbreviation known st :=
  (fun o : option Zone =>
     match o with
     | Some z => is_Some (zone_states st !! zone_id z)
     | None => True
     end).

Lemma get_zone_Forall (P : Zone -> Prop) (venue : Venue) (id : string) (z : Zone) :
  Forall P (zones venue) -> get_zone venue id = Some z -> P z.
Proof.
  unfold get_zone. induction 1 as [|y l Hy Hl IH]; cbn; [discriminate|].
  destruct (String.eqb (zone_id y) id); [intros [= <-]; exact Hy|exact IH].
Qed.

Lemma connected_known (venue : Venue) (st : CrowdState) (ids : list string) :
  Forall (fun z => is_Some (zone_states st !! zone_id z)) (zones venue) ->
  Forall (known st) (map (get_zone venue) ids).
Proof.
  intros Hz. induction ids as [|id ids IH]; cbn; constructor; [|exact IH].
  destruct (get_zone venue id) as [z|] eqn:Hg; [|exact I].
  exact (get_zone_Forall _ venue id z Hz Hg).
Qed.

Lemma zone_densities_no_key (st : CrowdState) (zs : list (option Zone)) :
  Forall (known st) zs -> zone_densities st zs <> Raise KeyError.
Proof.
  induction 1 as [|o zs Ho Hzs IH]; cbn [zone_densities]; [discriminate|].
  destruct o as [z|]; [|exact IH].
  apply rbind_no_key; [apply of_option_no_key; exact Ho|intros zst _].
  apply rbind_no_key; [exact IH|discriminate].
Qed.

Lemma _calculate_flow_reduction_no_key (p : SimulationParams) (st : CrowdState)
    (zs : list (option Zone)) :
  Forall (known st) zs -> _calculate_flow_reduction p st zs <> Raise KeyError.
Proof.
  intros Hzs. unfold _calculate_flow_reduction. destruct zs as [|o zs]; [discriminate|].
  apply rbind_no_key; [apply zone_densities_no_key; exact Hzs|intros ds _].
  apply rbind_no_key; [|discriminate]. destruct ds; discriminate.
Qed.

Lemma add_to_zones_keys (zs : list (option Zone)) (per_zone : Z) (st : CrowdState) :
  Forall (known st) zs ->
  add_to_zones zs per_zone st <> Raise KeyError /\
  (forall st', add_to_zones zs per_zone st = Ok st' -> keeps_keys st st').
Proof.
  revert st. induction zs as [|o zs IH]; intros st Hzs; cbn [add_to_zones].
  - split; [discriminate|]. intros st' [= <-]. apply keeps_keys_refl.
  - apply Forall_cons in Hzs as (Ho & Hzs). destruct o as [z|]; [|apply IH; exact Hzs].
    assert (Hrest : forall v,
              Forall (known (set_zone_states st (<[zone_id z := v]> (zone_states st))))
                zs).
    { intros v. eapply Forall_impl; [exact Hzs|]. intros [y|]; cbn; [|auto].
      apply insert_keeps. }
    split.
    + apply rbind_no_key; [apply of_option_no_key; exact Ho|intros zst _].
      apply IH. apply Hrest.
    + intros st' Hr. apply rbind_ok in Hr as (zst & _ & Hr).
      eapply keeps_keys_trans; [apply keeps_zone_insert|].
      eapply IH; [|exact Hr]. apply Hrest.
Qed.

Lemma gate_capacity_bound_no_key (gate : Gate) (queue : Z) (dt : Py.float) :
  gate_capacity_bound gate queue dt <> Raise KeyError.
Proof.
  unfold gate_capacity_bound.
  apply rbind_no_key; [auto with nokey|intros c _].
  apply rbind_no_key; [auto with nokey|discriminate].
Qed.

Lemma apply_reduction_no_key (a : Py.num) (r : Py.float) :
  apply_reduction a r <> Raise KeyError.
Proof.
  unfold apply_reduction. apply rbind_no_key; [auto with nokey|intros x _].
  auto with nokey.
Qed.

Lemma gates_loop_keys (p : SimulationParams) (venue : Venue) (gs : list Gate)
    (dt : Py.float) (st : CrowdState) (te : Z) :
  Forall (fun z => is_Some (zone_states st !! zone_id z)) (zones venue) ->
  Forall (fun g => is_Some (gate_states st !! gate_id g)) gs ->
  gates_loop p venue gs dt st te <> Raise KeyError /\
  (forall st' te', gates_loop p venue gs dt st te = Ok (st', te') ->
                   keeps_keys st st').
Proof.
  revert st te. induction gs as [|g gs IH]; intros st te Hz Hgs; cbn [gates_loop].
  - split; [discriminate|]. intros st' te' [= <- _]. apply keeps_keys_refl.
  - apply Forall_cons in Hgs as (Hg & Hgs).
    destruct (negb (is_open g)); [apply IH; assumption|].
    destruct Hg as (gst & Hg). rewrite Hg. cbn [of_option rbind].
    destruct (queue_length gst <=? 0); [apply IH; assumption|].
    set (connected := map (get_zone venue) (gate_connected_zones g)).
    assert (Hconn : Forall (known st) connected) by (apply connected_known; exact Hz).
    assert (Hcarry : forall st2, keeps_keys st st2 ->
              Forall (fun z => is_Some (zone_states st2 !! zone_id z)) (zones venue) /\
              Forall (fun g0 => is_Some (gate_states st2 !! gate_id g0)) gs).
    { intros st2 (Hkz & Hkg). split; (eapply Forall_impl; [eassumption|]); cbn; auto. }
    assert (Hadd : forall gst' k,
              let st1 := set_gate_states st (<[gate_id g := gst']> (gate_states st)) in
              let r :=
                match connected with
                | [] => Ok st1
                | _ :: _ => if 0 <? k
                            then add_to_zones connected (k / Z.of_nat (length connected)) st1
                            else Ok st1
                end in
              r <> Raise KeyError /\ (forall st2, r = Ok st2 -> keeps_keys st st2)).
    { intros gst' k st1 r.
      assert (H1 : keeps_keys st st1) by apply keeps_gate_insert.
      assert (Hok : Ok st1 <> Raise KeyError /\
                    (forall st2, Ok st1 = Ok st2 -> keeps_keys st st2)).
      { split; [discriminate|]. intros st2 [= <-]. exact H1. }
      subst r. destruct connected as [|o os] eqn:Hc; [exact Hok|].
      destruct (0 <? k); [|exact Hok].
      destruct (add_to_zones_keys (o :: os) (k / Z.of_nat (length (o :: os))) st1)
        as (Hn & Hk).
      { eapply Forall_impl; [exact Hconn|]. intros [y|]; cbn; auto. }
      split; [exact Hn|]. intros st2 Hr. eapply keeps_keys_trans; [exact H1|auto]. }
    split.
    + apply rbind_no_key; [apply gate_capacity_bound_no_key|intros a0 _].
      apply rbind_no_key; [apply _calculate_flow_reduction_no_key; exact Hconn|].
      intros red _.
      apply rbind_no_key; [apply apply_reduction_no_key|intros k _].
      apply rbind_no_key; [auto with nokey|intros rate _].
      apply rbind_no_key.
      { destruct (0 <? capacity_per_minute g); [|discriminate].
        apply rbind_no_key; [auto with nokey|discriminate]. }
      intros wait _.
      apply rbind_no_key; [apply Hadd|intros st2 H2].
      apply Hadd in H2. destruct (Hcarry st2 H2) as (Hz2 & Hg2).
      apply IH; cbn; assumption.
    + intros st' te' Hr.
      apply rbind_ok in Hr as (a0 & _ & Hr).
      apply rbind_ok in Hr as (red & _ & Hr).
      apply rbind_ok in Hr as (k & _ & Hr).
      apply rbind_ok in Hr as (rate & _ & Hr).
      apply rbind_ok in Hr as (wait & _ & Hr).
      apply rbind_ok in Hr as (st2 & H2 & Hr).
      apply Hadd in H2. destruct (Hcarry st2 H2) as (Hz2 & Hg2).
      eapply keeps_keys_trans; [exact H2|].
      eapply keeps_keys_trans; [apply keeps_set_totals|].
      eapply IH; [| |exact Hr]; cbn; assumption.
Qed.

Lemma _process_gates_keys (p : SimulationParams) (venue : Venue) (st : CrowdState)
    (dt : Py.float) :
  covers venue st ->
  _process_gates p venue st dt <> Raise KeyError /\
  (forall st', _process_gates p venue st dt = Ok st' -> keeps_keys st st').
Proof.
  intros (Hz & Hg). unfold _process_gates.
  destruct (gates_loop_keys p venue (gates venue) dt st 0 Hz Hg) as (Hn & Hk).
  split.
  - apply rbind_no_key; [exact Hn|intros [st1 te] _].
    apply rbind_no_key; [auto with nokey|discriminate].
  - intros st' Hr. apply rbind_ok in Hr as ([st1 te] & H1 & Hr).
    apply rbind_ok in Hr as (r & _ & Hr). injection Hr as <-.
    apply Hk in H1. destruct H1 as (Hkz & Hkg). split; cbn; auto.
Qed.

Lemma flow_to_targets_keys (p : SimulationParams) (src : string) (red dt : Py.float)
    (k : Z) (ts : list Zone) (st : CrowdState) :
  is_Some (zone_states st !! src) ->
  Forall (fun z => is_Some (zone_states st !! zone_id z)) ts ->
  flow_to_targets p src red dt k ts st <> Raise KeyError /\
  (forall st', flow_to_targets p src red dt k ts st = Ok st' -> keeps_keys st st').
Proof.
  revert st. induction ts as [|t ts IH]; intros st Hsrc Hts; cbn [flow_to_targets].
  - split; [discriminate|]. intros st' [= <-]. apply keeps_keys_refl.
  - apply Forall_cons in Hts as (Ht & Hts).
    destruct Ht as (tst & Ht). rewrite Ht. cbn [of_option rbind].
    destruct (_ <=? 0); [apply IH; assumption|].
    destruct Hsrc as (zst & Hsrc). rewrite Hsrc. cbn [of_option rbind].
    assert (Hmove : forall v,
              let zs1 := <[src := v]> (zone_states st) in
              is_Some (zs1 !! zone_id t) /\
              forall w,
                let st2 := set_zone_states st (<[zone_id t := w]> zs1) in
                keeps_keys st st2 /\ is_Some (zone_states st2 !! src) /\
                Forall (fun z => is_Some (zone_states st2 !! zone_id z)) ts).
    { intros v zs1. split; [apply insert_keeps; eauto|]. intros w st2.
      assert (Hk : keeps_keys st st2).
      { split; cbn; auto. intros k0 Hk0. do 2 apply insert_keeps. exact Hk0. }
      split; [exact Hk|]. destruct Hk as (Hk & _). split; [apply Hk; eauto|].
      eapply Forall_impl; [exact Hts|]. cbn. auto. }
    split.
    + apply rbind_no_key; [auto with nokey|intros base _].
      apply rbind_no_key; [auto with nokey|intros a1 _].
      apply rbind_no_key; [auto with nokey|intros a _].
      apply rbind_no_key; [auto with nokey|intros b _].
      apply rbind_no_key; [auto with nokey|intros flow _].
      destruct (0 <? flow); [|apply IH; eauto].
      destruct (Hmove (zs_set_occupancy zst (current_occupancy zst - flow)))
        as (Hpresent & Hnext).
      apply rbind_no_key; [apply of_option_no_key; exact Hpresent|intros tst' _].
      destruct (Hnext (zs_set_occupancy tst' (current_occupancy tst' + flow)))
        as (_ & Hs2 & Ht2).
      apply IH; assumption.
    + intros st' Hr.
      apply rbind_ok in Hr as (base & _ & Hr).
      apply rbind_ok in Hr as (a1 & _ & Hr).
      apply rbind_ok in Hr as (a & _ & Hr).
      apply rbind_ok in Hr as (b & _ & Hr).
      apply rbind_ok in Hr as (flow & _ & Hr).
      destruct (0 <? flow); [|eapply IH; [| |exact Hr]; eauto].
      apply rbind_ok in Hr as (tst' & _ & Hr).
      destruct (Hmove (zs_set_occupancy zst (current_occupancy zst - flow)))
        as (_ & Hnext).
      destruct (Hnext (zs_set_occupancy tst' (current_occupancy tst' + flow)))
        as (Hk & Hs2 & Ht2).
      eapply keeps_keys_trans; [exact Hk|]. eapply IH; [| |exact Hr]; assumption.
Qed.

Lemma connected_of_known (venue : Venue) (st : CrowdState) (zone : Zone) :
  Forall (fun z => is_Some (zone_states st !! zone_id z)) (zones venue) ->
  Forall (fun z => is_Some (zone_states st !! zone_id z)) (connected_of venue zone).
Proof.
  intros Hz. unfold connected_of.
  induction (connected_zones zone) as [|id ids IH]; cbn; [constructor|].
  destruct (get_zone venue id) as [z|] eqn:Hg; [|exact IH].
  constructor; [|exact IH]. exact (get_zone_Forall _ venue id z Hz Hg).
Qed.

Lemma zones_flow_loop_keys (p : SimulationParams) (venue : Venue) (zs : list Zone)
    (dt : Py.float) (st : CrowdState) :
  Forall (fun z => is_Some (zone_states st !! zone_id z)) (zones venue) ->
  Forall (fun z => is_Some (zone_states st !! zone_id z)) zs ->
  zones_flow_loop p venue zs dt st <> Raise KeyError /\
  (forall st', zones_flow_loop p venue zs dt st = Ok st' -> keeps_keys st st').
Proof.
  revert st. induction zs as [|z zs IH]; intros st Hv Hzs; cbn [zones_flow_loop].
  - split; [discriminate|]. intros st' [= <-]. apply keeps_keys_refl.
  - apply Forall_cons in Hzs as (Hz & Hzs).
    pose proof Hz as (zst & Hzst). rewrite Hzst. cbn [of_option rbind].
    destruct (_ <=? 0); [apply IH; assumption|].
    destruct (flow_to_targets_keys p (zone_id z)
                (_get_density_reduction p (density zst)) dt
                (Z.of_nat (length (connected_of venue z))) (connected_of venue z) st Hz
                (connected_of_known venue st z Hv)) as (Hn & Hk).
    assert (Hcarry : forall st1, keeps_keys st st1 ->
              Forall (fun y => is_Some (zone_states st1 !! zone_id y)) (zones venue) /\
              Forall (fun y => is_Some (zone_states st1 !! zone_id y)) zs).
    { intros st1 (Hkz & _). split; (eapply Forall_impl; [eassumption|]); cbn; auto. }
    split.
    + apply rbind_no_key; [exact Hn|intros st1 H1].
      destruct (Hcarry st1 (Hk st1 H1)). apply IH; assumption.
    + intros st' Hr. apply rbind_ok in Hr as (st1 & H1 & Hr).
      destruct (Hcarry st1 (Hk st1 H1)).
      eapply keeps_keys_trans; [exact (Hk st1 H1)|]. eapply IH; [| |exact Hr]; assumption.
Qed.

Lemma densities_loop_keys (p : SimulationParams) (zs : list Zone) (st : CrowdState) :
  Forall (fun z => is_Some (zone_states st !! zone_id z)) zs ->
  densities_loop p zs st <> Raise KeyError /\
  (forall st', densities_loop p zs st = Ok st' -> keeps_keys st st').
Proof.
  revert st. induction zs as [|z zs IH]; intros st Hzs; cbn [densities_loop].
  - split; [discriminate|]. intros st' [= <-]. apply keeps_keys_refl.
  - apply Forall_cons in Hzs as (Hz & Hzs).
    destruct Hz as (zst & Hz). rewrite Hz. cbn [of_option rbind].
    assert (Hrest : forall v,
              Forall (fun y => is_Some (zone_states
                        (set_zone_states st (<[zone_id z := v]> (zone_states st)))
                        !! zone_id y)) zs).
    { intros v. eapply Forall_impl; [exact Hzs|]. cbn. intros y. apply insert_keeps. }
    split.
    + apply rbind_no_key; [auto with nokey|intros d _]. apply IH. apply Hrest.
    + intros st' Hr. apply rbind_ok in Hr as (d & _ & Hr).
      eapply keeps_keys_trans; [apply keeps_zone_insert|].
      eapply IH; [|exact Hr]. apply Hrest.
Qed.

Lemma covers_keeps (venue : Venue) (st st' : CrowdState) :
  covers venue st -> keeps_keys st st' -> covers venue st'.
Proof.
  intros (Hz & Hg) (Hkz & Hkg).
  split; (eapply Forall_impl; [eassumption|]); cbn; auto.
Qed.

Lemma initialize_state_covers (venue : Venue) (ev : string) (n : Z) (t : datetime) :
  covers venue (initialize_state venue ev n t).
Proof.
  unfold covers, initialize_state. cbn. split.
  - generalize (∅ : gmap string ZoneState).
    induction (zones venue) as [|z zs IH]; intros m; cbn; constructor.
    + clear IH. generalize (insert_keeps m (zone_id z) (zone_id z)).
      assert (Hz : forall m0 : gmap string ZoneState,
                is_Some (m0 !! zone_id z) ->
                is_Some (fold_left (fun m1 z0 =>
                  <[zone_id z0 := {| zs_zone_id := zone_id z0; current_occupancy := 0;
                                     density := Py.f0; inflow_rate := Py.f0;
                                     outflow_rate := Py.f0; risk_level := "safe" |}]> m1)
                  zs m0 !! zone_id z)).
      { induction zs as [|y ys IHy]; intros m0 Hm0; cbn; [exact Hm0|].
        apply IHy. apply insert_keeps. exact Hm0. }
      intros _. apply Hz. rewrite lookup_insert_eq. eauto.
    + apply IH.
  - generalize (∅ : gmap string GateState).
    induction (gates venue) as [|g gs IH]; intros m; cbn; constructor.
    + clear IH.
      assert (Hg : forall m0 : gmap string GateState,
                is_Some (m0 !! gate_id g) ->
                is_Some (fold_left (fun m1 g0 =>
                  <[gate_id g0 := {| gs_gate_id := gate_id g0; queue_length := 0;
                                     throughput_rate := Py.f0;
                                     wait_time_minutes := Py.F Py.f0;
                                     is_congested := false |}]> m1)
                  gs m0 !! gate_id g)).
      { induction gs as [|y ys IHy]; intros m0 Hm0; cbn; [exact Hm0|].
        apply IHy. apply insert_keeps. exact Hm0. }
      apply Hg. rewrite lookup_insert_eq. eauto.
    + apply IH.
Qed.

(** X8.  A state that has an entry for every zone and gate of the venue,
    as [initialize_state] builds it, never makes [simulate_timestep] raise
    KeyError (unless the runtime's date arithmetic raised it), and the
    state a step returns has these entries again: stepping can go on. *)
Theorem covering_state_has_every_key (eng : Engine) (venue : Venue) (st : CrowdState)
    (dt_seconds arrival_rate : Py.float) (ev : string) (n : Z) (t : datetime) :
  covers venue (initialize_state venue ev n t) /\
  (covers venue st ->
   add_seconds (timestamp st) dt_seconds <> Raise KeyError ->
   snd (simulate_timestep eng venue st dt_seconds arrival_rate) <> Raise KeyError /\
   forall st', snd (simulate_timestep eng venue st dt_seconds arrival_rate) = Ok st' ->
               covers venue st').
Proof.
  split; [apply initialize_state_covers|]. intros Hc Hclock.
  unfold simulate_timestep.
  destruct (rbind (add_seconds _ _) _) as [st0|e] eqn:H0.
  2:{ cbn. split; [|discriminate]. intros [= ->].
      destruct (add_seconds (timestamp st) dt_seconds) as [t1|e1]; cbn in H0.
      - pose proof (float_div_int_no_key dt_seconds 60) as Hm.
        destruct (Py.float_div_int dt_seconds 60); cbn in H0; [discriminate H0|].
        injection H0 as ->. exact (Hm eq_refl).
      - injection H0 as ->. exact (Hclock eq_refl). }
  apply rbind_ok in H0 as (t1 & _ & H0). apply rbind_ok in H0 as (m & _ & H0).
  injection H0 as <-.
  assert (Hc0 : covers venue (set_clock st t1 (Py.fadd (simulation_time_minutes st) m)))
    by exact Hc.
  destruct (_process_arrivals_keys eng venue _ arrival_rate dt_seconds Hc0) as (Hn1 & Hk1).
  destruct (_process_arrivals _ _ _ _ _) as [eng1 r1]. cbn in Hn1, Hk1 |- *.
  assert (Hrest : forall st1, r1 = Ok st1 ->
            let r := (let* st2 := _process_gates (params eng) venue st1 dt_seconds in
                      let* st3 := _process_zone_flow (params eng) venue st2 dt_seconds in
                      _update_densities (params eng) venue st3) in
            r <> Raise KeyError /\ forall st', r = Ok st' -> covers venue st').
  { intros st1 H1 r. subst r.
    pose proof (covers_keeps _ _ _ Hc0 (Hk1 st1 H1)) as Hc1.
    destruct (_process_gates_keys (params eng) venue st1 dt_seconds Hc1) as (Hn2 & Hk2).
    assert (H3 : forall st2, _process_gates (params eng) venue st1 dt_seconds = Ok st2 ->
              covers venue st2) by (intros; eapply covers_keeps; eauto).
    assert (H4 : forall st2, covers venue st2 ->
              _process_zone_flow (params eng) venue st2 dt_seconds <> Raise KeyError /\
              forall st3, _process_zone_flow (params eng) venue st2 dt_seconds = Ok st3 ->
                          covers venue st3).
    { intros st2 Hc2. pose proof Hc2 as (Hz2 & _).
      destruct (zones_flow_loop_keys (params eng) venue (zones venue) dt_seconds st2
                  Hz2 Hz2) as (Hn & Hk).
      split; [exact Hn|]. intros st3 Hr. eapply covers_keeps; eauto. }
    assert (H5 : forall st3, covers venue st3 ->
              _update_densities (params eng) venue st3 <> Raise KeyError /\
              forall st', _update_densities (params eng) venue st3 = Ok st' ->
                          covers venue st').
    { intros st3 Hc3. pose proof Hc3 as (Hz3 & _).
      destruct (densities_loop_keys (params eng) (zones venue) st3 Hz3) as (Hn & Hk).
      split; [exact Hn|]. intros st' Hr. eapply covers_keeps; eauto. }
    split.
    - apply rbind_no_key; [exact Hn2|intros st2 Hr2].
      apply rbind_no_key; [apply H4; auto|intros st3 Hr3].
      apply H5. exact (proj2 (H4 st2 (H3 st2 Hr2)) st3 Hr3).
    - intros st' Hr. apply rbind_ok in Hr as (st2 & Hr2 & Hr).
      apply rbind_ok in Hr as (st3 & Hr3 & Hr).
      apply (proj2 (H5 st3 (proj2 (H4 st2 (H3 st2 Hr2)) st3 Hr3)) st' Hr). }
  destruct r1 as [st1|e]; cbn.
  - apply Hrest. reflexivity.
  - split; [exact Hn1|discriminate].
Qed.

End CrowdCoverage.

Lemma covering_state_has_every_key_witness :
  snd (simulate_timestep Arena.engine Arena.venue Arena.opening Arena.minute
         (Py.lit 300 1)) <> Raise KeyError.
Proof.
  destruct (covering_state_has_every_key Arena.engine Arena.venue Arena.opening
              Arena.minute (Py.lit 300 1) "concert" 1000 t0) as (Hc & Hs).
  apply Hs; [exact Hc|discriminate].
Defined.

(** ** Crowd engine: the densities a step leaves *)

Section CrowdDensities.

Context `{Clock}.

Lemma densities_loop_spec (p : SimulationParams) (zs : list Zone) (st st' : CrowdState) :
  NoDup (map zone_id zs) -> densities_loop p zs st = Ok st' ->
  Forall (fun z => exists zst,
            zone_states st' !! zone_id z = Some zst /\
            Py.int_div_float (current_occupancy zst) (area_sqm z) = Ok (density zst) /\
            risk_level zst = _get_risk_level p (density zst)) zs /\
  (forall k, k ∉ map zone_id zs -> zone_states st' !! k = zone_states st !! k).
Proof.
  revert st. induction zs as [|z zs IH]; intros st Hnd Hr; cbn in Hr.
  - injection Hr as <-. split; [constructor|reflexivity].
  - cbn [map] in Hnd. apply NoDup_cons in Hnd as (Hz & Hnd).
    apply rbind_ok in Hr as (zst & Hzst & Hr). apply of_option_ok in Hzst.
    apply rbind_ok in Hr as (d & Hd & Hr).
    destruct (IH _ Hnd Hr) as (Hall & Hother). cbn in Hother. split.
    + constructor; [|exact Hall].
      exists (zs_set_density zst d (_get_risk_level p d)).
      rewrite (Hother _ Hz), lookup_insert_eq. cbn. auto.
    + intros k Hk. cbn [map] in Hk. apply not_elem_of_cons in Hk as (Hne & Hk).
      rewrite (Hother k Hk). apply lookup_insert_ne. congruence.
Qed.

(** X9.  In the state a step returns, for a venue whose zone ids are
    distinct, every zone's density is its occupancy divided by the zone's
    area, and its risk label is the one [_get_risk_level] gives for that
    density. *)
Theorem densities_follow_occupancy (eng : Engine) (venue : Venue) (st st' : CrowdState)
    (dt_seconds arrival_rate : Py.float) :
  NoDup (map zone_id (zones venue)) ->
  snd (simulate_timestep eng venue st dt_seconds arrival_rate) = Ok st' ->
  Forall (fun z => exists zst,
            zone_states st' !! zone_id z = Some zst /\
            Py.int_div_float (current_occupancy zst) (area_sqm z) = Ok (density zst) /\
            risk_level zst = _get_risk_level (params eng) (density zst))
    (zones venue).
Proof.
  intros Hnd. unfold simulate_timestep.
  destruct (rbind (add_seconds _ _) _) as [st0|e]; [|discriminate].
  destruct (_process_arrivals _ _ _ _ _) as [eng1 r1]. cbn. intros Hr.
  apply rbind_ok in Hr as (st1 & _ & Hr).
  apply rbind_ok in Hr as (st2 & _ & Hr).
  apply rbind_ok in Hr as (st3 & _ & Hr).
  apply (densities_loop_spec _ _ _ _ Hnd Hr).
Qed.

End CrowdDensities.

Lemma densities_follow_occupancy_witness :
  exists st',
    snd (simulate_timestep Arena.engine Arena.venue Arena.opening Arena.minute
           (Py.lit 300 1)) = Ok st' /\
    Forall (fun z => exists zst,
              zone_states st' !! zone_id z = Some zst /\
              Py.int_div_float (current_occupancy zst) (area_sqm z)
              = Ok (density zst) /\
              risk_level zst = _get_risk_level default_params (density zst))
      (zones Arena.venue).
Proof.
  assert (Hr : exists st',
            snd (simulate_timestep Arena.engine Arena.venue Arena.opening Arena.minute
                   (Py.lit 300 1)) = Ok st') by (eexists; vm_compute; reflexivity).
  destruct Hr as (st' & Hr). exists st'. split; [exact Hr|].
  apply (densities_follow_occupancy Arena.engine Arena.venue Arena.opening st'
           Arena.minute (Py.lit 300 1)); [|exact Hr].
  cbn. apply NoDup_cons. split; [apply not_elem_of_nil|apply NoDup_nil_2].
Defined.

(** ** Crowd engine: diffusion and the capacity of the zones *)

Section CrowdCapacity.

Context `{Clock}.

(** [int(x)] for a float [x] that the integer [z] is not below. *)
Lemma to_int_le_int (f : Py.float) (z n : Z) :
  Py.num_lt (Py.I z) (Py.F f) = false -> Py.to_int f = Ok n -> n <= z.
Proof.
  unfold Py.num_lt, Py.num_cmp, Py.cmp_int, Py.to_int.
  destruct f as [s|s| |s m e]; try discriminate.
  - cbn [option_map]. intros Hc [= <-].
    destruct (Z.compare_spec 0 z); cbn in Hc; first [lia|discriminate Hc].
  - intros Hc [= <-].
    assert (Hp : forall p, 0 < 2 ^ Z.pos p) by (intros p; apply Z.pow_pos_nonneg; lia).
    unfold Py.trunc_mag. destruct e as [|p|p]; cbn [option_map] in Hc.
    + destruct (Z.compare_spec ((if s then Z.neg m else Z.pos m) * 2 ^ 0) z) as [Hq|Hq|Hq];
        cbn in Hc; try discriminate Hc; destruct s; lia.
    + destruct (Z.compare_spec ((if s then Z.neg m else Z.pos m) * 2 ^ Z.pos p) z)
        as [Hq|Hq|Hq]; cbn in Hc; try discriminate Hc; destruct s; lia.
    + specialize (Hp p).
      assert (Hle : (if s then Z.neg m else Z.pos m) <= z * 2 ^ Z.pos p).
      { destruct (Z.compare_spec (if s then Z.neg m else Z.pos m) (z * 2 ^ Z.pos p));
          cbn in Hc; try discriminate Hc; lia. }
      clear Hc. destruct s.
      * destruct (Z_le_gt_dec 0 z) as [Hz|Hz].
        -- pose proof (Z.div_pos (Z.pos m) (2 ^ Z.pos p)). lia.
        -- assert (- z <= Z.pos m / 2 ^ Z.pos p); [|lia].
           apply Z.div_le_lower_bound; lia.
      * apply Z.div_le_upper_bound; lia.
Qed.

(** [int(min(x, z))] for an integer [z] is at most [z]. *)
Lemma min_with_int_le (x : Py.num) (z n : Z) :
  Py.num_to_int (Py.min2 x (Py.I z)) = Ok n -> n <= z.
Proof.
  unfold Py.min2. destruct (Py.num_lt (Py.I z) x) eqn:Hlt.
  - intros [= <-]. lia.
  - destruct x as [y|f]; cbn [Py.num_to_int].
    + intros [= <-]. unfold Py.num_lt, Py.num_cmp in Hlt.
      destruct (Z.compare_spec z y); try discriminate Hlt; lia.
    + apply to_int_le_int. exact Hlt.
Qed.

Lemma get_zone_id (venue : Venue) (id : string) (z : Zone) :
  get_zone venue id = Some z -> zone_id z = id.
Proof.
  unfold get_zone. intros Hf. apply find_some in Hf as (_ & Hf).
  apply String.eqb_eq. exact Hf.
Qed.

Lemma connected_of_canonical (venue : Venue) (zone : Zone) :
  Forall (fun t => get_zone venue (zone_id t) = Some t) (connected_of venue zone).
Proof.
  unfold connected_of. induction (connected_zones zone) as [|id ids IH]; cbn;
    [constructor|].
  destruct (get_zone venue id) as [z|] eqn:Hg; [|exact IH].
  constructor; [|exact IH]. rewrite (get_zone_id _ _ _ Hg). exact Hg.
Qed.

Lemma flow_to_targets_bounds (p : SimulationParams) (venue : Venue) (b : string -> Z)
    (src : string) (red dt : Py.float) (k : Z) (ts : list Zone) (st st' : CrowdState) :
  Forall (fun t => get_zone venue (zone_id t) = Some t) ts ->
  within_bounds venue b st ->
  flow_to_targets p src red dt k ts st = Ok st' ->
  within_bounds venue b st'.
Proof.
  revert st. induction ts as [|t ts IH]; intros st Hts Hb Hr; cbn in Hr.
  - injection Hr as <-. exact Hb.
  - apply Forall_cons in Hts as (Ht & Hts).
    apply rbind_ok in Hr as (tst & Htst & Hr). apply of_option_ok in Htst.
    destruct (_ <=? 0) eqn:Havail; [eauto|]. apply Z.leb_gt in Havail.
    apply rbind_ok in Hr as (zst & Hzst & Hr). apply of_option_ok in Hzst.
    apply rbind_ok in Hr as (base & _ & Hr).
    apply rbind_ok in Hr as (a1 & _ & Hr).
    apply rbind_ok in Hr as (a & _ & Hr).
    apply rbind_ok in Hr as (b0 & _ & Hr).
    apply rbind_ok in Hr as (flow & Hflow & Hr).
    apply min_with_int_le in Hflow.
    destruct (0 <? flow) eqn:Hpos; [|eauto]. apply Z.ltb_lt in Hpos.
    apply rbind_ok in Hr as (tst' & Htst' & Hr). apply of_option_ok in Htst'.
    apply (IH _ Hts) in Hr; [exact Hr|]. clear Hr IH.
    intros id z0 zst0 Hg H0. cbn in H0.
    destruct (decide (zone_id t = id)) as [<-|Hnt].
    + rewrite lookup_insert_eq in H0. injection H0 as <-. cbn.
      rewrite Ht in Hg. injection Hg as <-.
      destruct (decide (src = zone_id t)) as [->|Hns].
      * rewrite lookup_insert_eq in Htst'. injection Htst' as <-. cbn.
        rewrite Htst in Hzst. injection Hzst as <-.
        pose proof (Hb _ _ _ Ht Htst). lia.
      * rewrite lookup_insert_ne in Htst' by exact Hns.
        rewrite Htst in Htst'. injection Htst' as <-. lia.
    + rewrite lookup_insert_ne in H0 by exact Hnt.
      destruct (decide (src = id)) as [<-|Hns].
      * rewrite lookup_insert_eq in H0. injection H0 as <-. cbn.
        pose proof (Hb _ _ _ Hg Hzst). lia.
      * rewrite lookup_insert_ne in H0 by exact Hns. exact (Hb _ _ _ Hg H0).
Qed.

Lemma zones_flow_loop_bounds (p : SimulationParams) (venue : Venue) (b : string -> Z)
    (zs : list Zone) (dt : Py.float) (st st' : CrowdState) :
  within_bounds venue b st -> zones_flow_loop p venue zs dt st = Ok st' ->
  within_bounds venue b st'.
Proof.
  revert st. induction zs as [|z zs IH]; intros st Hb Hr; cbn in Hr.
  - injection Hr as <-. exact Hb.
  - apply rbind_ok in Hr as (zst & _ & Hr).
    destruct (_ <=? 0); [eauto|].
    apply rbind_ok in Hr as (st1 & H1 & Hr).
    apply (flow_to_targets_bounds _ venue b) in H1;
      [eauto|apply connected_of_canonical|exact Hb].
Qed.

(** X10.  The diffusion between zones never fills a zone beyond its
    capacity: after [_process_zone_flow] a zone of the venue holds at most
    as many people as its capacity, or as it held before if that was
    more. *)
Theorem zone_flow_respects_capacity (p : SimulationParams) (venue : Venue)
    (st st' : CrowdState) (dt_seconds : Py.float) (id : string) (z : Zone)
    (zst' : ZoneState) :
  _process_zone_flow p venue st dt_seconds = Ok st' ->
  get_zone venue id = Some z -> zone_states st' !! id = Some zst' ->
  current_occupancy zst' <= Z.max (occupancy_of st id) (capacity z).
Proof.
  intros Hr Hg Hz'. unfold _process_zone_flow in Hr.
  apply (zones_flow_loop_bounds _ venue (occupancy_of st)) in Hr.
  - exact (Hr id z zst' Hg Hz').
  - intros id0 z0 zst0 _ H0. unfold occupancy_of. rewrite H0. lia.
Qed.

End CrowdCapacity.

Lemma zone_flow_respects_capacity_witness :
  exists st' zst',
    _process_zone_flow default_params Plaza.venue Plaza.crowd Arena.minute = Ok st' /\
    zone_states st' !! "east" = Some zst' /\
    current_occupancy zst' <= Z.max (occupancy_of Plaza.crowd "east") 1000.
Proof.
  assert (Hr : exists st',
            _process_zone_flow default_params Plaza.venue Plaza.crowd Arena.minute
            = Ok st') by (eexists; vm_compute; reflexivity).
  destruct Hr as (st' & Hr).
  assert (Hz : exists zst', zone_states st' !! "east" = Some zst').
  { assert (Hc : option_map (fun st0 => zone_states st0 !! "east")
                   (match _process_zone_flow default_params Plaza.venue Plaza.crowd
                            Arena.minute with
                    | Ok st0 => Some st0
                    | Raise _ => None
                    end) = Some (Some (Plaza.mk_state "east" 10 Py.f0)))
      by (vm_compute; reflexivity).
    rewrite Hr in Hc. cbn in Hc. injection Hc as Hc. eauto. }
  destruct Hz as (zst' & Hz).
  exists st', zst'. split; [exact Hr|]. split; [exact Hz|].
  exact (zone_flow_respects_capacity default_params Plaza.venue Plaza.crowd st'
           Arena.minute "east" (Plaza.mk_zone "east" []) zst' Hr eq_refl Hz).
Defined.

(** ** Crowd engine: people only move forward *)

Section CrowdForward.

Context `{Clock}.

Lemma int_truediv_divisor (a b : Z) (x : Py.float) :
  Py.int_truediv a b = Ok x -> b <> 0.
Proof.
  unfold Py.int_truediv. destruct (Z.eqb_spec b 0); [discriminate|auto].
Qed.

Lemma distribute_arrivals_forward (gs : list Gate) (n tc : Z) (st st' : CrowdState) :
  0 <= n -> 0 <= tc -> Forall (fun g => 0 <= capacity_per_minute g) gs ->
  distribute_arrivals gs n tc st = Ok st' ->
  total_approaching st' <= total_approaching st /\
  total_inside st' = total_inside st /\ total_exited st' = total_exited st /\
  zone_states st' = zone_states st.
Proof.
  intros Hn Htc. revert st. induction gs as [|g gs IH]; intros st Hgs Hr; cbn in Hr.
  - injection Hr as <-. conj_split; auto; lia.
  - apply Forall_cons in Hgs as (Hg & Hgs).
    apply rbind_ok in Hr as (share & Hshare & Hr).
    apply rbind_ok in Hr as (x & Hx & Hr).
    apply rbind_ok in Hr as (k & Hk & Hr).
    apply rbind_ok in Hr as (gst & _ & Hr).
    apply (IH _ Hgs) in Hr. cbn in Hr.
    assert (0 <= k); [|conj_split; try tauto; lia].
    apply (PyFacts.to_int_nonneg x); [|exact Hk].
    unfold Py.int_mul_float in Hx. apply rbind_ok in Hx as (fn & Hfn & Hx).
    injection Hx as <-. apply PyFacts.fmul_nonneg.
    + exact (PyFacts.of_int_nonneg n fn Hn Hfn).
    + pose proof (int_truediv_divisor _ _ _ Hshare).
      eapply PyFacts.int_truediv_nonneg; [exact Hg| |exact Hshare]. lia.
Qed.

Lemma sum_Z_nonneg (l : list Z) : Forall (fun x => 0 <= x) l -> 0 <= sum_Z l.
Proof. induction 1; cbn; lia. Qed.

Lemma _process_arrivals_forward (eng : Engine) (venue : Venue) (st st' : CrowdState)
    (rate dt : Py.float) :
  Forall (fun g => 0 <= capacity_per_minute g) (gates venue) ->
  snd (_process_arrivals eng venue st rate dt) = Ok st' ->
  total_approaching st' <= total_approaching st /\
  total_inside st' = total_inside st /\ total_exited st' = total_exited st /\
  zone_states st' = zone_states st.
Proof.
  intros Hcap. unfold _process_arrivals.
  assert (Hsame : Ok st = Ok st' ->
            total_approaching st' <= total_approaching st /\
            total_inside st' = total_inside st /\ total_exited st' = total_exited st /\
            zone_states st' = zone_states st).
  { intros [= <-]. conj_split; auto; lia. }
  destruct (total_approaching st <=? 0); cbn; [exact Hsame|].
  destruct (Py.float_div_int _ _) as [x|e]; cbn; [|discriminate].
  intros Hr. apply rbind_ok in Hr as (n & _ & Hr).
  destruct (_ <=? 0) eqn:Hpos; [exact (Hsame Hr)|]. apply Z.leb_gt in Hpos.
  destruct (List.filter _ (gates venue)) as [|g gs] eqn:Hf; [exact (Hsame Hr)|].
  rewrite <- Hf in Hr.
  assert (Hopen : Forall (fun g0 => 0 <= capacity_per_minute g0)
                    (List.filter (fun g0 => is_open g0 && negb (is_emergency_exit g0))
                       (gates venue))) by (apply filter_Forall; exact Hcap).
  eapply distribute_arrivals_forward; [| | |exact Hr]; [lia| |exact Hopen].
  apply sum_Z_nonneg. clear - Hopen.
  induction Hopen; cbn; constructor; assumption.
Qed.

Lemma distribute_arrivals_exited (gs : list Gate) (n tc : Z) (st st' : CrowdState) :
  distribute_arrivals gs n tc st = Ok st' -> total_exited st' = total_exited st.
Proof.
  revert st. induction gs as [|g gs IH]; intros st Hr; cbn in Hr.
  - injection Hr as <-. reflexivity.
  - apply rbind_ok in Hr as (share & _ & Hr).
    apply rbind_ok in Hr as (x & _ & Hr).
    apply rbind_ok in Hr as (k & _ & Hr).
    apply rbind_ok in Hr as (gst & _ & Hr).
    apply IH in Hr. exact Hr.
Qed.

Lemma _process_arrivals_exited (eng : Engine) (venue : Venue) (st st' : CrowdState)
    (rate dt : Py.float) :
  snd (_process_arrivals eng venue st rate dt) = Ok st' ->
  total_exited st' = total_exited st.
Proof.
  unfold _process_arrivals.
  destruct (total_approaching st <=? 0); cbn; [intros [= <-]; reflexivity|].
  destruct (Py.float_div_int _ _) as [x|e]; cbn; [|discriminate].
  intros Hr. apply rbind_ok in Hr as (n & _ & Hr).
  destruct (_ <=? 0); [injection Hr as <-; reflexivity|].
  destruct (List.filter _ (gates venue)) as [|g gs] eqn:Hf;
    [injection Hr as <-; reflexivity|].
  eapply distribute_arrivals_exited. exact Hr.
Qed.

Lemma reduction_nonneg (p : SimulationParams) (st : CrowdState)
    (zs : list (option Zone)) (r : Py.float) :
  reductions_nonneg p -> _calculate_flow_reduction p st zs = Ok r -> Py.nonneg r.
Proof.
  intros (H1 & H2 & H3). unfold _calculate_flow_reduction.
  destruct zs as [|o zs]; [intros [= <-]; exact I|].
  intros Hr. apply rbind_ok in Hr as (ds & _ & Hr).
  apply rbind_ok in Hr as (d & _ & Hr). injection Hr as <-.
  unfold _get_density_reduction.
  destruct (Py.flt d _); [exact I|].
  destruct (Py.flt d _); [exact H1|]. destruct (Py.flt d _); assumption.
Qed.

Lemma gates_loop_forward (p : SimulationParams) (venue : Venue) (gs : list Gate)
    (dt : Py.float) (st st' : CrowdState) (te te' : Z) :
  Forall (fun g => 0 <= capacity_per_minute g) gs -> Py.nonneg dt ->
  reductions_nonneg p ->
  gates_loop p venue gs dt st te = Ok (st', te') -> te <= te'.
Proof.
  intros Hgs Hdt Hp. revert st te.
  induction Hgs as [|g gs Hg Hgs IH]; intros st te Hr; cbn in Hr.
  - injection Hr as _ <-. lia.
  - destruct (negb (is_open g)); [eauto|].
    apply rbind_ok in Hr as (gst & _ & Hr).
    destruct (queue_length gst <=? 0) eqn:Hq; [eauto|]. apply Z.leb_gt in Hq.
    apply rbind_ok in Hr as (a0 & Ha0 & Hr).
    apply rbind_ok in Hr as (red & Hred & Hr).
    apply rbind_ok in Hr as (k & Hk & Hr).
    apply rbind_ok in Hr as (rate & _ & Hr).
    apply rbind_ok in Hr as (wait & _ & Hr).
    apply rbind_ok in Hr as (st2 & _ & Hr).
    apply IH in Hr.
    assert (0 <= k); [|lia].
    unfold apply_reduction, Py.num_mul_float in Hk.
    apply rbind_ok in Hk as (x & Hx & Hk). apply rbind_ok in Hx as (fa & Hfa & Hx).
    injection Hx as <-.
    apply (PyFacts.to_int_nonneg (Py.fmul fa red)); [|exact Hk].
    apply PyFacts.fmul_nonneg.
    + exact (gate_capacity_bound_nonneg g (queue_length gst) dt a0 fa Hg Hq Hdt Ha0 Hfa).
    + exact (reduction_nonneg p st _ red Hp Hred).
Qed.

Lemma flow_to_targets_counters (p : SimulationParams) (src : string) (red dt : Py.float)
    (k : Z) (ts : list Zone) (st st' : CrowdState) :
  flow_to_targets p src red dt k ts st = Ok st' ->
  counters st' = counters st /\ gate_states st' = gate_states st.
Proof.
  revert st. induction ts as [|t ts IH]; intros st Hr; cbn in Hr.
  - injection Hr as <-. auto.
  - apply rbind_ok in Hr as (tst & _ & Hr).
    destruct (_ <=? 0); [auto|].
    apply rbind_ok in Hr as (zst & _ & Hr).
    apply rbind_ok in Hr as (base & _ & Hr).
    apply rbind_ok in Hr as (a1 & _ & Hr).
    apply rbind_ok in Hr as (a & _ & Hr).
    apply rbind_ok in Hr as (b & _ & Hr).
    apply rbind_ok in Hr as (flow & _ & Hr).
    destruct (0 <? flow); [|auto].
    apply rbind_ok in Hr as (tst' & _ & Hr).
    apply IH in Hr. exact Hr.
Qed.

Lemma zones_flow_loop_counters (p : SimulationParams) (venue : Venue) (zs : list Zone)
    (dt : Py.float) (st st' : CrowdState) :
  zones_flow_loop p venue zs dt st = Ok st' ->
  counters st' = counters st /\ gate_states st' = gate_states st.
Proof.
  revert st. induction zs as [|z zs IH]; intros st Hr; cbn in Hr.
  - injection Hr as <-. auto.
  - apply rbind_ok in Hr as (zst & _ & Hr).
    destruct (_ <=? 0); [auto|].
    apply rbind_ok in Hr as (st1 & H1 & Hr).
    apply flow_to_targets_counters in H1 as (Hc1 & Hg1).
    apply IH in Hr as (Hc & Hg). split; congruence.
Qed.

Lemma densities_loop_counters (p : SimulationParams) (zs : list Zone)
    (st st' : CrowdState) :
  densities_loop p zs st = Ok st' ->
  counters st' = counters st /\ gate_states st' = gate_states st.
Proof.
  revert st. induction zs as [|z zs IH]; intros st Hr; cbn in Hr.
  - injection Hr as <-. auto.
  - apply rbind_ok in Hr as (zst & _ & Hr).
    apply rbind_ok in Hr as (d & _ & Hr).
    apply IH in Hr. exact Hr.
Qed.

(** X11.  People only move forward.  For gates with non-negative
    capacities, a time step that is not negative and reduction factors that
    are not negative, a step that returns never raises [total_approaching]
    and never lowers [total_inside]; and in every case it leaves
    [total_exited] as it was: the engine has no flow out of the venue. *)
Theorem people_only_move_forward (eng : Engine) (venue : Venue) (st st' : CrowdState)
    (dt_seconds arrival_rate : Py.float) :
  snd (simulate_timestep eng venue st dt_seconds arrival_rate) = Ok st' ->
  total_exited st' = total_exited st /\
  (Forall (fun g => 0 <= capacity_per_minute g) (gates venue) ->
   Py.nonneg dt_seconds -> reductions_nonneg (params eng) ->
   total_approaching st' <= total_approaching st /\
   total_inside st <= total_inside st').
Proof.
  unfold simulate_timestep.
  destruct (rbind (add_seconds _ _) _) as [st0|e] eqn:H0; [|discriminate].
  apply rbind_ok in H0 as (t & _ & H0). apply rbind_ok in H0 as (m & _ & H0).
  injection H0 as <-.
  destruct (_process_arrivals _ _ _ _ _) as [eng1 r1] eqn:Ha. cbn. intros Hr.
  apply rbind_ok in Hr as (st1 & -> & Hr).
  apply rbind_ok in Hr as (st2 & H2 & Hr).
  apply rbind_ok in Hr as (st3 & H3 & Hr).
  apply (f_equal snd) in Ha. cbn [snd] in Ha.
  apply zones_flow_loop_counters in H3 as (H3 & _).
  apply densities_loop_counters in Hr as (Hr & _).
  unfold counters in H3, Hr. injection H3 as H3a H3q H3i H3e.
  injection Hr as Hra Hrq Hri Hre.
  unfold _process_gates in H2.
  apply rbind_ok in H2 as ([st1' te] & Hl & H2).
  apply rbind_ok in H2 as (r & _ & H2). injection H2 as <-. cbn in *.
  pose proof (gates_loop_totals _ _ _ _ _ _ _ _ Hl) as (Hga & Hgi & Hge & Hgq).
  split.
  - apply _process_arrivals_exited in Ha. cbn in Ha. lia.
  - intros Hcap Hdt Hp.
    apply (_process_arrivals_forward _ _ _ _ _ _ Hcap) in Ha as (Haa & Hai & _).
    apply (gates_loop_forward _ _ _ _ _ _ _ _ Hcap Hdt Hp) in Hl. cbn in Haa, Hai. lia.
Qed.

End CrowdForward.

Lemma people_only_move_forward_witness :
  exists st',
    snd (simulate_timestep Arena.engine Arena.venue Arena.opening Arena.minute
           (Py.lit 300 1)) = Ok st' /\
    total_exited st' = total_exited Arena.opening /\
    total_approaching st' <= total_approaching Arena.opening /\
    total_inside Arena.opening <= total_inside st'.
Proof.
  assert (Hr : exists st',
            snd (simulate_timestep Arena.engine Arena.venue Arena.opening Arena.minute
                   (Py.lit 300 1)) = Ok st') by (eexists; vm_compute; reflexivity).
  destruct Hr as (st' & Hr). exists st'. split; [exact Hr|].
  destruct (people_only_move_forward Arena.engine Arena.venue Arena.opening st'
              Arena.minute (Py.lit 300 1) Hr) as (He & Hf).
  split; [exact He|]. apply Hf.
  - repeat constructor. cbn. lia.
  - exact I.
  - repeat split.
Defined.

(** ** Crowd engine: the counters and what they count *)

Section Tally.

Context {A V : Type} (key : A -> string) (q : V -> Z).

Local Abbreviation tally m L :=
  (sum_Z (map (fun y : A => match m !! key y with
                            | Some v => q v
                            | None => 0
                            end) L)).

Lemma tally_insert_notin (m : gmap string V) (L : list A) (id : string) (v : V) :
  id ∉ map key L -> tally (<[id := v]> m) L = tally m L.
Proof.
  induction L as [|y L IH]; cbn [map sum_Z]; [reflexivity|].
  intros Hn. apply not_elem_of_cons in Hn as (Hne & Hn).
  rewrite lookup_insert_ne by exact Hne. rewrite (IH Hn). reflexivity.
Qed.

(** Replacing the entry of one id of a list of distinct ids changes the
    tally by the difference of the two entries. *)
Lemma tally_insert (m : gmap string V) (L : list A) (id : string) (v v0 : V) :
  NoDup (map key L) -> id ∈ map key L -> m !! id = Some v0 ->
  tally (<[id := v]> m) L = tally m L + (q v - q v0).
Proof.
  induction L as [|y L IH]; cbn [map sum_Z]; intros Hnd Hin Hm.
  - apply elem_of_nil in Hin. contradiction.
  - apply NoDup_cons in Hnd as (Hy & Hnd).
    destruct (decide (key y = id)) as [Heq|Hne].
    + rewrite Heq, lookup_insert_eq, Hm. rewrite Heq in Hy.
      rewrite (tally_insert_notin m L id v Hy). lia.
    + apply elem_of_cons in Hin as [Hin|Hin]; [congruence|].
      rewrite lookup_insert_ne by congruence. rewrite (IH Hnd Hin Hm). lia.
Qed.

Lemma tally_zero (m : gmap string V) (L : list A) :
  (forall k v, m !! k = Some v -> q v = 0) -> tally m L = 0.
Proof.
  intros Hm. induction L as [|y L IH]; cbn [map sum_Z]; [reflexivity|].
  rewrite IH. destruct (m !! key y) as [v|] eqn:Hv; [|reflexivity].
  rewrite (Hm _ _ Hv). reflexivity.
Qed.

End Tally.

Section CrowdLedgers.

Context `{Clock}.

Lemma ids_member {A : Type} (key : A -> string) (L : list A) :
  Forall (fun y => key y ∈ map key L) L.
Proof.
  induction L as [|y L IH]; cbn [map]; constructor.
  - apply elem_of_cons. left. reflexivity.
  - eapply Forall_impl; [exact IH|]. cbn. intros z Hz. apply elem_of_cons. right.
    exact Hz.
Qed.

Lemma queues_total_insert (venue : Venue) (st : CrowdState) (g : Gate)
    (gst gst' : GateState) :
  NoDup (map gate_id (gates venue)) -> gate_id g ∈ map gate_id (gates venue) ->
  gate_states st !! gate_id g = Some gst ->
  queues_total venue (set_gate_states st (<[gate_id g := gst']> (gate_states st)))
  = queues_total venue st + (queue_length gst' - queue_length gst).
Proof.
  intros Hnd Hin Hg. unfold queues_total. cbn [gate_states set_gate_states].
  exact (tally_insert gate_id queue_length (gate_states st) (gates venue) (gate_id g)
           gst' gst Hnd Hin Hg).
Qed.

Lemma distribute_arrivals_ledger (venue : Venue) (gs : list Gate) (n tc : Z)
    (st st' : CrowdState) :
  NoDup (map gate_id (gates venue)) ->
  Forall (fun g => gate_id g ∈ map gate_id (gates venue)) gs ->
  distribute_arrivals gs n tc st = Ok st' ->
  total_queuing st' - queues_total venue st' = total_queuing st - queues_total venue st.
Proof.
  intros Hnd. revert st. induction gs as [|g gs IH]; intros st Hgs Hr; cbn in Hr.
  - injection Hr as <-. reflexivity.
  - apply Forall_cons in Hgs as (Hg & Hgs).
    apply rbind_ok in Hr as (share & _ & Hr).
    apply rbind_ok in Hr as (x & _ & Hr).
    apply rbind_ok in Hr as (k & _ & Hr).
    apply rbind_ok in Hr as (gst & Hgst & Hr). apply of_option_ok in Hgst.
    apply (IH _ Hgs) in Hr. rewrite Hr. clear Hr IH.
    pose proof (queues_total_insert venue st g gst
                  (gs_set_queue gst (queue_length gst + k)) Hnd Hg Hgst) as Hq.
    cbn in Hq. unfold queues_total in *. cbn. cbn in Hq. lia.
Qed.

Lemma _process_arrivals_ledger (eng : Engine) (venue : Venue) (st st' : CrowdState)
    (rate dt : Py.float) :
  NoDup (map gate_id (gates venue)) ->
  snd (_process_arrivals eng venue st rate dt) = Ok st' ->
  total_queuing st' - queues_total venue st' = total_queuing st - queues_total venue st.
Proof.
  intros Hnd. unfold _process_arrivals.
  destruct (total_approaching st <=? 0); cbn; [intros [= <-]; reflexivity|].
  destruct (Py.float_div_int _ _) as [x|e]; cbn; [|discriminate].
  intros Hr. apply rbind_ok in Hr as (n & _ & Hr).
  destruct (_ <=? 0); [injection Hr as <-; reflexivity|].
  destruct (List.filter _ (gates venue)) as [|g gs] eqn:Hf;
    [injection Hr as <-; reflexivity|].
  rewrite <- Hf in Hr. eapply distribute_arrivals_ledger; [exact Hnd| |exact Hr].
  apply filter_Forall. apply ids_member.
Qed.

Lemma gates_loop_ledger (p : SimulationParams) (venue : Venue) (gs : list Gate)
    (dt : Py.float) (st st' : CrowdState) (te te' : Z) :
  NoDup (map gate_id (gates venue)) ->
  Forall (fun g => gate_id g ∈ map gate_id (gates venue)) gs ->
  gates_loop p venue gs dt st te = Ok (st', te') ->
  total_queuing st' - queues_total venue st' = total_queuing st - queues_total venue st.
Proof.
  intros Hnd. revert st te. induction gs as [|g gs IH]; intros st te Hgs Hr; cbn in Hr.
  - injection Hr as <- _. reflexivity.
  - apply Forall_cons in Hgs as (Hg & Hgs).
    destruct (negb (is_open g)); [eauto|].
    apply rbind_ok in Hr as (gst & Hgst & Hr). apply of_option_ok in Hgst.
    destruct (queue_length gst <=? 0); [eauto|].
    apply rbind_ok in Hr as (a0 & _ & Hr).
    apply rbind_ok in Hr as (red & _ & Hr).
    apply rbind_ok in Hr as (k & _ & Hr).
    apply rbind_ok in Hr as (rate & _ & Hr).
    apply rbind_ok in Hr as (wait & _ & Hr).
    apply rbind_ok in Hr as (st2 & H2 & Hr).
    apply (IH _ _ Hgs) in Hr. rewrite Hr. clear Hr IH.
    set (gst' := {| gs_gate_id := gs_gate_id gst; queue_length := queue_length gst - k;
                    throughput_rate := rate; wait_time_minutes := wait;
                    is_congested := Py.num_lt (Py.I 10) wait |}) in *.
    set (st1 := set_gate_states st (<[gate_id g := gst']> (gate_states st))) in *.
    assert (H21 : total_queuing st2 = total_queuing st1 /\
                  gate_states st2 = gate_states st1).
    { destruct (map (get_zone venue) (gate_connected_zones g)) as [|o os];
        [injection H2 as <-; auto|].
      destruct (0 <? k); [|injection H2 as <-; auto].
      apply add_to_zones_totals in H2. tauto. }
    destruct H21 as (Hq2 & Hg2).
    pose proof (queues_total_insert venue st g gst gst' Hnd Hg Hgst) as Hq.
    fold st1 in Hq. unfold queues_total in *. cbn [gate_states set_totals total_queuing].
    rewrite Hg2, Hq2. subst gst'. cbn in Hq |- *. lia.
Qed.

Lemma init_gates_empty (gs : list Gate) (m : gmap string GateState) :
  (forall k v, m !! k = Some v -> queue_length v = 0) ->
  forall k v,
    fold_left (fun m1 g =>
      <[gate_id g := {| gs_gate_id := gate_id g; queue_length := 0;
                        throughput_rate := Py.f0; wait_time_minutes := Py.F Py.f0;
                        is_congested := false |}]> m1) gs m !! k = Some v ->
    queue_length v = 0.
Proof.
  revert m. induction gs as [|g gs IH]; intros m Hm; cbn [fold_left]; [exact Hm|].
  apply IH. intros k v Hk. destruct (decide (gate_id g = k)) as [<-|Hne].
  - rewrite lookup_insert_eq in Hk. injection Hk as <-. reflexivity.
  - rewrite lookup_insert_ne in Hk by exact Hne. eauto.
Qed.

(** X12.  For a venue whose gate ids are distinct, a step that returns
    changes [total_queuing] by exactly as much as it changes the sum of the
    queue lengths of the venue's gates; from [initialize_state] on, where
    both are zero, [total_queuing] is that sum. *)
Theorem queuing_counts_the_queues (eng : Engine) (venue : Venue) (st st' : CrowdState)
    (dt_seconds arrival_rate : Py.float) (ev : string) (n : Z) (t : datetime) :
  (NoDup (map gate_id (gates venue)) ->
   snd (simulate_timestep eng venue st dt_seconds arrival_rate) = Ok st' ->
   total_queuing st' - queues_total venue st'
   = total_queuing st - queues_total venue st) /\
  total_queuing (initialize_state venue ev n t)
  = queues_total venue (initialize_state venue ev n t).
Proof.
  split.
  - intros Hnd. unfold simulate_timestep.
    destruct (rbind (add_seconds _ _) _) as [st0|e] eqn:H0; [|discriminate].
    apply rbind_ok in H0 as (t1 & _ & H0). apply rbind_ok in H0 as (m & _ & H0).
    injection H0 as <-.
    destruct (_process_arrivals _ _ _ _ _) as [eng1 r1] eqn:Ha. cbn. intros Hr.
    apply rbind_ok in Hr as (st1 & -> & Hr).
    apply rbind_ok in Hr as (st2 & H2 & Hr).
    apply rbind_ok in Hr as (st3 & H3 & Hr).
    apply (f_equal snd) in Ha. cbn [snd] in Ha.
    apply (_process_arrivals_ledger _ _ _ _ _ _ Hnd) in Ha.
    apply zones_flow_loop_counters in H3 as (H3 & Hg3).
    apply densities_loop_counters in Hr as (Hr & Hgr).
    unfold counters in H3, Hr. injection H3 as _ H3q _ _. injection Hr as _ Hrq _ _.
    unfold _process_gates in H2.
    apply rbind_ok in H2 as ([st1' te] & Hl & H2).
    apply rbind_ok in H2 as (r & _ & H2). injection H2 as <-.
    apply (gates_loop_ledger _ _ _ _ _ _ _ _ Hnd (ids_member gate_id (gates venue)))
      in Hl.
    unfold queues_total in *. rewrite Hgr, Hg3, Hrq, H3q. cbn in Ha, Hl |- *. lia.
  - unfold queues_total, initialize_state. cbn [total_queuing gate_states].
    symmetry. apply (tally_zero gate_id queue_length).
    apply init_gates_empty. intros k v Hk. rewrite lookup_empty in Hk. discriminate Hk.
Qed.

Local Abbreviation placed venue :=
  (fun o : option Zone =>
     match o with
     | Some z => zone_id z ∈ map zone_id (zones venue)
     | None => True
     end).

Lemma zones_total_insert (venue : Venue) (st : CrowdState) (id : string)
    (zst zst' : ZoneState) :
  NoDup (map zone_id (zones venue)) -> id ∈ map zone_id (zones venue) ->
  zone_states st !! id = Some zst ->
  zones_total venue (set_zone_states st (<[id := zst']> (zone_states st)))
  = zones_total venue st + (current_occupancy zst' - current_occupancy zst).
Proof.
  intros Hnd Hin Hz. unfold zones_total, occupancy_of.
  cbn [zone_states set_zone_states].
  exact (tally_insert zone_id current_occupancy (zone_states st) (zones venue) id
           zst' zst Hnd Hin Hz).
Qed.

Lemma get_zone_member (venue : Venue) (id : string) (z : Zone) :
  get_zone venue id = Some z -> zone_id z ∈ map zone_id (zones venue).
Proof.
  intros Hg. exact (get_zone_Forall _ venue id z (ids_member zone_id (zones venue)) Hg).
Qed.

Lemma connected_placed (venue : Venue) (ids : list string) :
  Forall (placed venue) (map (get_zone venue) ids).
Proof.
  induction ids as [|id ids IH]; cbn [map]; constructor; [|exact IH].
  destruct (get_zone venue id) as [z|] eqn:Hg; [|exact I].
  exact (get_zone_member _ _ _ Hg).
Qed.

Lemma add_to_zones_total (venue : Venue) (zs : list (option Zone)) (k : Z)
    (st st' : CrowdState) :
  NoDup (map zone_id (zones venue)) -> 0 <= k -> Forall (placed venue) zs ->
  add_to_zones zs k st = Ok st' ->
  zones_total venue st' <= zones_total venue st + k * Z.of_nat (length zs).
Proof.
  intros Hnd Hk. revert st. induction zs as [|o zs IH]; intros st Hzs Hr;
    cbn [add_to_zones] in Hr.
  - injection Hr as <-. cbn. lia.
  - apply Forall_cons in Hzs as (Ho & Hzs). cbn [length]. destruct o as [z|].
    + apply rbind_ok in Hr as (zst & Hzst & Hr). apply of_option_ok in Hzst.
      apply (IH _ Hzs) in Hr.
      rewrite (zones_total_insert venue st (zone_id z) zst _ Hnd Ho Hzst) in Hr.
      cbn in Hr. lia.
    + apply (IH _ Hzs) in Hr. lia.
Qed.

Lemma gates_loop_zones (p : SimulationParams) (venue : Venue) (gs : list Gate)
    (dt : Py.float) (st st' : CrowdState) (te te' : Z) :
  NoDup (map zone_id (zones venue)) ->
  Forall (fun g => 0 <= capacity_per_minute g) gs -> Py.nonneg dt ->
  reductions_nonneg p ->
  gates_loop p venue gs dt st te = Ok (st', te') ->
  zones_total venue st' - zones_total venue st <= te' - te.
Proof.
  intros Hnd Hgs Hdt Hp. revert st te.
  induction Hgs as [|g gs Hg Hgs IH]; intros st te Hr; cbn in Hr.
  - injection Hr as <- <-. lia.
  - destruct (negb (is_open g)); [eauto|].
    apply rbind_ok in Hr as (gst & _ & Hr).
    destruct (queue_length gst <=? 0) eqn:Hq; [eauto|]. apply Z.leb_gt in Hq.
    apply rbind_ok in Hr as (a0 & Ha0 & Hr).
    apply rbind_ok in Hr as (red & Hred & Hr).
    apply rbind_ok in Hr as (k & Hk & Hr).
    apply rbind_ok in Hr as (rate & _ & Hr).
    apply rbind_ok in Hr as (wait & _ & Hr).
    apply rbind_ok in Hr as (st2 & H2 & Hr).
    apply IH in Hr.
    assert (Hk0 : 0 <= k).
    { unfold apply_reduction, Py.num_mul_float in Hk.
      apply rbind_ok in Hk as (x & Hx & Hk). apply rbind_ok in Hx as (fa & Hfa & Hx).
      injection Hx as <-.
      apply (PyFacts.to_int_nonneg (Py.fmul fa red)); [|exact Hk].
      apply PyFacts.fmul_nonneg.
      - exact (gate_capacity_bound_nonneg g (queue_length gst) dt a0 fa Hg Hq Hdt Ha0 Hfa).
      - exact (reduction_nonneg p st _ red Hp Hred). }
    assert (H21 : zones_total venue st2 <= zones_total venue st + k).
    { pose proof (connected_placed venue (gate_connected_zones g)) as Hpl.
      destruct (map (get_zone venue) (gate_connected_zones g)) as [|o os] eqn:Hc;
        [injection H2 as <-; change (zones_total venue st <= zones_total venue st + k); lia|].
      destruct (0 <? k);
        [|injection H2 as <-; change (zones_total venue st <= zones_total venue st + k); lia].
      apply (add_to_zones_total venue _ _ _ _ Hnd) in H2; [|apply Z.div_pos; [lia|cbn [length]; lia]|exact Hpl].
      assert (Hz : zones_total venue
                     (set_gate_states st
                        (<[gate_id g := {| gs_gate_id := gs_gate_id gst;
                                           queue_length := queue_length gst - k;
                                           throughput_rate := rate;
                                           wait_time_minutes := wait;
                                           is_congested := Py.num_lt (Py.I 10) wait |}]>
                           (gate_states st)))
                   = zones_total venue st) by reflexivity.
      rewrite Hz in H2.
      pose proof (Z.mul_div_le k (Z.of_nat (length (o :: os)))) as Hdiv.
      assert (0 < Z.of_nat (length (o :: os))) by (cbn [length]; lia).
      specialize (Hdiv ltac:(lia)). lia. }
    assert (Hz2 : zones_total venue
                    (set_totals st2 (total_approaching st2) (total_queuing st2 - k)
                       (total_inside st2)) = zones_total venue st2) by reflexivity.
    rewrite Hz2 in Hr. lia.
Qed.

Lemma distribute_arrivals_zones (gs : list Gate) (n tc : Z) (st st' : CrowdState) :
  distribute_arrivals gs n tc st = Ok st' ->
  total_inside st' = total_inside st /\ zone_states st' = zone_states st.
Proof.
  revert st. induction gs as [|g gs IH]; intros st Hr; cbn in Hr.
  - injection Hr as <-. auto.
  - apply rbind_ok in Hr as (share & _ & Hr).
    apply rbind_ok in Hr as (x & _ & Hr).
    apply rbind_ok in Hr as (k & _ & Hr).
    apply rbind_ok in Hr as (gst & _ & Hr).
    apply IH in Hr. exact Hr.
Qed.

Lemma _process_arrivals_zones (eng : Engine) (venue : Venue) (st st' : CrowdState)
    (rate dt : Py.float) :
  snd (_process_arrivals eng venue st rate dt) = Ok st' ->
  total_inside st' = total_inside st /\ zone_states st' = zone_states st.
Proof.
  unfold _process_arrivals.
  destruct (total_approaching st <=? 0); cbn; [intros [= <-]; auto|].
  destruct (Py.float_div_int _ _) as [x|e]; cbn; [|discriminate].
  intros Hr. apply rbind_ok in Hr as (n & _ & Hr).
  destruct (_ <=? 0); [injection Hr as <-; auto|].
  destruct (List.filter _ (gates venue)) as [|g gs] eqn:Hf; [injection Hr as <-; auto|].
  eapply distribute_arrivals_zones. exact Hr.
Qed.

Lemma flow_to_targets_total (p : SimulationParams) (venue : Venue) (src : string)
    (red dt : Py.float) (k : Z) (ts : list Zone) (st st' : CrowdState) :
  NoDup (map zone_id (zones venue)) -> src ∈ map zone_id (zones venue) ->
  Forall (fun t => zone_id t ∈ map zone_id (zones venue)) ts ->
  flow_to_targets p src red dt k ts st = Ok st' ->
  zones_total venue st' = zones_total venue st.
Proof.
  intros Hnd Hsrc. revert st. induction ts as [|t ts IH]; intros st Hts Hr; cbn in Hr.
  - injection Hr as <-. reflexivity.
  - apply Forall_cons in Hts as (Ht & Hts).
    apply rbind_ok in Hr as (tst & _ & Hr).
    destruct (_ <=? 0); [eauto|].
    apply rbind_ok in Hr as (zst & Hzst & Hr). apply of_option_ok in Hzst.
    apply rbind_ok in Hr as (base & _ & Hr).
    apply rbind_ok in Hr as (a1 & _ & Hr).
    apply rbind_ok in Hr as (a & _ & Hr).
    apply rbind_ok in Hr as (b & _ & Hr).
    apply rbind_ok in Hr as (flow & _ & Hr).
    destruct (0 <? flow); [|eauto].
    apply rbind_ok in Hr as (tst' & Htst' & Hr). apply of_option_ok in Htst'.
    apply (IH _ Hts) in Hr. rewrite Hr. clear Hr IH.
    set (zst1 := zs_set_occupancy zst (current_occupancy zst - flow)) in *.
    set (st1 := set_zone_states st (<[src := zst1]> (zone_states st))).
    pose proof (zones_total_insert venue st src zst zst1 Hnd Hsrc Hzst) as H1.
    fold st1 in H1.
    pose proof (zones_total_insert venue st1 (zone_id t) tst'
                  (zs_set_occupancy tst' (current_occupancy tst' + flow)) Hnd Ht Htst')
      as H2.
    subst st1 zst1. unfold zones_total, occupancy_of in *.
    cbn [zone_states set_zone_states current_occupancy zs_set_occupancy] in H1, H2 |- *. lia.
Qed.

Lemma connected_of_member (venue : Venue) (zone : Zone) :
  Forall (fun t => zone_id t ∈ map zone_id (zones venue)) (connected_of venue zone).
Proof.
  unfold connected_of. induction (connected_zones zone) as [|id ids IH]; cbn;
    [constructor|].
  destruct (get_zone venue id) as [z|] eqn:Hg; [|exact IH].
  constructor; [|exact IH]. exact (get_zone_member _ _ _ Hg).
Qed.

Lemma zones_flow_loop_total (p : SimulationParams) (venue : Venue) (zs : list Zone)
    (dt : Py.float) (st st' : CrowdState) :
  NoDup (map zone_id (zones venue)) ->
  Forall (fun z => zone_id z ∈ map zone_id (zones venue)) zs ->
  zones_flow_loop p venue zs dt st = Ok st' ->
  zones_total venue st' = zones_total venue st.
Proof.
  intros Hnd. revert st. induction zs as [|z zs IH]; intros st Hzs Hr; cbn in Hr.
  - injection Hr as <-. reflexivity.
  - apply Forall_cons in Hzs as (Hz & Hzs).
    apply rbind_ok in Hr as (zst & _ & Hr).
    destruct (_ <=? 0); [eauto|].
    apply rbind_ok in Hr as (st1 & H1 & Hr).
    apply (flow_to_targets_total _ venue) in H1;
      [|exact Hnd|exact Hz|apply connected_of_member].
    apply (IH _ Hzs) in Hr. congruence.
Qed.

Lemma densities_loop_occupancy (p : SimulationParams) (zs : list Zone)
    (st st' : CrowdState) :
  densities_loop p zs st = Ok st' ->
  forall k, occupancy_of st' k = occupancy_of st k.
Proof.
  revert st. induction zs as [|z zs IH]; intros st Hr k; cbn in Hr.
  - injection Hr as <-. reflexivity.
  - apply rbind_ok in Hr as (zst & Hzst & Hr). apply of_option_ok in Hzst.
    apply rbind_ok in Hr as (d & _ & Hr).
    rewrite (IH _ Hr k). unfold occupancy_of. cbn.
    destruct (decide (zone_id z = k)) as [<-|Hne].
    + rewrite lookup_insert_eq, Hzst. reflexivity.
    + rewrite lookup_insert_ne by exact Hne. reflexivity.
Qed.

(** X13.  The zones never hold more people than [total_inside] accounts
    for.  For a venue whose zone ids are distinct, with non-negative gate
    capacities, time step and reduction factors, a step that returns never
    lowers [total_inside] minus the sum of the zone occupancies: what a
    gate admits is shared out by integer division over its connected
    zones, and the remainder is in no zone. *)
Theorem zones_never_overcount (eng : Engine) (venue : Venue) (st st' : CrowdState)
    (dt_seconds arrival_rate : Py.float) :
  NoDup (map zone_id (zones venue)) ->
  Forall (fun g => 0 <= capacity_per_minute g) (gates venue) ->
  Py.nonneg dt_seconds -> reductions_nonneg (params eng) ->
  snd (simulate_timestep eng venue st dt_seconds arrival_rate) = Ok st' ->
  total_inside st - zones_total venue st <= total_inside st' - zones_total venue st'.
Proof.
  intros Hnd Hcap Hdt Hp. unfold simulate_timestep.
  destruct (rbind (add_seconds _ _) _) as [st0|e] eqn:H0; [|discriminate].
  apply rbind_ok in H0 as (t1 & _ & H0). apply rbind_ok in H0 as (m & _ & H0).
  injection H0 as <-.
  destruct (_process_arrivals _ _ _ _ _) as [eng1 r1] eqn:Ha. cbn. intros Hr.
  apply rbind_ok in Hr as (st1 & -> & Hr).
  apply rbind_ok in Hr as (st2 & H2 & Hr).
  apply rbind_ok in Hr as (st3 & H3 & Hr).
  apply (f_equal snd) in Ha. cbn [snd] in Ha.
  apply _process_arrivals_zones in Ha as (Hai & Haz).
  pose proof (zones_flow_loop_counters _ _ _ _ _ _ H3) as (Hc3 & _).
  apply (zones_flow_loop_total _ _ _ _ _ _ Hnd (ids_member zone_id (zones venue))) in H3.
  pose proof (densities_loop_counters _ _ _ _ Hr) as (Hcr & _).
  pose proof (densities_loop_occupancy _ _ _ _ Hr) as Hor.
  unfold counters in Hc3, Hcr. injection Hc3 as _ _ Hi3 _. injection Hcr as _ _ Hir _.
  unfold _process_gates in H2.
  apply rbind_ok in H2 as ([st1' te] & Hl & H2).
  apply rbind_ok in H2 as (r & _ & H2). injection H2 as <-.
  pose proof (gates_loop_totals _ _ _ _ _ _ _ _ Hl) as (_ & Hgi & _).
  apply (gates_loop_zones _ _ _ _ _ _ _ _ Hnd Hcap Hdt Hp) in Hl.
  assert (Hzr : zones_total venue st' = zones_total venue st3).
  { unfold zones_total. f_equal. apply map_ext. intros z. apply Hor. }
  assert (Hz0 : zones_total venue st1 = zones_total venue st).
  { unfold zones_total, occupancy_of. rewrite Haz. reflexivity. }
  unfold zones_total, occupancy_of in *. cbn in *. lia.
Qed.

End CrowdLedgers.

Lemma queuing_counts_the_queues_witness :
  exists st',
    snd (simulate_timestep Arena.engine Arena.venue Arena.opening Arena.minute
           (Py.lit 300 1)) = Ok st' /\
    total_queuing st' - queues_total Arena.venue st'
    = total_queuing Arena.opening - queues_total Arena.venue Arena.opening.
Proof.
  assert (Hr : exists st',
            snd (simulate_timestep Arena.engine Arena.venue Arena.opening Arena.minute
                   (Py.lit 300 1)) = Ok st') by (eexists; vm_compute; reflexivity).
  destruct Hr as (st' & Hr). exists st'. split; [exact Hr|].
  apply (proj1 (queuing_counts_the_queues Arena.engine Arena.venue Arena.opening st'
                  Arena.minute (Py.lit 300 1) "concert" 1000 t0)); [|exact Hr].
  apply NoDup_cons. split; [apply not_elem_of_nil|apply NoDup_nil_2].
Defined.

Lemma zones_never_overcount_witness :
  exists st',
    snd (simulate_timestep Arena.engine Arena.venue Arena.opening Arena.minute
           (Py.lit 300 1)) = Ok st' /\
    total_inside Arena.opening - zones_total Arena.venue Arena.opening
    <= total_inside st' - zones_total Arena.venue st'.
Proof.
  assert (Hr : exists st',
            snd (simulate_timestep Arena.engine Arena.venue Arena.opening Arena.minute
                   (Py.lit 300 1)) = Ok st') by (eexists; vm_compute; reflexivity).
  destruct Hr as (st' & Hr). exists st'. split; [exact Hr|].
  apply (zones_never_overcount Arena.engine Arena.venue Arena.opening st'
           Arena.minute (Py.lit 300 1)).
  - apply NoDup_cons. split; [apply not_elem_of_nil|apply NoDup_nil_2].
  - repeat constructor. cbn. lia.
  - exact I.
  - repeat split.
  - exact Hr.
Defined.

(** ** Facility queues: nobody is lost *)

Section FacilityLedger.

Import Facilities.

(** [int(x)] for a float [x] below the integer [z]. *)
Lemma to_int_lt_int (f : Py.float) (z n : Z) :
  Py.num_lt (Py.F f) (Py.I z) = true -> Py.to_int f = Ok n -> n <= z.
Proof.
  unfold Py.num_lt, Py.num_cmp, Py.cmp_int, Py.to_int.
  destruct f as [s|s| |s m e]; try discriminate.
  - intros Hc [= <-].
    destruct (Z.compare_spec 0 z); first [lia|discriminate Hc].
  - intros Hc [= <-].
    assert (Hp : forall p, 0 < 2 ^ Z.pos p) by (intros p; apply Z.pow_pos_nonneg; lia).
    unfold Py.trunc_mag. destruct e as [|p|p].
    + destruct (Z.compare_spec ((if s then Z.neg m else Z.pos m) * 2 ^ 0) z) as [Hq|Hq|Hq];
        try discriminate Hc; destruct s; lia.
    + destruct (Z.compare_spec ((if s then Z.neg m else Z.pos m) * 2 ^ Z.pos p) z)
        as [Hq|Hq|Hq]; try discriminate Hc; destruct s; lia.
    + specialize (Hp p).
      assert (Hle : (if s then Z.neg m else Z.pos m) <= z * 2 ^ Z.pos p).
      { destruct (Z.compare_spec (if s then Z.neg m else Z.pos m) (z * 2 ^ Z.pos p));
          try discriminate Hc; lia. }
      clear Hc. destruct s.
      * destruct (Z_le_gt_dec 0 z) as [Hz|Hz].
        -- pose proof (Z.div_pos (Z.pos m) (2 ^ Z.pos p)). lia.
        -- assert (- z <= Z.pos m / 2 ^ Z.pos p); [|lia].
           apply Z.div_le_lower_bound; lia.
      * apply Z.div_le_upper_bound; lia.
Qed.

(** [int(min(z, x))] for an integer [z] is at most [z]. *)
Lemma min_of_int_le (x : Py.num) (z n : Z) :
  Py.num_to_int (Py.min2 (Py.I z) x) = Ok n -> n <= z.
Proof.
  unfold Py.min2. destruct (Py.num_lt x (Py.I z)) eqn:Hlt.
  - destruct x as [y|f]; cbn [Py.num_to_int].
    + intros [= <-]. unfold Py.num_lt, Py.num_cmp in Hlt.
      destruct (Z.compare_spec y z); try discriminate Hlt; lia.
    + apply to_int_lt_int. exact Hlt.
  - intros [= <-]. lia.
Qed.

(** X14.  A facility's turn that returns loses nobody: the people who
    arrived are in the queue or have been served, the [max(0, ...)] of the
    queue update never cuts anything off, the queue it leaves is not
    negative and is the one the returned state reports. *)
Theorem facility_turn_loses_nobody (f f' : Facility) (fs : FacilityState)
    (demand_mult u : Py.float) (zone_populations : dict Z) (dt_seconds : Z) :
  step_facility f demand_mult u zone_populations dt_seconds = Ok (f', fs) ->
  exists arrivals,
    arrivals_of f demand_mult u zone_populations dt_seconds = Ok arrivals /\
    current_queue f' + total_served f'
    = current_queue f + arrivals + total_served f /\
    0 <= current_queue f' /\
    fs_current_queue fs = current_queue f'.
Proof.
  unfold step_facility, arrivals_of. intros Hr.
  apply rbind_ok in Hr as (r & -> & Hr).
  apply rbind_ok in Hr as (dtm & -> & Hr).
  apply rbind_ok in Hr as (a & Ha & Hr).
  apply rbind_ok in Hr as (rate & _ & Hr).
  apply rbind_ok in Hr as (c & Hc & Hr).
  apply rbind_ok in Hr as (busy & _ & Hr).
  apply rbind_ok in Hr as (w & _ & Hr).
  apply rbind_ok in Hr as (ut & _ & Hr).
  injection Hr as <- <-. exists a. split; [exact Ha|].
  apply min_of_int_le in Hc. cbn. lia.
Qed.

End FacilityLedger.

Lemma facility_turn_loses_nobody_witness :
  exists f' fs,
    Facilities.step_facility Kiosk.food_court Py.f1 Py.f1 Kiosk.crowd 60 = Ok (f', fs) /\
    exists arrivals,
      arrivals_of Kiosk.food_court Py.f1 Py.f1 Kiosk.crowd 60 = Ok arrivals /\
      Facilities.current_queue f' + Facilities.total_served f'
      = Facilities.current_queue Kiosk.food_court + arrivals
        + Facilities.total_served Kiosk.food_court /\
      0 <= Facilities.current_queue f' /\
      Facilities.fs_current_queue fs = Facilities.current_queue f'.
Proof.
  assert (Hr : exists f' fs,
            Facilities.step_facility Kiosk.food_court Py.f1 Py.f1 Kiosk.crowd 60
            = Ok (f', fs)) by (do 2 eexists; vm_compute; reflexivity).
  destruct Hr as (f' & fs & Hr). exists f', fs. split; [exact Hr|].
  exact (facility_turn_loses_nobody Kiosk.food_court f' fs Py.f1 Py.f1 Kiosk.crowd 60 Hr).
Defined.

(** ** Facility queues: what a step touches *)

Section DictFacts.

Context {V : Type}.

Lemma dict_get_set_eq (k : string) (v : V) (d : dict V) :
  dict_get k (dict_set k v d) = Some v.
Proof.
  induction d as [|[k' v'] d IH]; cbn.
  - rewrite String.eqb_refl. reflexivity.
  - destruct (String.eqb k' k) eqn:E; cbn; rewrite E; [reflexivity|exact IH].
Qed.

Lemma dict_get_set_ne (k k' : string) (v : V) (d : dict V) :
  k <> k' -> dict_get k' (dict_set k v d) = dict_get k' d.
Proof.
  intros Hne. induction d as [|[k0 v0] d IH]; cbn.
  - destruct (String.eqb_spec k k'); [contradiction|reflexivity].
  - destruct (String.eqb_spec k0 k) as [->|Hk]; cbn.
    + destruct (String.eqb_spec k k'); [contradiction|reflexivity].
    + rewrite IH. reflexivity.
Qed.

Lemma dict_set_keys (k : string) (v : V) (d : dict V) :
  is_Some (dict_get k d) -> map fst (dict_set k v d) = map fst d.
Proof.
  induction d as [|[k0 v0] d IH]; cbn.
  - intros (x & Hx). discriminate Hx.
  - destruct (String.eqb k0 k); cbn; [reflexivity|].
    intros Hs. rewrite (IH Hs). reflexivity.
Qed.

Lemma dict_get_in (k : string) (v : V) (d : dict V) :
  NoDup (map fst d) -> (k, v) ∈ d -> dict_get k d = Some v.
Proof.
  induction d as [|[k0 v0] d IH]; cbn; intros Hnd Hin.
  - apply elem_of_nil in Hin. contradiction.
  - apply NoDup_cons in Hnd as (Hk0 & Hnd).
    apply elem_of_cons in Hin as [[= -> ->]|Hin].
    + rewrite String.eqb_refl. reflexivity.
    + destruct (String.eqb_spec k0 k) as [->|Hne]; [|exact (IH Hnd Hin)].
      exfalso. apply Hk0. apply list_elem_of_In, in_map_iff.
      exists (k, v). split; [reflexivity|]. apply list_elem_of_In. exact Hin.
Qed.

Lemma dict_get_member (k : string) (v : V) (d : dict V) :
  dict_get k d = Some v -> k ∈ map fst d.
Proof.
  induction d as [|[k0 v0] d IH]; cbn; [discriminate|].
  destruct (String.eqb_spec k0 k) as [->|Hne]; intros Hg.
  - apply elem_of_cons. left. reflexivity.
  - apply elem_of_cons. right. exact (IH Hg).
Qed.

End DictFacts.

Section FacilityFrame.

Context `{Clock}.

Import Facilities.

Local Abbreviation working sim :=
  (fun k : string => match dict_get k (facilities sim) with
                     | Some f => is_operational f
                     | None => false
                     end).

Lemma working_ext (sim sim' : FacilitySimulator) (ks : list string) :
  (forall k, k ∈ ks -> dict_get k (facilities sim') = dict_get k (facilities sim)) ->
  List.filter (working sim') ks = List.filter (working sim) ks.
Proof.
  induction ks as [|k ks IH]; intros He; cbn [List.filter]; [reflexivity|].
  rewrite (He k) by (apply elem_of_cons; left; reflexivity).
  rewrite IH by (intros k' Hk'; apply He; apply elem_of_cons; right; exact Hk').
  reflexivity.
Qed.

(** The loop of [simulate_step] over facilities of distinct keys: it
    gives each facility in service one turn, with one draw of the
    generator, and leaves everything else alone. *)
Lemma facilities_loop_spec (todo : list (string * Facility)) (demand_mult : Py.float)
    (zone_populations : dict Z) (dt_seconds : Z) (draws : nat -> Py.float) :
  forall (pos : nat) (sim : FacilitySimulator) (states : list FacilityState)
         (sim' : FacilitySimulator) (pos' : nat) (states' : list FacilityState),
  NoDup (map fst todo) ->
  facilities_loop todo demand_mult zone_populations dt_seconds draws pos sim states
  = (sim', pos', Ok states') ->
  map fst (facilities sim') = map fst (facilities sim) /\
  history sim' = history sim /\
  (forall k, k ∉ map fst todo ->
     dict_get k (facilities sim') = dict_get k (facilities sim)) /\
  (forall k f, k ∈ map fst todo -> dict_get k (facilities sim) = Some f ->
     if is_operational f
     then exists n f' fs,
            step_facility f demand_mult (draws n) zone_populations dt_seconds
            = Ok (f', fs) /\
            dict_get k (facilities sim') = Some f' /\ fs ∈ states'
     else dict_get k (facilities sim') = Some f) /\
  exists new,
    states' = states ++ new /\ pos' = (pos + length new)%nat /\
    length new = length (List.filter (working sim) (map fst todo)).
Proof.
  induction todo as [|[fid f0] todo IH]; intros pos sim states sim' pos' states' Hnd Hr;
    cbn [facilities_loop] in Hr.
  - injection Hr as <- <- <-. repeat split; try reflexivity.
    + intros k f Hk. apply elem_of_nil in Hk. contradiction.
    + exists []. rewrite app_nil_r. cbn. auto with arith.
  - cbn [map fst] in Hnd |- *. apply NoDup_cons in Hnd as (Hfid & Hnd).
    destruct (dict_get fid (facilities sim)) as [f|] eqn:Hf.
    + destruct (is_operational f) eqn:Hop; cbn [negb] in Hr.
      * destruct (step_facility f demand_mult (draws pos) zone_populations dt_seconds)
          as [[f' fs]|e] eqn:Hs; [|discriminate Hr].
        destruct (IH _ _ _ _ _ _ Hnd Hr) as (Hk & Hh & Hout & Hin & new & -> & -> & Hlen).
        cbn [facilities history] in Hk, Hh, Hout, Hin, Hlen.
        assert (Hother : forall k, k ∈ map fst todo ->
                  dict_get k (dict_set fid f' (facilities sim))
                  = dict_get k (facilities sim)).
        { intros k Hkin. apply dict_get_set_ne. intros ->. exact (Hfid Hkin). }
        split; [rewrite Hk; apply dict_set_keys; rewrite Hf; eauto|].
        split; [exact Hh|]. split; [|split].
        -- intros k Hk'. apply not_elem_of_cons in Hk' as (Hne & Hk').
           rewrite (Hout k Hk'). apply dict_get_set_ne. congruence.
        -- intros k f1 Hk' Hf1. apply elem_of_cons in Hk' as [->|Hk'].
           ++ rewrite Hf in Hf1. injection Hf1 as <-. rewrite Hop.
              exists pos, f', fs. split; [exact Hs|]. split.
              ** rewrite (Hout fid Hfid). apply dict_get_set_eq.
              ** apply elem_of_app. left. apply elem_of_app. right.
                 apply list_elem_of_singleton. reflexivity.
           ++ specialize (Hin k f1 Hk'). rewrite (Hother k Hk') in Hin.
              specialize (Hin Hf1). destruct (is_operational f1); [|exact Hin].
              destruct Hin as (n & f2 & fs2 & H1 & H2 & H3). exists n, f2, fs2.
              repeat split; [exact H1|exact H2|exact H3].
        -- exists (fs :: new). rewrite <- app_assoc. split; [reflexivity|].
           cbn [List.filter length]. rewrite Hf, Hop. cbn [length].
           split; [lia|]. rewrite Hlen. do 2 f_equal.
           apply (working_ext sim
                    {| facilities := dict_set fid f' (facilities sim);
                       history := history sim |}). exact Hother.
      * destruct (IH _ _ _ _ _ _ Hnd Hr) as (Hk & Hh & Hout & Hin & new & -> & -> & Hlen).
        split; [exact Hk|]. split; [exact Hh|]. split; [|split].
        -- intros k Hk'. apply not_elem_of_cons in Hk' as (Hne & Hk'). exact (Hout k Hk').
        -- intros k f1 Hk' Hf1. apply elem_of_cons in Hk' as [->|Hk'].
           ++ rewrite Hf in Hf1. injection Hf1 as <-. rewrite Hop.
              rewrite (Hout fid Hfid). exact Hf.
           ++ exact (Hin k f1 Hk' Hf1).
        -- exists new. split; [reflexivity|]. split; [reflexivity|].
           cbn [List.filter]. rewrite Hf, Hop. exact Hlen.
    + destruct (IH _ _ _ _ _ _ Hnd Hr) as (Hk & Hh & Hout & Hin & new & -> & -> & Hlen).
      split; [exact Hk|]. split; [exact Hh|]. split; [|split].
      * intros k Hk'. apply not_elem_of_cons in Hk' as (Hne & Hk'). exact (Hout k Hk').
      * intros k f1 Hk' Hf1. apply elem_of_cons in Hk' as [->|Hk'].
        -- rewrite Hf in Hf1. discriminate Hf1.
        -- exact (Hin k f1 Hk' Hf1).
      * exists new. split; [reflexivity|]. split; [reflexivity|].
        cbn [List.filter]. rewrite Hf. exact Hlen.
Qed.

Lemma working_in_service (D l : dict Facility) :
  (forall k f, (k, f) ∈ l -> dict_get k D = Some f) ->
  List.filter (fun k => match dict_get k D with
                        | Some f => is_operational f
                        | None => false
                        end) (map fst l)
  = in_service l.
Proof.
  unfold in_service. induction l as [|[k f] l IH]; intros Hl; cbn; [reflexivity|].
  rewrite (Hl k f) by (apply elem_of_cons; left; reflexivity).
  rewrite IH by (intros k' f' Hin; apply Hl; apply elem_of_cons; right; exact Hin).
  destruct (is_operational f); reflexivity.
Qed.

(** X15.  A step of the facility simulator over a dictionary of distinct
    keys that returns gives each facility in service exactly one turn and
    touches nothing else: one state and one draw of the generator per
    facility in service, the same keys in the same order, facilities out of
    service unchanged, and one more history entry that lists the queues of
    the returned states. *)
Theorem facility_step_touches_only_working (sim sim' : FacilitySimulator)
    (current_time : datetime) (event_phase : string) (zone_populations : dict Z)
    (dt_seconds : Z) (draws : nat -> Py.float) (pos pos' : nat)
    (states : list FacilityState) :
  NoDup (map fst (facilities sim)) ->
  simulate_step sim current_time event_phase zone_populations dt_seconds draws pos
  = (sim', pos', Ok states) ->
  length states = length (in_service (facilities sim)) /\
  pos' = (pos + length states)%nat /\
  map fst (facilities sim') = map fst (facilities sim) /\
  (forall k f, dict_get k (facilities sim) = Some f -> is_operational f = false ->
     dict_get k (facilities sim') = Some f) /\
  (forall k f, dict_get k (facilities sim) = Some f -> is_operational f = true ->
     exists n f' fs,
       step_facility f (default Py.f1 (dict_get event_phase DEMAND_MULTIPLIERS))
         (draws n) zone_populations dt_seconds = Ok (f', fs) /\
       dict_get k (facilities sim') = Some f' /\ fs ∈ states) /\
  history sim'
  = history sim
    ++ [(current_time, map (fun s => (fs_facility_id s, fs_current_queue s)) states)].
Proof.
  intros Hnd. unfold simulate_step.
  destruct (facilities_loop _ _ _ _ _ _ _ _) as [[sim1 pos1] [states1|e]] eqn:Hl;
    [|discriminate].
  intros [= <- <- <-].
  destruct (facilities_loop_spec _ _ _ _ _ _ _ _ _ _ _ Hnd Hl)
    as (Hk & Hh & Hout & Hin & new & -> & -> & Hlen).
  cbn [facilities history app] in *.
  pose proof (fun k f => dict_get_member k f (facilities sim)) as Hmem.
  split.
  { rewrite Hlen. f_equal. apply working_in_service.
    intros k f Hin'. exact (dict_get_in k f _ Hnd Hin'). }
  split; [reflexivity|]. split; [exact Hk|]. split; [|split].
  - intros k f Hg Hop. specialize (Hin k f (Hmem k f Hg) Hg). rewrite Hop in Hin.
    exact Hin.
  - intros k f Hg Hop. specialize (Hin k f (Hmem k f Hg) Hg). rewrite Hop in Hin.
    exact Hin.
  - rewrite Hh. reflexivity.
Qed.

End FacilityFrame.

Lemma facility_step_touches_only_working_witness :
  exists sim' pos' states,
    Facilities.simulate_step Kiosk.sim t0 "halftime" Kiosk.crowd 60 Scenario.one_draw 0
    = (sim', pos', Ok states) /\
    length states = length (in_service (Facilities.facilities Kiosk.sim)) /\
    pos' = (0 + length states)%nat /\
    map fst (Facilities.facilities sim') = map fst (Facilities.facilities Kiosk.sim).
Proof.
  assert (Hr : exists sim' pos' states,
            Facilities.simulate_step Kiosk.sim t0 "halftime" Kiosk.crowd 60
              Scenario.one_draw 0
            = (sim', pos', Ok states)) by (do 3 eexists; vm_compute; reflexivity).
  destruct Hr as (sim' & pos' & states & Hr). exists sim', pos', states.
  split; [exact Hr|].
  assert (Hnd : NoDup (map fst (Facilities.facilities Kiosk.sim))).
  { apply NoDup_cons. split.
    - intros Hin. apply list_elem_of_singleton in Hin. discriminate Hin.
    - apply NoDup_cons. split; [apply not_elem_of_nil|apply NoDup_nil_2]. }
  destruct (facility_step_touches_only_working Kiosk.sim sim' t0 "halftime" Kiosk.crowd
              60 Scenario.one_draw 0 pos' states Hnd Hr) as (H1 & H2 & H3 & _).
  exact (conj H1 (conj H2 H3)).
Defined.

(** ** The arrival curve over an empty window *)

Section CurveEmptyWindow.

Context `{Clock}.

Variable truncnorm_pdf :
  Py.float -> Py.float -> Py.float -> Py.float -> Py.float -> Py.float.
Variable np_sum : list Py.float -> Py.float.
Variable total_seconds_between : datetime -> datetime -> Py.float.

Import ArrivalCurve.

Lemma ok_inj {A : Type} (a b : A) : Ok a = Ok b -> a = b.
Proof. intros [= ->]. reflexivity. Qed.

Lemma zero_window_minutes (s : bool) :
  Py.float_div_int (S754_zero s) 60 = Ok (S754_zero s) /\
  arange0 (Py.fadd (S754_zero s) Py.f1) = Ok [Py.f0].
Proof. destruct s; split; vm_compute; reflexivity. Qed.

Lemma single_zero_window (s : bool) (peak_frac std_frac : Py.float) :
  Py.is_zero (Py.fmul (S754_zero s) std_frac) = true ->
  single truncnorm_pdf (S754_zero s) peak_frac std_frac = Raise ZeroDivisionError.
Proof. intros Hz. unfold single, Py.fdiv. rewrite Hz. reflexivity. Qed.

(** X16.  When the gates open at the moment the event starts, the three
    single-bell patterns raise [ZeroDivisionError] (the spread of the bell
    is zero and divides the clipping bounds), while the festival pattern,
    whose spread is fixed, returns a curve with the single minute 0.0. *)
Theorem empty_window_curve (total_attendees : Z) (gates_open event_start : datetime)
    (pattern : Pattern) :
  Py.is_zero (total_seconds_between event_start gates_open) = true ->
  match pattern with
  | wave =>
      forall curve,
        generate_arrival_curve truncnorm_pdf np_sum total_seconds_between
          total_attendees gates_open event_start wave = Ok curve ->
        map fst curve = [Py.f0]
  | _ =>
      generate_arrival_curve truncnorm_pdf np_sum total_seconds_between
        total_attendees gates_open event_start pattern = Raise ZeroDivisionError
  end.
Proof.
  intros Hz. unfold generate_arrival_curve.
  destruct (total_seconds_between event_start gates_open) as [s| | |]; try discriminate Hz.
  destruct (zero_window_minutes s) as (E1 & E2).
  rewrite E1. cbn [rbind]. rewrite E2. cbn [rbind].
  destruct pattern; cbn [raw_curve rbind].
  1-3: rewrite single_zero_window; [reflexivity|destruct s; vm_compute; reflexivity].
  intros curve Hr. apply rbind_ok in Hr as (n & _ & Hr).
  apply ok_inj in Hr. rewrite <- Hr. reflexivity.
Qed.

End CurveEmptyWindow.

Lemma empty_window_curve_witness :
  ArrivalCurve.generate_arrival_curve (fun _ _ _ _ _ => Py.f1) (fun _ => Py.f1)
    (fun _ _ => Py.f0) 1000 t0 t0 ArrivalCurve.normal
  = Raise ZeroDivisionError.
Proof.
  exact (empty_window_curve (fun _ _ _ _ _ => Py.f1) (fun _ => Py.f1)
           (fun _ _ => Py.f0) 1000 t0 t0 ArrivalCurve.normal eq_refl).
Defined.

(** ** Evacuation: the recommendations at the start *)

Section EvacuationFirstAdvice.

Context `{Clock}.

Import Evacuation.

Lemma insert_desc_Forall (P : EvacuationZone -> Prop) (z : EvacuationZone)
    (l : list EvacuationZone) :
  P z -> Forall P l -> Forall P (insert_desc z l).
Proof.
  intros Hz. induction 1 as [|y r Hy Hr IH]; cbn [insert_desc].
  - repeat constructor. exact Hz.
  - destruct (current_occupancy y <? current_occupancy z); repeat constructor; auto.
Qed.

Lemma insert_desc_fullest (z : EvacuationZone) (l : list EvacuationZone) :
  fullest_first l -> fullest_first (insert_desc z l).
Proof.
  induction l as [|y r IH]; cbn [insert_desc fullest_first].
  - intros _. split; [constructor|exact I].
  - intros (Hy & Hr).
    destruct (current_occupancy y <? current_occupancy z) eqn:Hlt.
    + apply Z.ltb_lt in Hlt. cbn [fullest_first]. split; [|split; assumption].
      constructor; [lia|]. eapply Forall_impl; [exact Hy|]. cbn. intros x Hx. lia.
    + apply Z.ltb_ge in Hlt. cbn [fullest_first]. split; [|exact (IH Hr)].
      apply insert_desc_Forall; [lia|exact Hy].
Qed.

Lemma insert_desc_count (p : EvacuationZone -> bool) (z : EvacuationZone)
    (l : list EvacuationZone) :
  length (List.filter p (insert_desc z l)) = length (List.filter p (z :: l)).
Proof.
  induction l as [|y r IH]; cbn [insert_desc]; [reflexivity|].
  destruct (current_occupancy y <? current_occupancy z); [reflexivity|].
  cbn [List.filter] in IH |- *.
  destruct (p y), (p z); cbn [length] in IH |- *; lia.
Qed.

Lemma insert_desc_elem (x z : EvacuationZone) (l : list EvacuationZone) :
  x ∈ insert_desc z l -> x = z \/ x ∈ l.
Proof.
  induction l as [|y r IH]; cbn [insert_desc].
  - intros Hx. apply list_elem_of_singleton in Hx. left. exact Hx.
  - destruct (current_occupancy y <? current_occupancy z).
    + intros Hx. apply elem_of_cons in Hx. exact Hx.
    + intros Hx. apply elem_of_cons in Hx as [->|Hx].
      * right. apply elem_of_cons. left. reflexivity.
      * destruct (IH Hx) as [->|Hr]; [left; reflexivity|].
        right. apply elem_of_cons. right. exact Hr.
Qed.

(** [sorted] puts the fullest zone first and neither adds nor drops a
    zone. *)
Lemma sorted_desc_spec (p : EvacuationZone -> bool) (l : list EvacuationZone) :
  fullest_first (sorted_desc l) /\
  length (List.filter p (sorted_desc l)) = length (List.filter p l) /\
  (forall x, x ∈ sorted_desc l -> x ∈ l).
Proof.
  unfold sorted_desc.
  assert (Hg : forall acc,
            fullest_first acc ->
            fullest_first (fold_left (fun acc z => insert_desc z acc) l acc) /\
            length (List.filter p (fold_left (fun acc z => insert_desc z acc) l acc))
            = (length (List.filter p acc) + length (List.filter p l))%nat /\
            (forall x, x ∈ fold_left (fun acc z => insert_desc z acc) l acc ->
                       x ∈ acc \/ x ∈ l)).
  { induction l as [|z l IH]; intros acc Hacc; cbn [fold_left].
    - split; [exact Hacc|]. split; [cbn; lia|]. intros x Hx. left. exact Hx.
    - destruct (IH (insert_desc z acc) (insert_desc_fullest z acc Hacc))
        as (H1 & H2 & H3).
      split; [exact H1|]. split.
      + rewrite H2, insert_desc_count. cbn [List.filter].
        destruct (p z); cbn [length]; lia.
      + intros x Hx. destruct (H3 x Hx) as [Hi|Hl].
        * destruct (insert_desc_elem x z acc Hi) as [->|Ha]; [|left; exact Ha].
          right. apply elem_of_cons. left. reflexivity.
        * right. apply elem_of_cons. right. exact Hl. }
  destruct (Hg [] I) as (H1 & H2 & H3). split; [exact H1|]. split; [exact H2|].
  intros x Hx. destruct (H3 x Hx) as [Hn|Hl]; [|exact Hl].
  apply elem_of_nil in Hn. contradiction.
Qed.

(** In a list with the fullest zone first, the zones fuller than the one
    at index [j] are among the first [j]. *)
Lemma fullest_first_rank (l : list EvacuationZone) (j : nat) (z : EvacuationZone) :
  fullest_first l -> l !! j = Some z -> (fuller_than l z <= j)%nat.
Proof.
  unfold fuller_than. revert j. induction l as [|y r IH]; intros j Hs Hj;
    [discriminate Hj|].
  destruct Hs as (Hy & Hr). destruct j as [|j]; cbn in Hj.
  - injection Hj as ->. cbn [List.filter]. rewrite Z.ltb_irrefl.
    assert (Hnone : List.filter (fun y => current_occupancy z <? current_occupancy y) r
                    = []).
    { clear -Hy. induction Hy as [|x r Hx Hy IH]; cbn [List.filter]; [reflexivity|].
      destruct (Z.ltb_spec (current_occupancy z) (current_occupancy x)); [lia|exact IH]. }
    rewrite Hnone. cbn. lia.
  - specialize (IH j Hr Hj). cbn [List.filter].
    destruct (current_occupancy z <? current_occupancy y); cbn [length]; lia.
Qed.

Lemma initial_recs_spec (exs : dict EmergencyExit) (l : list EvacuationZone) :
  forall (i : Z) (r : Recommendation),
  r ∈ initial_recs exs i l ->
  exists (j : nat) (z : EvacuationZone),
    l !! j = Some z /\ rec_priority r = i + Z.of_nat j + 1 /\
    rec_target r = Some (zone_id z) /\ 0 < current_occupancy z.
Proof.
  induction l as [|y l IH]; intros i r Hr; cbn [initial_recs] in Hr.
  - apply elem_of_nil in Hr. contradiction.
  - assert (Hrest : r ∈ initial_recs exs (i + 1) l ->
              exists (j : nat) (z : EvacuationZone),
                (y :: l) !! j = Some z /\ rec_priority r = i + Z.of_nat j + 1 /\
                rec_target r = Some (zone_id z) /\ 0 < current_occupancy z).
    { intros Hin. destruct (IH _ _ Hin) as (j & z & Hj & Hp & Ht & Hz).
      exists (S j), z. cbn. repeat split; [exact Hj|lia|exact Ht|exact Hz]. }
    destruct (Z.ltb_spec 0 (current_occupancy y)) as [Hpos|Hn]; [|exact (Hrest Hr)].
    apply elem_of_cons in Hr as [->|Hr]; [|exact (Hrest Hr)].
    exists 0%nat, y. cbn. repeat split; [lia|exact Hpos].
Qed.

Lemma initial_recs_length (exs : dict EmergencyExit) (l : list EvacuationZone) (i : Z) :
  length (initial_recs exs i l)
  = length (List.filter (fun z => 0 <? current_occupancy z) l).
Proof.
  revert i. induction l as [|y l IH]; intros i; cbn [initial_recs List.filter];
    [reflexivity|].
  destruct (0 <? current_occupancy y); cbn [length]; rewrite IH; reflexivity.
Qed.

(** With the fullest zone first, the occupied zones among the first [n]
    are as many as there are occupied zones, up to [n]. *)
Lemma occupied_prefix (l : list EvacuationZone) (n : nat) :
  fullest_first l ->
  length (List.filter (fun z => 0 <? current_occupancy z) (take n l))
  = Nat.min n (length (List.filter (fun z => 0 <? current_occupancy z) l)).
Proof.
  revert n. induction l as [|y l IH]; intros n Hs.
  - rewrite take_nil. cbn. lia.
  - destruct Hs as (Hy & Hs). destruct n as [|n]; [reflexivity|].
    cbn [take List.filter]. destruct (Z.ltb_spec 0 (current_occupancy y)) as [Hp|Hn].
    + cbn [length]. rewrite (IH n Hs). lia.
    + assert (Hnone : forall m,
                List.filter (fun z => 0 <? current_occupancy z) (take m l) = []).
      { clear -Hy Hn. induction Hy as [|x r Hx Hy IH]; intros m.
        - rewrite take_nil. reflexivity.
        - destruct m as [|m]; [reflexivity|]. cbn [take List.filter].
          destruct (Z.ltb_spec 0 (current_occupancy x)); [lia|apply IH]. }
      rewrite Hnone. specialize (Hnone (length l)). rewrite firstn_all in Hnone.
      rewrite Hnone. cbn. lia.
Qed.

(** X17.  The recommendations made when an evacuation starts name the
    fullest occupied zones, fullest first: there is one for each occupied
    zone up to three, and the one of priority [i] names an occupied zone
    of the state that fewer than [i] zones exceed in occupancy. *)
Theorem first_advice_names_fullest_zones (s : EvacuationSimulator)
    (recs : list Recommendation) :
  _generate_initial_recommendations s = Ok recs ->
  exists st,
    state s = Some st /\
    length recs
    = Nat.min 3 (length (List.filter (fun z => 0 <? current_occupancy z)
                           (deref (heap s) (zones st)))) /\
    forall r, r ∈ recs ->
      exists z,
        z ∈ deref (heap s) (zones st) /\ rec_target r = Some (zone_id z) /\
        0 < current_occupancy z /\ 1 <= rec_priority r <= 3 /\
        Z.of_nat (fuller_than (deref (heap s) (zones st)) z) < rec_priority r.
Proof.
  unfold _generate_initial_recommendations.
  destruct (state s) as [st|]; [|discriminate]. intros [= <-]. exists st.
  split; [reflexivity|]. set (zs := deref (heap s) (zones st)).
  destruct (sorted_desc_spec (fun z => 0 <? current_occupancy z) zs) as (Hs & Hc & Hm).
  split.
  - rewrite initial_recs_length, (occupied_prefix _ 3 Hs), Hc. reflexivity.
  - intros r Hr. apply initial_recs_spec in Hr as (j & z & Hj & Hp & Ht & Hz).
    apply lookup_take_Some in Hj as (Hj & Hlt). exists z.
    split; [apply Hm; eapply list_elem_of_lookup_2; exact Hj|].
    split; [exact Ht|]. split; [exact Hz|]. split; [lia|].
    pose proof (fullest_first_rank _ j z Hs Hj) as Hrank.
    unfold fuller_than in Hrank |- *.
    destruct (sorted_desc_spec (fun y => current_occupancy z <? current_occupancy y) zs)
      as (_ & Hc' & _).
    rewrite Hc' in Hrank. lia.
Qed.

End EvacuationFirstAdvice.

Lemma first_advice_names_fullest_zones_witness :
  exists recs st,
    Evacuation._generate_initial_recommendations Scenario.stadium_with_state = Ok recs /\
    Evacuation.state Scenario.stadium_with_state = Some st /\
    length recs
    = Nat.min 3 (length (List.filter (fun z => 0 <? Evacuation.current_occupancy z)
                           (Evacuation.deref (Evacuation.heap Scenario.stadium_with_state)
                              (Evacuation.zones st)))).
Proof.
  assert (Hr : exists recs,
            Evacuation._generate_initial_recommendations Scenario.stadium_with_state
            = Ok recs) by (eexists; vm_compute; reflexivity).
  destruct Hr as (recs & Hr). exists recs.
  destruct (first_advice_names_fullest_zones Scenario.stadium_with_state recs Hr)
    as (st & H1 & H2 & _).
  exists st. exact (conj Hr (conj H1 H2)).
Defined.

(** ** Evacuation: the summary *)

Section EvacuationSummary.

Context `{Clock}.

Import Evacuation.

Lemma int_truediv_raises (a b : Z) (e : exn) :
  b <> 0 -> Py.int_truediv a b = Raise e -> e = OverflowError.
Proof.
  intros Hb. unfold Py.int_truediv.
  destruct (Z.eqb_spec b 0) as [Hz|_]; [contradiction|].
  destruct (Z.abs a =? 0); [discriminate|].
  destruct (binary_round _ _ _ _ _); try discriminate. intros [= <-]. reflexivity.
Qed.

Lemma times_hundred_returns (x : Py.float) :
  exists y, Py.float_mul_int x 100 = Ok y.
Proof.
  unfold Py.float_mul_int.
  destruct (Py.of_int 100) as [f|e] eqn:E; [|vm_compute in E; discriminate E].
  cbn [rbind]. eauto.
Qed.

Lemma filter_length_le {A : Type} (p q : A -> bool) (l : list A) :
  (forall x, p x = true -> q x = true) ->
  (length (List.filter p l) <= length (List.filter q l))%nat.
Proof.
  intros Hpq. induction l as [|x l IH]; cbn [List.filter]; [lia|].
  destruct (p x) eqn:Hp.
  - rewrite (Hpq x Hp). cbn [length]. lia.
  - destruct (q x); cbn [length]; lia.
Qed.

(** X18.  The summary divides only by 60 and by
    [max(total_to_evacuate, 1)]: whatever the state, it raises nothing but
    [OverflowError] (counts too large for a float), in particular no
    [ZeroDivisionError] when nobody is to be evacuated; and when it
    returns, the zones it reports as cleared are at most the zones it
    counts. *)
Theorem summary_needs_no_people (s : EvacuationSimulator) :
  (forall e, get_evacuation_summary s = Raise e -> e = OverflowError) /\
  (forall d cleared total,
     get_evacuation_summary s = Ok d ->
     dict_get "zones_cleared" d = Some (VInt cleared) ->
     dict_get "zones_total" d = Some (VInt total) ->
     0 <= cleared <= total).
Proof.
  unfold get_evacuation_summary. destruct (state s) as [st|].
  - split.
    + intros e.
      destruct (Py.int_truediv (elapsed_seconds st) 60) as [em|e1] eqn:E1; cbn [rbind];
        [|intros [= <-]; exact (int_truediv_raises _ 60 e1 ltac:(lia) E1)].
      destruct (Py.int_truediv (total_evacuated st) (Z.max (total_to_evacuate st) 1))
        as [q|e2] eqn:E2; cbn [rbind];
        [|intros [= <-]; apply (int_truediv_raises _ _ e2) in E2; [exact E2|lia]].
      destruct (times_hundred_returns q) as (pp & ->). cbn [rbind].
      destruct (Py.int_truediv (estimated_complete_time st) 60) as [rm|e3] eqn:E3;
        cbn [rbind]; [discriminate|].
      intros [= <-]. exact (int_truediv_raises _ 60 e3 ltac:(lia) E3).
    + intros d cleared total Hr.
      apply rbind_ok in Hr as (em & _ & Hr). apply rbind_ok in Hr as (q & _ & Hr).
      apply rbind_ok in Hr as (pp & _ & Hr). apply rbind_ok in Hr as (rm & _ & Hr).
      apply ok_inj in Hr. subst d. cbn. intros [= <-] [= <-].
      split; [lia|]. apply inj_le. apply filter_length_le.
      intros z Hz. apply andb_true_iff in Hz as (_ & Hz). rewrite Hz. reflexivity.
  - split; [discriminate|]. intros d cleared total [= <-]. discriminate.
Qed.

End EvacuationSummary.

Lemma summary_needs_no_people_witness :
  exists d cleared total,
    Evacuation.get_evacuation_summary Restart.started = Ok d /\
    dict_get "zones_cleared" d = Some (Evacuation.VInt cleared) /\
    dict_get "zones_total" d = Some (Evacuation.VInt total) /\
    0 <= cleared <= total.
Proof.
  assert (Hr : exists d cleared total,
            Evacuation.get_evacuation_summary Restart.started = Ok d /\
            dict_get "zones_cleared" d = Some (Evacuation.VInt cleared) /\
            dict_get "zones_total" d = Some (Evacuation.VInt total))
    by (do 3 eexists; vm_compute; repeat split).
  destruct Hr as (d & cleared & total & Hd & Hc & Ht). exists d, cleared, total.
  exact (conj Hd (conj Hc (conj Ht
           (proj2 (summary_needs_no_people Restart.started) d cleared total Hd Hc Ht)))).
Defined.

(** ** Crowd engine: no division by zero on a validated venue *)

Section NoZeroDivision.

Lemma rbind_no_zd {A B : Type} (r : result A) (k : A -> result B) :
  r <> Raise ZeroDivisionError -> (forall a, r = Ok a -> k a <> Raise ZeroDivisionError) ->
  rbind r k <> Raise ZeroDivisionError.
Proof. destruct r as [a|e]; cbn; [auto|]. intros Hr _. congruence. Qed.

Lemma of_int_no_zd (z : Z) : Py.of_int z <> Raise ZeroDivisionError.
Proof. unfold Py.of_int. destruct (binary_normalize _ _ _ _ _); discriminate. Qed.

Lemma to_int_no_zd (x : Py.float) : Py.to_int x <> Raise ZeroDivisionError.
Proof. destruct x; discriminate. Qed.

Lemma fdiv_no_zd (x y : Py.float) :
  Py.is_zero y = false -> Py.fdiv x y <> Raise ZeroDivisionError.
Proof. unfold Py.fdiv. intros ->. discriminate. Qed.

Lemma int_truediv_no_zd (a b : Z) :
  b <> 0 -> Py.int_truediv a b <> Raise ZeroDivisionError.
Proof.
  intros Hb. unfold Py.int_truediv. destruct (Z.eqb_spec b 0); [contradiction|].
  destruct (Z.abs a =? 0); [discriminate|].
  destruct (binary_round _ _ _ _ _); discriminate.
Qed.

Lemma to_float_no_zd (a : Py.num) : Py.to_float a <> Raise ZeroDivisionError.
Proof. destruct a; [apply of_int_no_zd|discriminate]. Qed.

Lemma num_to_int_no_zd (a : Py.num) : Py.num_to_int a <> Raise ZeroDivisionError.
Proof. destruct a; [discriminate|apply to_int_no_zd]. Qed.

Lemma int_mul_float_no_zd (z : Z) (x : Py.float) :
  Py.int_mul_float z x <> Raise ZeroDivisionError.
Proof.
  unfold Py.int_mul_float. apply rbind_no_zd; [apply of_int_no_zd|discriminate].
Qed.

Lemma float_mul_int_no_zd (x : Py.float) (z : Z) :
  Py.float_mul_int x z <> Raise ZeroDivisionError.
Proof.
  unfold Py.float_mul_int. apply rbind_no_zd; [apply of_int_no_zd|discriminate].
Qed.

Lemma num_mul_float_no_zd (a : Py.num) (x : Py.float) :
  Py.num_mul_float a x <> Raise ZeroDivisionError.
Proof.
  unfold Py.num_mul_float. apply rbind_no_zd; [apply to_float_no_zd|discriminate].
Qed.

Lemma int_div_float_no_zd (z : Z) (x : Py.float) :
  Py.is_zero x = false -> Py.int_div_float z x <> Raise ZeroDivisionError.
Proof.
  intros Hx. unfold Py.int_div_float. apply rbind_no_zd; [apply of_int_no_zd|].
  intros fz _. apply fdiv_no_zd. exact Hx.
Qed.

(** Rounding a number of the normal range does not give zero. *)
Lemma binary_round_not_zero (s : bool) (p : positive) (e : Z) :
  -1021 <= Zdigits2 (Zpos p) + e ->
  Py.is_zero (binary_round Py.prec Py.emax s p e) = false.
Proof.
  intros Hrange. unfold binary_round, shl_align.
  pose proof (PyFacts.Zdigits2_bounds (Zpos p) ltac:(lia)) as (Dlo & Dhi).
  pose proof (PyFacts.Zdigits2_pos (Zpos p) ltac:(lia)) as Dpos.
  change (Zpos (digits2_pos p)) with (Zdigits2 (Zpos p)).
  rewrite PyFacts.fexp_eq. rewrite Z.max_l by lia.
  destruct (Zdigits2 (Zpos p) + e - 53 - e) as [|k|d] eqn:He.
  - pose proof (PyFacts.binary_round_aux_spec s (Zpos p) e loc_Exact ltac:(lia)) as Hs.
    cbn zeta in Hs. rewrite PyFacts.fexp_eq, Z.max_l in Hs by lia.
    specialize (Hs ltac:(lia)).
    destruct (binary_round_aux _ _ _ _ _ _); try reflexivity.
    rewrite He, Z.pow_0_r, Z.div_1_r in Hs. lia.
  - pose proof (PyFacts.binary_round_aux_spec s (Zpos p) e loc_Exact ltac:(lia)) as Hs.
    cbn zeta in Hs. rewrite PyFacts.fexp_eq, Z.max_l in Hs by lia.
    specialize (Hs ltac:(lia)).
    destruct (binary_round_aux _ _ _ _ _ _); try reflexivity.
    rewrite He in Hs. exfalso.
    assert (Hle : 2 ^ Zpos k <= Zpos p).
    { eapply Z.le_trans; [|exact Dlo]. apply Z.pow_le_mono_r; lia. }
    assert (H2 : 0 < 2 ^ Zpos k) by (apply Z.pow_pos_nonneg; lia).
    pose proof (Z.div_le_mono _ _ (2 ^ Zpos k) H2 Hle) as Hd.
    rewrite Z.div_same in Hd by lia. lia.
  - change (Pos.iter xO p d) with (shift_pos d p).
    pose proof (shift_pos_correct d p) as Hsh.
    change (Z.pow_pos 2 d) with (2 ^ Zpos d) in Hsh.
    pose proof (PyFacts.binary_round_aux_spec s (Zpos (shift_pos d p))
                  (Zdigits2 (Zpos p) + e - 53) loc_Exact ltac:(lia)) as Hs.
    cbn zeta in Hs. rewrite PyFacts.fexp_eq in Hs.
    assert (Hdig : Zdigits2 (Zpos (shift_pos d p)) = Zdigits2 (Zpos p) + Zpos d).
    { rewrite Hsh, Z.mul_comm. apply PyFacts.Zdigits2_mul_pow2; lia. }
    rewrite Hdig in Hs.
    replace (Zdigits2 (Zpos p) + Zpos d + (Zdigits2 (Zpos p) + e - 53))
      with (Zdigits2 (Zpos p) + e) in Hs by lia.
    rewrite Z.max_l in Hs by lia. specialize (Hs ltac:(lia)).
    destruct (binary_round_aux _ _ _ _ _ _); try reflexivity.
    rewrite Z.sub_diag, Z.pow_0_r, Z.div_1_r in Hs. lia.
Qed.

(** Rounding an integer other than 0 does not give zero. *)
Lemma binary_round_int_not_zero (s : bool) (p : positive) :
  Py.is_zero (binary_round Py.prec Py.emax s p 0) = false.
Proof.
  apply binary_round_not_zero.
  pose proof (PyFacts.Zdigits2_pos (Zpos p) ltac:(lia)). lia.
Qed.

(** The float of an integer other than 0 is not zero. *)
Lemma of_int_not_zero (z : Z) (f : Py.float) :
  z <> 0 -> Py.of_int z = Ok f -> Py.is_zero f = false.
Proof.
  intros Hz. unfold Py.of_int, binary_normalize.
  destruct z as [|p|p]; [contradiction| |].
  - pose proof (binary_round_int_not_zero false p) as Hn.
    destruct (binary_round _ _ _ _ _); intros [= <-]; exact Hn.
  - pose proof (binary_round_int_not_zero true p) as Hn.
    destruct (binary_round _ _ _ _ _); intros [= <-]; exact Hn.
Qed.

Lemma float_div_int_no_zd (x : Py.float) (z : Z) :
  z <> 0 -> Py.float_div_int x z <> Raise ZeroDivisionError.
Proof.
  intros Hz. unfold Py.float_div_int. destruct (Z.eqb_spec z 0); [contradiction|].
  apply rbind_no_zd; [apply of_int_no_zd|]. intros fz Hfz. apply fdiv_no_zd.
  exact (of_int_not_zero z fz Hz Hfz).
Qed.

End NoZeroDivision.

Create HintDb nozd.

#[local] Hint Resolve of_int_no_zd to_int_no_zd to_float_no_zd num_to_int_no_zd
  int_mul_float_no_zd float_mul_int_no_zd num_mul_float_no_zd : nozd.

Section CrowdNoZeroDivision.

Context `{Clock}.

Lemma sum_caps_pos (gs : list Gate) :
  Forall (fun g => 1 <= capacity_per_minute g) gs -> gs <> [] ->
  0 < sum_Z (map capacity_per_minute gs).
Proof.
  intros Hgs Hne. destruct Hgs as [|g gs Hg Hgs]; [contradiction|].
  cbn [map sum_Z].
  assert (0 <= sum_Z (map capacity_per_minute gs)); [|lia].
  clear -Hgs. induction Hgs as [|g gs Hg Hgs IH]; cbn [map sum_Z]; lia.
Qed.

Lemma distribute_arrivals_no_zd (gs : list Gate) (n tc : Z) (st : CrowdState) :
  tc <> 0 -> distribute_arrivals gs n tc st <> Raise ZeroDivisionError.
Proof.
  intros Htc. revert st. induction gs as [|g gs IH]; intros st; cbn [distribute_arrivals];
    [discriminate|].
  apply rbind_no_zd; [apply int_truediv_no_zd; exact Htc|intros share _].
  apply rbind_no_zd; [auto with nozd|intros x _].
  apply rbind_no_zd; [auto with nozd|intros k _].
  apply rbind_no_zd; [destruct (gate_states st !! gate_id g); discriminate|intros gst _].
  apply IH.
Qed.

Lemma _process_arrivals_no_zd (eng : Engine) (venue : Venue) (st : CrowdState)
    (rate dt : Py.float) :
  Forall (fun g => 1 <= capacity_per_minute g) (gates venue) ->
  snd (_process_arrivals eng venue st rate dt) <> Raise ZeroDivisionError.
Proof.
  intros Hcap. unfold _process_arrivals.
  destruct (total_approaching st <=? 0); [discriminate|].
  pose proof (float_div_int_no_zd (Py.fmul rate dt) 60 ltac:(lia)) as Hd.
  destruct (Py.float_div_int _ _) as [x|e]; cbn;
    [|intros [= ->]; exact (Hd eq_refl)].
  apply rbind_no_zd; [auto with nozd|intros n _].
  destruct (_ <=? 0); [discriminate|].
  destruct (List.filter _ (gates venue)) as [|g gs] eqn:Hf; [discriminate|].
  apply distribute_arrivals_no_zd.
  assert (Hpos : 0 < sum_Z (map capacity_per_minute (g :: gs))); [|lia].
  apply sum_caps_pos; [|discriminate]. rewrite <- Hf.
  apply filter_Forall. exact Hcap.
Qed.

Lemma zone_densities_no_zd (st : CrowdState) (zs : list (option Zone)) :
  zone_densities st zs <> Raise ZeroDivisionError.
Proof.
  induction zs as [|[z|] zs IH]; cbn [zone_densities]; [discriminate| |exact IH].
  apply rbind_no_zd; [destruct (zone_states st !! zone_id z); discriminate|intros zst _].
  apply rbind_no_zd; [exact IH|discriminate].
Qed.

Lemma _calculate_flow_reduction_no_zd (p : SimulationParams) (st : CrowdState)
    (zs : list (option Zone)) :
  _calculate_flow_reduction p st zs <> Raise ZeroDivisionError.
Proof.
  unfold _calculate_flow_reduction. destruct zs as [|o os]; [discriminate|].
  apply rbind_no_zd; [apply zone_densities_no_zd|intros ds _].
  apply rbind_no_zd; [destruct ds; discriminate|discriminate].
Qed.

Lemma add_to_zones_no_zd (zs : list (option Zone)) (k : Z) (st : CrowdState) :
  add_to_zones zs k st <> Raise ZeroDivisionError.
Proof.
  revert st. induction zs as [|[z|] zs IH]; intros st; cbn [add_to_zones];
    [discriminate| |apply IH].
  apply rbind_no_zd; [destruct (zone_states st !! zone_id z); discriminate|intros zst _].
  apply IH.
Qed.

Lemma gates_loop_no_zd (p : SimulationParams) (venue : Venue) (gs : list Gate)
    (dt : Py.float) (st : CrowdState) (te : Z) :
  Py.is_zero dt = false -> gates_loop p venue gs dt st te <> Raise ZeroDivisionError.
Proof.
  intros Hdt. revert st te. induction gs as [|g gs IH]; intros st te; cbn [gates_loop];
    [discriminate|].
  destruct (negb (is_open g)); [apply IH|].
  apply rbind_no_zd; [destruct (gate_states st !! gate_id g); discriminate|intros gst _].
  destruct (queue_length gst <=? 0); [apply IH|].
  apply rbind_no_zd.
  { unfold gate_capacity_bound. apply rbind_no_zd; [auto with nozd|intros c _].
    apply rbind_no_zd; [apply float_div_int_no_zd; lia|discriminate]. }
  intros a0 _. apply rbind_no_zd; [apply _calculate_flow_reduction_no_zd|intros red _].
  apply rbind_no_zd.
  { unfold apply_reduction. apply rbind_no_zd; [auto with nozd|intros x _].
    auto with nozd. }
  intros k _. apply rbind_no_zd; [apply int_div_float_no_zd; exact Hdt|intros rate _].
  apply rbind_no_zd.
  { destruct (Z.ltb_spec 0 (capacity_per_minute g)); [|discriminate].
    apply rbind_no_zd; [apply int_truediv_no_zd; lia|discriminate]. }
  intros wait _. apply rbind_no_zd; [|intros st2 _; apply IH].
  destruct (map (get_zone venue) (gate_connected_zones g)); [discriminate|].
  destruct (0 <? k); [apply add_to_zones_no_zd|discriminate].
Qed.

Lemma _process_gates_no_zd (p : SimulationParams) (venue : Venue) (st : CrowdState)
    (dt : Py.float) :
  Py.is_zero dt = false -> _process_gates p venue st dt <> Raise ZeroDivisionError.
Proof.
  intros Hdt. unfold _process_gates.
  apply rbind_no_zd; [apply gates_loop_no_zd; exact Hdt|intros [st1 te] _].
  apply rbind_no_zd; [apply int_div_float_no_zd; exact Hdt|discriminate].
Qed.

Lemma flow_to_targets_no_zd (p : SimulationParams) (src : string) (red dt : Py.float)
    (n : Z) (ts : list Zone) (st : CrowdState) :
  n <> 0 -> flow_to_targets p src red dt n ts st <> Raise ZeroDivisionError.
Proof.
  intros Hn. revert st. induction ts as [|t ts IH]; intros st; cbn [flow_to_targets];
    [discriminate|].
  apply rbind_no_zd; [destruct (zone_states st !! zone_id t); discriminate|intros tst _].
  destruct (_ <=? 0); [apply IH|].
  apply rbind_no_zd; [destruct (zone_states st !! src); discriminate|intros zst _].
  apply rbind_no_zd; [auto with nozd|intros base _].
  apply rbind_no_zd; [apply float_div_int_no_zd; lia|intros a1 _].
  apply rbind_no_zd; [apply float_div_int_no_zd; exact Hn|intros a _].
  apply rbind_no_zd; [auto with nozd|intros b _].
  apply rbind_no_zd; [auto with nozd|intros flow _].
  destruct (0 <? flow); [|apply IH].
  apply rbind_no_zd; [|intros tst' _; apply IH].
  destruct (_ !! zone_id t); discriminate.
Qed.

Lemma zones_flow_loop_no_zd (p : SimulationParams) (venue : Venue) (zs : list Zone)
    (dt : Py.float) (st : CrowdState) :
  zones_flow_loop p venue zs dt st <> Raise ZeroDivisionError.
Proof.
  revert st. induction zs as [|z zs IH]; intros st; cbn [zones_flow_loop];
    [discriminate|].
  apply rbind_no_zd; [destruct (zone_states st !! zone_id z); discriminate|intros zst _].
  destruct (_ <=? 0); [apply IH|].
  apply rbind_no_zd; [|intros st1 _; apply IH].
  destruct (connected_of venue z) as [|t ts]; [discriminate|].
  apply flow_to_targets_no_zd. cbn [length]. lia.
Qed.

Lemma densities_loop_no_zd (p : SimulationParams) (zs : list Zone) (st : CrowdState) :
  Forall (fun z => Py.is_zero (area_sqm z) = false) zs ->
  densities_loop p zs st <> Raise ZeroDivisionError.
Proof.
  intros Hzs. revert st. induction Hzs as [|z zs Hz Hzs IH]; intros st;
    cbn [densities_loop]; [discriminate|].
  apply rbind_no_zd; [destruct (zone_states st !! zone_id z); discriminate|intros zst _].
  apply rbind_no_zd; [apply int_div_float_no_zd; exact Hz|intros d _]. apply IH.
Qed.

(** X19.  On a venue that passes validation (every gate with a capacity
    of at least 1, no zone of area zero) a step over a time other than
    zero never raises [ZeroDivisionError], whatever the state, unless the
    clock's own addition does. *)
Theorem validated_venue_never_divides_by_zero (eng : Engine) (venue : Venue)
    (st : CrowdState) (dt_seconds arrival_rate : Py.float) :
  Forall (fun g => 1 <= capacity_per_minute g) (gates venue) ->
  Forall (fun z => Py.is_zero (area_sqm z) = false) (zones venue) ->
  Py.is_zero dt_seconds = false ->
  add_seconds (timestamp st) dt_seconds <> Raise ZeroDivisionError ->
  snd (simulate_timestep eng venue st dt_seconds arrival_rate)
  <> Raise ZeroDivisionError.
Proof.
  intros Hcap Harea Hdt Hclock. unfold simulate_timestep.
  destruct (rbind (add_seconds _ _) _) as [st0|e] eqn:H0.
  - pose proof (_process_arrivals_no_zd eng venue st0 arrival_rate dt_seconds Hcap) as Ha.
    destruct (_process_arrivals _ _ _ _ _) as [eng1 r1]. cbn [snd] in Ha |- *.
    apply rbind_no_zd; [exact Ha|intros st1 _].
    apply rbind_no_zd; [apply _process_gates_no_zd; exact Hdt|intros st2 _].
    apply rbind_no_zd; [apply zones_flow_loop_no_zd|intros st3 _].
    apply densities_loop_no_zd. exact Harea.
  - cbn [snd]. rewrite <- H0.
    apply rbind_no_zd; [exact Hclock|intros t1 _].
    apply rbind_no_zd; [apply float_div_int_no_zd; lia|discriminate].
Qed.

End CrowdNoZeroDivision.

Lemma validated_venue_never_divides_by_zero_witness :
  snd (simulate_timestep Arena.engine Arena.venue Arena.opening Arena.minute
         (Py.lit 300 1)) <> Raise ZeroDivisionError.
Proof.
  apply validated_venue_never_divides_by_zero.
  - repeat constructor. cbn. lia.
  - repeat constructor.
  - reflexivity.
  - discriminate.
Defined.

(** ** Facility queues: where a division by zero can come from *)

Section FacilityNoZeroDivision.

Context `{Clock}.

Import Facilities.

Lemma num_truediv_no_zd (a b : Py.num) :
  num_is_zero b = false -> Py.num_truediv a b <> Raise ZeroDivisionError.
Proof.
  intros Hb. destruct a as [x|x], b as [y|y]; cbn [num_is_zero] in Hb;
    cbn [Py.num_truediv].
  - apply int_truediv_no_zd. apply Z.eqb_neq. exact Hb.
  - apply rbind_no_zd; [apply to_float_no_zd|intros fa _].
    apply rbind_no_zd; [discriminate|intros fb [= <-]]. apply fdiv_no_zd. exact Hb.
  - apply Z.eqb_neq in Hb. destruct y as [|p|p]; [contradiction| |];
      (apply rbind_no_zd; [discriminate|intros fa _];
       apply rbind_no_zd; [apply to_float_no_zd|intros fb Hfb];
       apply fdiv_no_zd; exact (of_int_not_zero _ fb Hb Hfb)).
  - destruct y; try discriminate Hb;
      (apply rbind_no_zd; [discriminate|intros fa _];
       apply rbind_no_zd; [discriminate|intros fb [= <-]]; apply fdiv_no_zd; reflexivity).
Qed.

Lemma num_mul_no_zd (a b : Py.num) : Py.num_mul a b <> Raise ZeroDivisionError.
Proof.
  destruct a as [x|x], b as [y|y]; cbn [Py.num_mul]; try discriminate;
    (apply rbind_no_zd; [apply to_float_no_zd|intros fa _];
     apply rbind_no_zd; [apply to_float_no_zd|discriminate]).
Qed.

(** A float that 0 is below is not zero. *)
Lemma positive_not_zero (x : Py.float) :
  Py.num_lt (Py.I 0) (Py.F x) = true -> Py.is_zero x = false.
Proof. destruct x; [discriminate|reflexivity..]. Qed.

Lemma step_facility_no_zd (f : Facility) (demand_mult u : Py.float)
    (zone_populations : dict Z) (dt_seconds : Z) :
  can_serve f ->
  step_facility f demand_mult u zone_populations dt_seconds <> Raise ZeroDivisionError.
Proof.
  intros (Hcap & Hst). unfold step_facility.
  apply rbind_no_zd; [auto with nozd|intros r _].
  apply rbind_no_zd; [apply int_truediv_no_zd; lia|intros dtm _].
  apply rbind_no_zd; [auto with nozd|intros a _].
  apply rbind_no_zd; [apply num_truediv_no_zd; exact Hst|intros rate _].
  apply rbind_no_zd; [auto with nozd|intros c _].
  apply rbind_no_zd; [apply num_mul_no_zd|intros busy _].
  apply rbind_no_zd; [apply num_truediv_no_zd; cbn; apply Z.eqb_neq; lia|intros w _].
  apply rbind_no_zd; [|discriminate].
  destruct (Py.num_lt (Py.I 0) (Py.F (Py.fmul rate dtm))) eqn:Hlt; [|discriminate].
  apply rbind_no_zd;
    [apply int_div_float_no_zd; exact (positive_not_zero _ Hlt)|intros q _].
  apply rbind_no_zd; [auto with nozd|discriminate].
Qed.

Lemma step_facility_can_serve (f f' : Facility) (fs : FacilityState)
    (demand_mult u : Py.float) (zone_populations : dict Z) (dt_seconds : Z) :
  step_facility f demand_mult u zone_populations dt_seconds = Ok (f', fs) ->
  can_serve f -> can_serve f'.
Proof.
  unfold step_facility. intros Hr.
  apply rbind_ok in Hr as (r & _ & Hr). apply rbind_ok in Hr as (dtm & _ & Hr).
  apply rbind_ok in Hr as (a & _ & Hr). apply rbind_ok in Hr as (rate & _ & Hr).
  apply rbind_ok in Hr as (c & _ & Hr). apply rbind_ok in Hr as (busy & _ & Hr).
  apply rbind_ok in Hr as (w & _ & Hr). apply rbind_ok in Hr as (ut & _ & Hr).
  injection Hr as <- _. exact (fun Hc => Hc).
Qed.

Lemma facilities_loop_no_zd (todo : list (string * Facility)) (demand_mult : Py.float)
    (zone_populations : dict Z) (dt_seconds : Z) (draws : nat -> Py.float) :
  forall (pos : nat) (sim : FacilitySimulator) (states : list FacilityState),
  Forall can_serve (dict_values (facilities sim)) ->
  snd (facilities_loop todo demand_mult zone_populations dt_seconds draws pos sim states)
  <> Raise ZeroDivisionError.
Proof.
  induction todo as [|[fid f0] todo IH]; intros pos sim states Hall;
    cbn [facilities_loop]; [discriminate|].
  destruct (dict_get fid (facilities sim)) as [f|] eqn:Hf; [|apply IH; exact Hall].
  destruct (negb (is_operational f)); [apply IH; exact Hall|].
  pose proof (dict_get_Forall can_serve fid _ f Hf Hall) as Hgood.
  pose proof (step_facility_no_zd f demand_mult (draws pos) zone_populations dt_seconds
                Hgood) as Hn.
  destruct (step_facility f demand_mult (draws pos) zone_populations dt_seconds)
    as [[f' fs]|e] eqn:Hs.
  - apply IH. cbn [facilities]. apply dict_set_Forall; [|exact Hall].
    exact (step_facility_can_serve _ _ _ _ _ _ _ Hs Hgood).
  - cbn [snd]. intros [= ->]. exact (Hn eq_refl).
Qed.

(** X20.  A step of the facility simulator raises [ZeroDivisionError] only
    over a facility without service points or with a service time of
    zero: when every facility has a capacity other than 0 and a service
    time other than zero, the step does not raise it, whatever the
    populations, the phase and the time step (a time step of zero
    included). *)
Theorem facilities_that_serve_never_divide_by_zero (sim : FacilitySimulator)
    (current_time : datetime) (event_phase : string) (zone_populations : dict Z)
    (dt_seconds : Z) (draws : nat -> Py.float) (pos : nat) :
  Forall can_serve (dict_values (facilities sim)) ->
  snd (simulate_step sim current_time event_phase zone_populations dt_seconds draws pos)
  <> Raise ZeroDivisionError.
Proof.
  intros Hall. unfold simulate_step.
  pose proof (facilities_loop_no_zd (facilities sim)
                (default Py.f1 (dict_get event_phase DEMAND_MULTIPLIERS))
                zone_populations dt_seconds draws pos sim [] Hall) as Hn.
  destruct (facilities_loop _ _ _ _ _ _ _ _) as [[sim1 pos1] [states|e]];
    [discriminate|exact Hn].
Qed.

End FacilityNoZeroDivision.

Lemma facilities_that_serve_never_divide_by_zero_witness :
  snd (Facilities.simulate_step Kiosk.sim t0 "halftime" Kiosk.crowd 0 Scenario.one_draw 0)
  <> Raise ZeroDivisionError.
Proof.
  apply facilities_that_serve_never_divide_by_zero.
  repeat constructor; cbn; lia.
Defined.

(** ** Evacuation: no division by zero over a step of some duration *)

Section QuotientNotZero.

(** The quotient of an integer other than 0 by one of moderate size is
    not zero. *)
Lemma int_truediv_not_zero (a b : Z) (f : Py.float) :
  a <> 0 -> b <> 0 -> Z.log2 (Z.abs b) <= 900 ->
  Py.int_truediv a b = Ok f -> Py.is_zero f = false.
Proof.
  intros Ha Hb Hlog. unfold Py.int_truediv.
  destruct (Z.eqb_spec b 0); [contradiction|].
  destruct (Z.eqb_spec (Z.abs a) 0); [lia|].
  set (a' := Z.abs a). set (b' := Z.abs b).
  set (k := Z.max 0 (Z.log2 b' + 56 - Z.log2 a')).
  set (m := 2 * (a' * 2 ^ k / b') + (if a' * 2 ^ k mod b' =? 0 then 0 else 1)).
  assert (Ha' : 0 < a') by (subst a'; lia).
  assert (Hb' : 0 < b') by (subst b'; lia).
  pose proof (Z.log2_spec a' Ha') as (Alo & _).
  pose proof (Z.log2_spec b' Hb') as (_ & Bhi).
  pose proof (Z.log2_nonneg a'). pose proof (Z.log2_nonneg b').
  assert (Hn : b' <= a' * 2 ^ k).
  { assert (H2k : 0 < 2 ^ k) by (apply Z.pow_pos_nonneg; lia).
    assert (Hp : 2 ^ (Z.log2 b' + 1) <= 2 ^ (Z.log2 a' + k))
      by (apply Z.pow_le_mono_r; lia).
    rewrite (Z.pow_add_r 2 (Z.log2 a') k) in Hp by lia.
    assert (Hmul : 2 ^ Z.log2 a' * 2 ^ k <= a' * 2 ^ k)
      by (apply Z.mul_le_mono_nonneg_r; lia).
    replace (Z.succ (Z.log2 b')) with (Z.log2 b' + 1) in Bhi by lia. lia. }
  assert (Hq : 1 <= a' * 2 ^ k / b').
  { apply Z.div_le_lower_bound; lia. }
  assert (Hm : 2 <= m) by (subst m; destruct (_ =? 0); lia).
  assert (Hz : Py.is_zero (binary_round Py.prec Py.emax (xorb (a <? 0) (b <? 0))
                             (Z.to_pos m) (- k - 1)) = false).
  { apply binary_round_not_zero. rewrite Z2Pos.id by lia.
    pose proof (PyFacts.Zdigits2_pos m ltac:(lia)).
    assert (Hk : k <= 956) by (subst k; fold b' in Hlog; lia). lia. }
  destruct (binary_round _ _ _ _ _); try discriminate; intros [= <-];
    first [exact Hz|reflexivity].
Qed.

End QuotientNotZero.

Section EvacuationNoZeroDivision.

Context `{Clock}.

Import Evacuation.

Lemma safely_ret {A : Type} (a : A) : divides_safely (ret a).
Proof. intros s Hs. split; [discriminate|exact Hs]. Qed.

Lemma safely_bind {A B : Type} (m : M A) (k : A -> M B) :
  divides_safely m -> (forall a, divides_safely (k a)) -> divides_safely (bind m k).
Proof.
  intros Hm Hk s Hs. unfold bind. destruct (Hm s Hs) as (Hn & Hi).
  destruct (m s) as [s1 [a|e]]; cbn [fst snd] in *.
  - exact (Hk a s1 Hi).
  - split; [intros [= ->]; exact (Hn eq_refl)|exact Hi].
Qed.

Lemma safely_bind_lift {A B : Type} (r : result A) (k : A -> M B) :
  r <> Raise ZeroDivisionError -> (forall a, r = Ok a -> divides_safely (k a)) ->
  divides_safely (bind (lift r) k).
Proof.
  intros Hr Hk s Hs. unfold bind, lift. destruct r as [a|e]; cbn [fst snd].
  - exact (Hk a eq_refl s Hs).
  - split; [intros [= ->]; exact (Hr eq_refl)|exact Hs].
Qed.

Lemma safely_modify (f : EvacuationSimulator -> EvacuationSimulator) :
  (forall s, areas_not_zero s -> areas_not_zero (f s)) -> divides_safely (modify f).
Proof. intros Hf s Hs. split; [discriminate|exact (Hf s Hs)]. Qed.

Lemma evacuated_via_no_zd (ex : EmergencyExit) (zone : EvacuationZone)
    (velocity dt_minutes : Py.float) (ze : Z) :
  Py.is_zero velocity = false -> Py.is_zero (area_sqm zone) = false ->
  evacuated_via ex zone velocity dt_minutes ze <> Raise ZeroDivisionError.
Proof.
  intros Hv Ha. unfold evacuated_via.
  apply rbind_no_zd; [apply to_float_no_zd|intros fd _].
  apply rbind_no_zd; [apply fdiv_no_zd; exact Hv|intros tt _].
  apply rbind_no_zd; [apply int_div_float_no_zd; exact Ha|intros d _].
  apply rbind_no_zd; [apply fdiv_no_zd; reflexivity|intros q _].
  apply rbind_no_zd; [auto with nozd|intros r _].
  apply rbind_no_zd; [auto with nozd|discriminate].
Qed.

Lemma exits_loop_safely (zone : EvacuationZone) (velocity dt_minutes : Py.float)
    (ids : list string) (ze : Z) :
  Py.is_zero velocity = false -> Py.is_zero dt_minutes = false ->
  Py.is_zero (area_sqm zone) = false ->
  divides_safely (exits_loop zone velocity dt_minutes ids ze).
Proof.
  intros Hv Hdt Ha. revert ze. induction ids as [|eid ids IH]; intros ze;
    cbn [exits_loop]; [apply safely_ret|].
  intros s Hs. destruct (dict_get eid (exits s)) as [ex|]; [|exact (IH ze s Hs)].
  destruct (negb (is_accessible ex)); [exact (IH ze s Hs)|].
  revert s Hs. apply safely_bind_lift; [apply evacuated_via_no_zd; assumption|].
  intros n _. apply safely_bind_lift.
  { apply rbind_no_zd; [apply int_div_float_no_zd; exact Hdt|intros x _].
    apply to_int_no_zd. }
  intros rate _. apply safely_bind; [|intros _; apply IH].
  apply safely_modify. intros s Hs. exact Hs.
Qed.

Lemma areas_insert (s : EvacuationSimulator) (a : nat) (z : EvacuationZone) :
  Py.is_zero (area_sqm z) = false -> areas_not_zero s ->
  areas_not_zero (set_heap s (<[a := z]> (heap s))).
Proof. intros Hz Hs. unfold areas_not_zero. cbn. apply Forall_insert; assumption. Qed.

Lemma areas_bump (n : Z) (s : EvacuationSimulator) :
  areas_not_zero s -> areas_not_zero (bump_total n s).
Proof. unfold bump_total, areas_not_zero. destruct (state s); cbn; auto. Qed.

Lemma process_zone_safely (dt_minutes : Py.float) (a : nat) :
  Py.is_zero dt_minutes = false -> divides_safely (process_zone dt_minutes a).
Proof.
  intros Hdt s Hs. unfold process_zone.
  destruct (heap s !! a) as [zone|] eqn:Hz; [|split; [discriminate|exact Hs]].
  destruct (state s) as [st|]; [|split; [discriminate|exact Hs]].
  destruct (current_occupancy zone <=? 0); [split; [discriminate|exact Hs]|].
  assert (Ha : Py.is_zero (area_sqm zone) = false).
  { unfold areas_not_zero in Hs. rewrite Forall_lookup in Hs. exact (Hs a zone Hz). }
  revert s Hs Hz. 
  assert (Hsafe : divides_safely
            (bind (modify (fun s0 => set_heap s0 (<[a := set_started zone]> (heap s0))))
               (fun _ =>
                bind (exits_loop (set_started zone)
                        (if phase_eqb (phase st) PANIC then PANIC_VELOCITY
                         else NORMAL_VELOCITY)
                        dt_minutes (nearest_exits (set_started zone)) 0)
                  (fun zone_evacuated =>
                   bind (modify (fun s0 =>
                           bump_total zone_evacuated
                             (set_heap s0
                                (<[a := evacuate (set_started zone) zone_evacuated]>
                                   (heap s0)))))
                     (fun _ =>
                      if 0 <? current_occupancy (evacuate (set_started zone) zone_evacuated)
                      then
                        fun s0 =>
                          let cap :=
                            remaining_exits_capacity (exits s0)
                              (evacuate (set_started zone) zone_evacuated) in
                          if 0 <? cap
                          then
                            bind
                              (lift
                                 (let* q :=
                                    Py.int_truediv
                                      (current_occupancy
                                         (evacuate (set_started zone) zone_evacuated))
                                      cap in
                                  let* x := Py.float_mul_int q 60 in Py.to_int x))
                              (fun t =>
                               modify (fun s1 =>
                                 set_heap s1
                                   (<[a := set_time_remaining
                                             (evacuate (set_started zone) zone_evacuated)
                                             t]> (heap s1)))) s0
                          else (s0, Ok tt)
                      else ret tt))))).
  { apply safely_bind.
    { apply safely_modify. intros s Hs. apply areas_insert; [exact Ha|exact Hs]. }
    intros _. apply safely_bind.
    { apply exits_loop_safely; [destruct (phase_eqb _ _); reflexivity|exact Hdt|exact Ha]. }
    intros ze. apply safely_bind.
    { apply safely_modify. intros s Hs. apply areas_bump.
      apply areas_insert; [exact Ha|exact Hs]. }
    intros _. destruct (0 <? _); [|apply safely_ret].
    intros s Hs. cbn zeta.
    destruct (Z.ltb_spec 0 (remaining_exits_capacity (exits s)
                              (evacuate (set_started zone) ze))) as [Hc|Hc];
      [|split; [discriminate|exact Hs]].
    refine (safely_bind_lift _ _ _ _ s Hs).
    { apply rbind_no_zd; [apply int_truediv_no_zd; lia|intros q _].
      apply rbind_no_zd; [auto with nozd|intros x _]. apply to_int_no_zd. }
    intros t _. apply safely_modify. intros s1 Hs1.
    apply areas_insert; [exact Ha|exact Hs1]. }
  intros s Hs _. exact (Hsafe s Hs).
Qed.

Lemma zones_loop_safely (dt_minutes : Py.float) (zs : dict nat) :
  Py.is_zero dt_minutes = false -> divides_safely (zones_loop dt_minutes zs).
Proof.
  intros Hdt. induction zs as [|[zid a] zs IH]; cbn [zones_loop]; [apply safely_ret|].
  apply safely_bind; [apply process_zone_safely; exact Hdt|intros _; exact IH].
Qed.

Lemma update_state_safely {A : Type}
    (g : EvacuationSimulator -> EvacuationState datetime nat -> result A)
    (f : EvacuationState datetime nat -> A -> EvacuationState datetime nat) :
  (forall s st, areas_not_zero s -> g s st <> Raise ZeroDivisionError) ->
  divides_safely (update_state g f).
Proof.
  intros Hg s Hs. unfold update_state. destruct (state s) as [st|];
    [|split; [discriminate|exact Hs]].
  specialize (Hg s st Hs). destruct (g s st) as [a|e]; cbn [fst snd].
  - split; [discriminate|exact Hs].
  - split; [intros [= ->]; exact (Hg eq_refl)|exact Hs].
Qed.

Lemma zone_bottlenecks_no_zd (h : list EvacuationZone) (zs : dict nat) :
  Forall (fun z => Py.is_zero (area_sqm z) = false) h ->
  zone_bottlenecks h zs <> Raise ZeroDivisionError.
Proof.
  intros Hh. induction zs as [|[zid a] zs IH]; cbn [zone_bottlenecks]; [discriminate|].
  destruct (h !! a) as [zone|] eqn:Hz; [|exact IH].
  destruct (current_occupancy zone <=? 0); [exact IH|].
  rewrite Forall_lookup in Hh.
  apply rbind_no_zd; [apply int_div_float_no_zd; exact (Hh a zone Hz)|intros d _].
  apply rbind_no_zd; [exact IH|intros r _].
  destruct (Py.fge d CRUSHING_DENSITY); [discriminate|].
  destruct (Py.fge d BOTTLENECK_DENSITY); discriminate.
Qed.

Lemma exit_bottlenecks_no_zd (exs : dict EmergencyExit) :
  exit_bottlenecks exs <> Raise ZeroDivisionError.
Proof.
  induction exs as [|[eid ex] exs IH]; cbn [exit_bottlenecks]; [discriminate|].
  apply rbind_no_zd; [auto with nozd|intros l _].
  apply rbind_no_zd; [exact IH|intros r _].
  destruct (Py.num_ge _ _); discriminate.
Qed.

Lemma occupied_densities_no_zd (zs : list EvacuationZone) :
  Forall (fun z => Py.is_zero (area_sqm z) = false) zs ->
  occupied_densities zs <> Raise ZeroDivisionError.
Proof.
  induction 1 as [|z zs Hz Hzs IH]; cbn [occupied_densities]; [discriminate|].
  destruct (0 <? current_occupancy z); [|exact IH].
  apply rbind_no_zd; [apply int_div_float_no_zd; exact Hz|intros d _].
  apply rbind_no_zd; [exact IH|discriminate].
Qed.

Lemma deref_areas (h : list EvacuationZone) (d : dict nat) :
  Forall (fun z => Py.is_zero (area_sqm z) = false) h ->
  Forall (fun z => Py.is_zero (area_sqm z) = false) (deref h d).
Proof.
  intros Hh. unfold deref, dict_values. rewrite Forall_lookup in Hh.
  induction d as [|[k a] d IH]; cbn; [constructor|].
  destruct (h !! a) as [z|] eqn:Hz; cbn; [|exact IH].
  constructor; [exact (Hh a z Hz)|exact IH].
Qed.

Lemma finish_step_safely : divides_safely finish_step.
Proof.
  unfold finish_step.
  apply safely_bind.
  { apply update_state_safely. intros s st Hs. unfold _detect_bottlenecks.
    apply rbind_no_zd; [apply zone_bottlenecks_no_zd; exact Hs|intros zb _].
    apply rbind_no_zd; [apply exit_bottlenecks_no_zd|discriminate]. }
  intros _. apply safely_bind.
  { intros s Hs. unfold _update_phase. destruct (state s) as [st|];
      [|split; [discriminate|exact Hs]].
    pose proof (occupied_densities_no_zd _ (deref_areas (heap s) (zones st) Hs)) as Hn.
    destruct (occupied_densities _) as [ds|e]; cbn [fst snd].
    - split; [discriminate|exact Hs].
    - split; [intros [= ->]; exact (Hn eq_refl)|exact Hs]. }
  intros _. apply safely_bind.
  { apply update_state_safely. intros s st Hs. unfold _generate_recommendations.
    apply rbind_no_zd; [apply int_truediv_no_zd; lia|intros q _].
    apply rbind_no_zd; [auto with nozd|intros pr _].
    apply rbind_no_zd; [apply int_truediv_no_zd; lia|discriminate]. }
  intros _. apply safely_bind.
  { apply update_state_safely. intros s st Hs. unfold overall_estimate.
    destruct (0 <? _); [|discriminate].
    apply rbind_no_zd; [apply int_truediv_no_zd; lia|intros q _].
    apply rbind_no_zd; [auto with nozd|intros x _]. apply to_int_no_zd. }
  intros _. apply safely_modify. intros s Hs. destruct (state s); exact Hs.
Qed.

(** X21.  When no zone has an area of zero, a step of the evacuation over
    a time other than zero does not raise [ZeroDivisionError], and neither
    does any later step of such a time: the step leaves the areas as they
    are. *)
Theorem timed_step_never_divides_by_zero (s : EvacuationSimulator) (dt_seconds : Z) :
  areas_not_zero s -> dt_seconds <> 0 ->
  snd (simulate_step dt_seconds s) <> Raise ZeroDivisionError /\
  areas_not_zero (fst (simulate_step dt_seconds s)).
Proof.
  intros Hs Hdt. unfold simulate_step.
  destruct (state s) as [st|]; [|split; [discriminate|exact Hs]].
  revert s Hs. apply safely_bind.
  { apply safely_modify. intros s Hs. exact Hs. }
  intros _. apply safely_bind_lift; [apply int_truediv_no_zd; lia|].
  intros dtm Hdtm.
  assert (Hz : Py.is_zero dtm = false).
  { apply (int_truediv_not_zero dt_seconds 60); [exact Hdt|lia| |exact Hdtm].
    vm_compute. discriminate. }
  apply safely_bind; [apply zones_loop_safely; exact Hz|].
  intros _. apply finish_step_safely.
Qed.

End EvacuationNoZeroDivision.

Lemma timed_step_never_divides_by_zero_witness :
  snd (Evacuation.simulate_step 60 Restart.started) <> Raise ZeroDivisionError /\
  areas_not_zero (fst (Evacuation.simulate_step 60 Restart.started)).
Proof.
  apply timed_step_never_divides_by_zero; [|lia].
  unfold areas_not_zero.
  replace (Evacuation.heap Restart.started) with Scenario.stadium_zones
    by (vm_compute; reflexivity).
  repeat constructor.
Defined.

(** ** Crowd engine: the risk scale and the gates' capacity *)

Section RiskScale.

Lemma flt_below (d1 d2 t : Py.float) :
  Py.fle d1 d2 = true -> Py.flt d2 t = true -> Py.flt d1 t = true.
Proof.
  intros Hle Hlt. apply (flt_of_fle d1 d2 t Hle); [|exact Hlt].
  unfold Py.flt, SFltb in Hlt. destruct t; try reflexivity.
  destruct d2; discriminate Hlt.
Qed.

(** X22.  The risk level never goes down when the density goes up: for
    densities [d1 <= d2] the level of [d1] is at most the level of [d2] on
    the scale safe, moderate, high, critical, whatever the thresholds of
    the parameters. *)
Theorem risk_level_follows_density (p : SimulationParams) (d1 d2 : Py.float) :
  Py.fle d1 d2 = true ->
  (risk_rank (_get_risk_level p d1) <= risk_rank (_get_risk_level p d2))%nat.
Proof.
  intros Hle. unfold _get_risk_level.
  destruct (Py.flt d2 (density_comfortable p)) eqn:H2a.
  { rewrite (flt_below d1 d2 _ Hle H2a). cbn. lia. }
  destruct (Py.flt d2 (density_crowded p)) eqn:H2b.
  { rewrite (flt_below d1 d2 _ Hle H2b).
    destruct (Py.flt d1 (density_comfortable p)); cbn; lia. }
  destruct (Py.flt d2 (density_dangerous p)) eqn:H2c.
  { rewrite (flt_below d1 d2 _ Hle H2c).
    destruct (Py.flt d1 (density_comfortable p)); [cbn; lia|].
    destruct (Py.flt d1 (density_crowded p)); cbn; lia. }
  destruct (Py.flt d1 (density_comfortable p)); [cbn; lia|].
  destruct (Py.flt d1 (density_crowded p)); [cbn; lia|].
  destruct (Py.flt d1 (density_dangerous p)); cbn; lia.
Qed.

(** X23.  On a venue whose gates each let at least one person a minute
    through, as validation requires, the total capacity of the open gates
    is at least their number: it is zero exactly when no gate is open. *)
Theorem open_gates_have_capacity (venue : Venue) :
  Forall (fun g => 1 <= capacity_per_minute g) (gates venue) ->
  Z.of_nat (length (List.filter is_open (gates venue))) <= get_total_gate_capacity venue /\
  (get_total_gate_capacity venue = 0 <-> List.filter is_open (gates venue) = []).
Proof.
  intros Hcap. unfold get_total_gate_capacity.
  assert (Hlen : Z.of_nat (length (List.filter is_open (gates venue)))
                 <= sum_Z (map capacity_per_minute (List.filter is_open (gates venue)))).
  { induction Hcap as [|g gs Hg Hgs IH]; cbn [List.filter]; [cbn; lia|].
    destruct (is_open g); [|exact IH]. cbn [length map sum_Z]. lia. }
  split; [exact Hlen|]. split.
  - intros Hz. destruct (List.filter is_open (gates venue)); [reflexivity|].
    cbn [length] in Hlen. lia.
  - intros ->. reflexivity.
Qed.

End RiskScale.

Lemma risk_level_follows_density_witness :
  (risk_rank (_get_risk_level default_params (Py.lit 1 1))
   <= risk_rank (_get_risk_level default_params (Py.lit 5 1)))%nat.
Proof.
  exact (risk_level_follows_density default_params (Py.lit 1 1) (Py.lit 5 1) eq_refl).
Defined.

Lemma open_gates_have_capacity_witness :
  Z.of_nat (length (List.filter is_open (gates Arena.venue)))
  <= get_total_gate_capacity Arena.venue /\
  (get_total_gate_capacity Arena.venue = 0
   <-> List.filter is_open (gates Arena.venue) = []).
Proof.
  apply open_gates_have_capacity. repeat constructor. cbn. lia.
Defined.

(** ** The route's stepping loop keeps the ledgers *)

Section RouteLedgers.

Context `{Clock}.

Lemma _process_arrivals_params (eng : Engine) (venue : Venue) (st : CrowdState)
    (rate dt : Py.float) :
  params (fst (_process_arrivals eng venue st rate dt)) = params eng.
Proof.
  unfold _process_arrivals. destruct (_ <=? 0); [reflexivity|].
  destruct (Py.float_div_int _ _); reflexivity.
Qed.

Lemma simulate_timestep_params (eng : Engine) (venue : Venue) (st : CrowdState)
    (dt rate : Py.float) :
  params (fst (simulate_timestep eng venue st dt rate)) = params eng.
Proof.
  unfold simulate_timestep. destruct (rbind (add_seconds _ _) _) as [st0|e];
    [|reflexivity].
  pose proof (_process_arrivals_params eng venue st0 rate dt) as Hp.
  destruct (_process_arrivals _ _ _ _ _) as [eng1 r1]. exact Hp.
Qed.

(** What one step that returns does to the ledgers. *)
Lemma timestep_ledgers (eng : Engine) (venue : Venue) (st st' : CrowdState)
    (dt rate : Py.float) :
  NoDup (map gate_id (gates venue)) -> NoDup (map zone_id (zones venue)) ->
  Forall (fun g => 0 <= capacity_per_minute g) (gates venue) ->
  Py.nonneg dt -> reductions_nonneg (params eng) ->
  snd (simulate_timestep eng venue st dt rate) = Ok st' ->
  total_queuing st' - queues_total venue st' = total_queuing st - queues_total venue st /\
  total_inside st - zones_total venue st <= total_inside st' - zones_total venue st' /\
  total_exited st' = total_exited st /\
  total_approaching st' <= total_approaching st /\
  total_inside st <= total_inside st'.
Proof.
  intros Hng Hnz Hcap Hdt Hp. unfold simulate_timestep.
  destruct (rbind (add_seconds _ _) _) as [st0|e] eqn:H0; [|discriminate].
  apply rbind_ok in H0 as (t1 & _ & H0). apply rbind_ok in H0 as (m & _ & H0).
  injection H0 as <-.
  destruct (_process_arrivals _ _ _ _ _) as [eng1 r1] eqn:Ha. cbn. intros Hr.
  apply rbind_ok in Hr as (st1 & -> & Hr).
  apply rbind_ok in Hr as (st2 & H2 & Hr).
  apply rbind_ok in Hr as (st3 & H3 & Hr).
  apply (f_equal snd) in Ha. cbn [snd] in Ha.
  pose proof (_process_arrivals_ledger _ _ _ _ _ _ Hng Ha) as Haq.
  pose proof (_process_arrivals_zones _ _ _ _ _ _ Ha) as (Hai & Haz).
  pose proof (_process_arrivals_exited _ _ _ _ _ _ Ha) as Hae.
  pose proof (_process_arrivals_forward _ _ _ _ _ _ Hcap Ha) as (Haa & _ & _).
  pose proof (zones_flow_loop_counters _ _ _ _ _ _ H3) as (Hc3 & Hg3).
  pose proof (zones_flow_loop_total _ _ _ _ _ _ Hnz (ids_member zone_id (zones venue)) H3)
    as Hz3.
  pose proof (densities_loop_counters _ _ _ _ Hr) as (Hcr & Hgr).
  pose proof (densities_loop_occupancy _ _ _ _ Hr) as Hor.
  unfold counters in Hc3, Hcr.
  injection Hc3 as H3a H3q H3i H3e. injection Hcr as Hra Hrq Hri Hre.
  unfold _process_gates in H2.
  apply rbind_ok in H2 as ([st1' te] & Hl & H2).
  apply rbind_ok in H2 as (r & _ & H2). apply ok_inj in H2.
  pose proof (gates_loop_totals _ _ _ _ _ _ _ _ Hl) as (Hga & Hgi & Hge & Hgq).
  pose proof (gates_loop_ledger _ _ _ _ _ _ _ _ Hng (ids_member gate_id (gates venue)) Hl)
    as Hlq.
  pose proof (gates_loop_zones _ _ _ _ _ _ _ _ Hnz Hcap Hdt Hp Hl) as Hlz.
  pose proof (gates_loop_forward _ _ _ _ _ _ _ _ Hcap Hdt Hp Hl) as Hlf.
  assert (Hzr : zones_total venue st' = zones_total venue st3).
  { unfold zones_total. f_equal. apply map_ext. intros z. apply Hor. }
  assert (Hz0 : zones_total venue st1 = zones_total venue st).
  { unfold zones_total, occupancy_of. rewrite Haz. reflexivity. }
  assert (Hqr : queues_total venue st' = queues_total venue st2).
  { unfold queues_total. rewrite Hgr, Hg3. reflexivity. }
  rewrite Hzr, Hqr, Hz3. subst st2.
  unfold queues_total, zones_total, occupancy_of in *. cbn in *.
  repeat split; lia.
Qed.

(** X24.  The stepping loop of the route keeps the ledgers of the crowd
    state over any number of steps: for a venue with distinct gate ids and
    distinct zone ids, gate capacities that are not negative and reduction
    factors that are not negative, when the loop returns, [total_queuing]
    has changed by exactly as much as the sum of the gates' queues, the
    zones have gained no more people than [total_inside], nobody has
    exited, and nobody has moved back from the queues or from inside. *)
Theorem stepping_keeps_ledgers (steps : Z) (eng eng' : Engine) (venue : Venue)
    (arrival_curve : list (Py.float * Py.float)) (now now' : Py.float)
    (st st' : CrowdState) :
  NoDup (map gate_id (gates venue)) -> NoDup (map zone_id (zones venue)) ->
  Forall (fun g => 0 <= capacity_per_minute g) (gates venue) ->
  reductions_nonneg (params eng) ->
  simulation_step_loop steps eng venue arrival_curve now st = (eng', Ok (now', st')) ->
  total_queuing st' - queues_total venue st' = total_queuing st - queues_total venue st /\
  total_inside st - zones_total venue st <= total_inside st' - zones_total venue st' /\
  total_exited st' = total_exited st /\
  total_approaching st' <= total_approaching st /\
  total_inside st <= total_inside st'.
Proof.
  intros Hng Hnz Hcap. unfold simulation_step_loop.
  generalize (Z.to_nat steps) as n. intros n. revert eng now st.
  induction n as [|n IH]; intros eng now st Hp Hr; cbn [stepping_loop] in Hr.
  - injection Hr as _ _ <-. repeat split; lia.
  - destruct (Py.to_int now) as [cm|e]; [|discriminate Hr].
    pose proof (timestep_ledgers eng venue st) as Hstep.
    pose proof (simulate_timestep_params eng venue st (Py.lit 10 1)
                  (arrival_rate_at arrival_curve cm)) as Hpar.
    destruct (simulate_timestep eng venue st (Py.lit 10 1)
                (arrival_rate_at arrival_curve cm)) as [eng1 [st1|e]] eqn:Hs;
      [|discriminate Hr].
    cbn [fst snd] in Hpar.
    specialize (Hstep st1 (Py.lit 10 1) (arrival_rate_at arrival_curve cm)
                  Hng Hnz Hcap I Hp).
    rewrite Hs in Hstep. specialize (Hstep eq_refl).
    destruct (Py.float_div_int (Py.lit 10 1) 60) as [m|e]; [|discriminate Hr].
    apply IH in Hr; [|rewrite Hpar; exact Hp]. lia.
Qed.

End RouteLedgers.

Lemma stepping_keeps_ledgers_witness :
  exists eng' now' st',
    simulation_step_loop 3 Arena.engine Arena.venue [(Py.f0, Py.lit 300 1)] Py.f0
      Arena.opening = (eng', Ok (now', st')) /\
    total_queuing st' - queues_total Arena.venue st'
    = total_queuing Arena.opening - queues_total Arena.venue Arena.opening /\
    total_inside Arena.opening - zones_total Arena.venue Arena.opening
    <= total_inside st' - zones_total Arena.venue st'.
Proof.
  assert (Hr : exists eng' now' st',
            simulation_step_loop 3 Arena.engine Arena.venue [(Py.f0, Py.lit 300 1)]
              Py.f0 Arena.opening = (eng', Ok (now', st')))
    by (do 3 eexists; vm_compute; reflexivity).
  destruct Hr as (eng' & now' & st' & Hr). exists eng', now', st'.
  split; [exact Hr|].
  destruct (stepping_keeps_ledgers 3 Arena.engine eng' Arena.venue
              [(Py.f0, Py.lit 300 1)] Py.f0 now' Arena.opening st') as (H1 & H2 & _).
  - apply NoDup_cons. split; [apply not_elem_of_nil|apply NoDup_nil_2].
  - apply NoDup_cons. split; [apply not_elem_of_nil|apply NoDup_nil_2].
  - repeat constructor. cbn. lia.
  - repeat split.
  - exact Hr.
  - exact (conj H1 H2).
Defined.
